(** * script-kiwi: resolution and execution pipeline

    A shallow embedding of the parts of [script_kiwi/tools/run.py],
    [script_kiwi/utils/script_resolver.py],
    [script_kiwi/utils/env_manager.py] and
    [script_kiwi/utils/shared/preflight.py] that the specification talks
    about or that they call, followed by the properties proved of them.

    Python values are embedded as the inductive type [value]; dictionaries
    are association lists in insertion order (a Python [dict] iterates in
    insertion order and has pairwise distinct keys, see [wf_dict]);
    exceptions are an explicit [result]; mutable process state ([sys.stderr],
    logging handlers) is an explicit store. *)

Set Warnings "-register-all".
From Stdlib Require Import List String Ascii ZArith Lia Bool DecimalString.
From stdpp Require Import base gmap strings.
Import ListNotations.
Open Scope string_scope.
Open Scope Z_scope.
Open Scope list_scope.

(** ** Python values *)

Module Py.

(** JSON-like Python data.  A float is kept as mantissa and binary
    exponent; no operation below computes with it. *)
Inductive value : Type :=
| VNone
| VBool (b : bool)
| VInt (n : Z)
| VFloat (m e : Z)
| VStr (s : string)
| VList (items : list value)
| VDict (entries : list (string * value)).

Definition dict (A : Type) : Type := list (string * A).

(** [d.get(k)] *)
Fixpoint dict_get {A} (k : string) (d : dict A) : option A :=
  match d with
  | [] => None
  | (k', v) :: d' => if String.eqb k k' then Some v else dict_get k d'
  end.

(** [d[k] = v]: replaces the value in place when the key is present,
    appends the pair otherwise. *)
Fixpoint dict_set {A} (k : string) (v : A) (d : dict A) : dict A :=
  match d with
  | [] => [(k, v)]
  | (k', v') :: d' =>
      if String.eqb k k' then (k, v) :: d' else (k', v') :: dict_set k v d'
  end.

(** [d.update(other)] *)
Definition dict_update {A} (d other : dict A) : dict A :=
  fold_left (fun acc kv => dict_set (fst kv) (snd kv) acc) other d.

Definition keys {A} (d : dict A) : list string := map fst d.

(** [k in d] *)
Definition dict_mem {A} (k : string) (d : dict A) : bool :=
  match dict_get k d with Some _ => true | None => false end.

(** The keys of a Python dict are pairwise distinct. *)
Definition wf_dict {A} (d : dict A) : Prop := NoDup (keys d).

(** [bool(v)] *)
Definition truthy (v : value) : bool :=
  match v with
  | VNone => false
  | VBool b => b
  | VInt n => negb (n =? 0)
  | VFloat m _ => negb (m =? 0)
  | VStr s => negb (String.eqb s "")
  | VList l => match l with [] => false | _ => true end
  | VDict d => match d with [] => false | _ => true end
  end.

(** [type(v).__name__] *)
Definition type_name (v : value) : string :=
  match v with
  | VNone => "NoneType"
  | VBool _ => "bool"
  | VInt _ => "int"
  | VFloat _ _ => "float"
  | VStr _ => "str"
  | VList _ => "list"
  | VDict _ => "dict"
  end.

(** [str(n)] for an integer. *)
Definition str_of_Z (z : Z) : string := NilZero.string_of_int (Z.to_int z).

Definition len {A} (l : list A) : Z := Z.of_nat (length l).
Definition str_len (s : string) : Z := Z.of_nat (String.length s).

(** [l[:k]]; a negative [k] counts from the end. *)
Definition slice_to {A} (k : Z) (l : list A) : list A :=
  if k <? 0 then firstn (Z.to_nat (len l + k)) l else firstn (Z.to_nat k) l.

(** [s[:k]] *)
Definition str_slice_to (k : Z) (s : string) : string :=
  if k <? 0 then substring 0 (Z.to_nat (str_len s + k)) s
  else substring 0 (Z.to_nat k) s.

(** [s.startswith(p)] *)
Definition startswith (p s : string) : bool := String.prefix p s.

(** [a or b] on strings. *)
Definition str_or (a b : string) : string :=
  if String.eqb a "" then b else a.

End Py.
Import Py.

(** ** Response shaping: [truncate_large_response] (run.py, lines 23-85) *)

Definition MAX_RESPONSE_SIZE_BYTES : Z := 1000000.
Definition MAX_ARRAY_ITEMS : Z := 1000.
Definition MAX_LOG_LINES : Z := 500.
Definition MAX_STRING_LENGTH : Z := 10000.

Definition array_note (n max_items : Z) : value :=
  VDict [("type", VStr "array");
         ("original_count", VInt n);
         ("truncated_count", VInt max_items);
         ("message", VStr ("Array truncated from " +:+ str_of_Z n +:+ " to "
                           +:+ str_of_Z max_items
                           +:+ " items. Use --output-file to get full results."))].

Definition string_note (n max_string : Z) : value :=
  VDict [("type", VStr "string");
         ("original_length", VInt n);
         ("truncated_length", VInt max_string);
         ("message", VStr ("String truncated from " +:+ str_of_Z n +:+ " to "
                           +:+ str_of_Z max_string +:+ " characters."))].

Definition newline : string := String (ascii_of_nat 10) EmptyString.

Definition string_suffix (dropped : Z) : string :=
  newline +:+ "... (truncated " +:+ str_of_Z dropped +:+ " more characters)".

(** Returns the pair [(truncated_data, truncation_info)].  The two local
    fixpoints are the two [for] loops of the source, with the dictionary
    (resp. list) under construction and [truncation_info] as accumulators. *)
Fixpoint truncate_large_response (data : value) (max_items max_string : Z)
    (path : string) {struct data} : value * dict value :=
  match data with
  | VDict entries =>
      let fix items (kvs : list (string * value))
                    (truncated truncation_info : dict value) {struct kvs}
          : value * dict value :=
        match kvs with
        | [] => (VDict truncated, truncation_info)
        | (key, v) :: rest =>
            let new_path :=
              if String.eqb path "" then key else path +:+ "." +:+ key in
            let '(truncated_val, info) :=
              truncate_large_response v max_items max_string new_path in
            items rest (dict_set key truncated_val truncated)
                  (match info with
                   | [] => truncation_info
                   | _ => dict_update truncation_info info
                   end)
        end in
      items entries [] []
  | VList l =>
      if len l >? max_items then
        (VList (slice_to max_items l),
         [(str_or path "root", array_note (len l) max_items)])
      else
        let fix each (xs : list value) (i : Z)
                     (truncated : list value) (truncation_info : dict value)
                     {struct xs} : value * dict value :=
          match xs with
          | [] => (VList truncated, truncation_info)
          | item :: rest =>
              let new_path :=
                if String.eqb path "" then "[" +:+ str_of_Z i +:+ "]"
                else path +:+ "[" +:+ str_of_Z i +:+ "]" in
              let '(truncated_item, info) :=
                truncate_large_response item max_items max_string new_path in
              each rest (i + 1) (truncated ++ [truncated_item])
                   (match info with
                    | [] => truncation_info
                    | _ => dict_update truncation_info info
                    end)
          end in
        each l 0 [] []
  | VStr s =>
      if str_len s >? max_string then
        (VStr (str_slice_to max_string s
               +:+ string_suffix (str_len s - max_string)),
         [(str_or path "root", string_note (str_len s) max_string)])
      else (data, [])
  | _ => (data, [])
  end.

Definition truncated_data (data : value) (max_items max_string : Z) : value :=
  fst (truncate_large_response data max_items max_string "").

(** ** Exceptions *)

(** A raised Python exception: its class name, whether the class derives
    from [ImportError] ([ImportError], [ModuleNotFoundError]), whether it
    derives from [Exception] (all do but [SystemExit], [KeyboardInterrupt],
    [GeneratorExit], [asyncio.CancelledError] and the classes a script
    derives from [BaseException] alone), and [str(e)]. *)
Record exn : Type := Exn {
  exn_type : string;
  exn_is_import_error : bool;
  exn_is_exception : bool;
  exn_msg : string
}.

Definition ValueError (msg : string) : exn := Exn "ValueError" false true msg.
Definition RuntimeError (msg : string) : exn := Exn "RuntimeError" false true msg.
Definition AttributeError (msg : string) : exn := Exn "AttributeError" false true msg.
Definition TypeError (msg : string) : exn := Exn "TypeError" false true msg.

Inductive result (A : Type) : Type :=
| Ok (a : A)
| Raise (e : exn).
Arguments Ok {A} a.
Arguments Raise {A} e.

(** ** Dependency metadata (run.py, lines 185-347; script_metadata.py) *)

Definition MODULE_TO_PACKAGE : dict string :=
  [("git", "GitPython");
   ("bs4", "beautifulsoup4");
   ("yaml", "PyYAML");
   ("dotenv", "python-dotenv");
   ("sklearn", "scikit-learn");
   ("cv2", "opencv-python");
   ("PIL", "Pillow");
   ("openai", "openai");
   ("anthropic", "anthropic");
   ("supabase", "supabase");
   ("googleapiclient", "google-api-python-client");
   ("google_auth_oauthlib", "google-auth-oauthlib")].

(** [{v: k for k, v in MODULE_TO_PACKAGE.items()}] *)
Definition PACKAGE_TO_MODULE : dict string :=
  fold_left (fun acc kv => dict_set (snd kv) (fst kv) acc) MODULE_TO_PACKAGE [].

(** [d.get(k, default)] *)
Definition get_default {A} (k : string) (default : A) (d : dict A) : A :=
  match dict_get k d with Some v => v | None => default end.

(** [d.get(k)], with Python's [None] for a missing key. *)
Definition get (k : string) (d : dict value) : value :=
  get_default k VNone d.

(** [s.replace(a, b)] for single characters [a] and [b]. *)
Fixpoint replace_char (a b : ascii) (s : string) : string :=
  match s with
  | EmptyString => EmptyString
  | String c s' =>
      String (if Ascii.eqb c a then b else c) (replace_char a b s')
  end.

Definition corrupted : string :=
  "Script metadata is corrupted - republish the script.".

(** A validated dependency, the dict [{"name": name, "version": version}]
    with [name] a string and [version] a string or [None]. *)
Record dependency : Type := Dep {
  dep_name : string;
  dep_version : option string
}.

Definition opt_str (o : option string) : value :=
  match o with Some s => VStr s | None => VNone end.

Definition dep_value (d : dependency) : value :=
  VDict [("name", VStr (dep_name d)); ("version", opt_str (dep_version d))].

Section RunTool_dependencies.

(** [str(v)] as formatted into messages by an f-string: Python's builtin
    formatting of arbitrary values is taken as given. *)
Variable py_str : value -> string.

Definition name_error (i : Z) (name : value) : exn :=
  ValueError ("Dependency " +:+ str_of_Z i
              +:+ " 'name' field must be a string, got "
              +:+ type_name name +:+ ": " +:+ py_str name +:+ ". "
              +:+ corrupted).

Definition json_error (i : Z) (n : string) : exn :=
  ValueError ("Dependency " +:+ str_of_Z i
              +:+ " 'name' field appears to be JSON-encoded: "
              +:+ str_slice_to 100 n +:+ ". "
              +:+ "Script metadata is corrupted - republish the script with correct metadata.").

Definition version_error (i : Z) (version : value) : exn :=
  ValueError ("Dependency " +:+ str_of_Z i
              +:+ " 'version' field must be a string or None, got "
              +:+ type_name version +:+ ": " +:+ py_str version +:+ ". "
              +:+ corrupted).

Definition dict_error (i : Z) (dep : value) : exn :=
  ValueError ("Dependency " +:+ str_of_Z i +:+ " must be a dict, got "
              +:+ type_name dep +:+ ": " +:+ py_str dep +:+ ". "
              +:+ corrupted).

(** One iteration of the [for i, dep in enumerate(dependencies)] loop of
    [_validate_dependencies]: the checks on entry [i]. *)
Definition validate_entry (i : Z) (dep : value) : result dependency :=
  match dep with
  | VDict d =>
      let name := get "name" d in
      match name with
      | VStr n =>
          if negb (truthy name) then Raise (name_error i name)
          else if startswith "{" n || startswith "[" n then
            Raise (json_error i n)
          else
            let version := get "version" d in
            match version with
            | VNone => Ok (Dep n None)
            | VStr v => Ok (Dep n (Some v))
            | _ => Raise (version_error i version)
            end
      | _ => Raise (name_error i name)
      end
  | _ => Raise (dict_error i dep)
  end.

(** The loop from index [i] on, with the list [validated] built so far. *)
Fixpoint validate_entries (i : Z) (deps : list value)
    (validated : list dependency) : result (list dependency) :=
  match deps with
  | [] => Ok validated
  | dep :: rest =>
      match validate_entry i dep with
      | Ok d => validate_entries (i + 1) rest (validated ++ [d])
      | Raise e => Raise e
      end
  end.

Definition _validate_dependencies (dependencies : value)
    : result (list dependency) :=
  match dependencies with
  | VList deps => validate_entries 0 deps []
  | _ =>
      Raise (ValueError
        ("Dependencies must be a list, got " +:+ type_name dependencies
         +:+ ". " +:+ corrupted))
  end.

(** The merge step of [RunTool.execute] (run.py, lines 1170-1177):
    [existing_names] is computed once, before the loop, from the
    dependencies extracted from the script file.  The names extracted from
    a file are strings, so membership of a string in the set is equality
    with one of them. *)
Definition existing_names (pip_dependencies : list value) : list value :=
  flat_map (fun d => match d with VDict e => [get "name" e] | _ => [] end)
           pip_dependencies.

Definition name_in (n : string) (names : list value) : bool :=
  existsb (fun v => match v with VStr s => String.eqb n s | _ => false end)
          names.

Fixpoint append_registry_deps (names : list value)
    (validated_registry_deps : list dependency)
    (pip_dependencies : list value) : list value :=
  match validated_registry_deps with
  | [] => pip_dependencies
  | dep :: rest =>
      let name := get_default (dep_name dep) (dep_name dep) MODULE_TO_PACKAGE in
      if negb (String.eqb name "") && negb (name_in name names)
      then append_registry_deps names rest
             (pip_dependencies ++ [dep_value (Dep name (dep_version dep))])
      else append_registry_deps names rest pip_dependencies
  end.

Definition merge_dependencies (pip_dependencies : list value)
    (validated_registry_deps : list dependency) : list value :=
  append_registry_deps (existing_names pip_dependencies)
                       validated_registry_deps pip_dependencies.

End RunTool_dependencies.

(** ** Process state and effects *)

(** What the code does to the outside world, in order. *)
Inductive event : Type :=
| PipInstall (python package_spec : string)
| DownloadScript (script_name : string)
| StartExecution (script_name : string)
| LogExecutionStart (script_name : string)
| ExecModule (script_path : string)
| CallFunction
| ScriptSubprocess (script_path : string)
| WriteOutputFile (output_path : string)
| LogExecution (status : value)
| CompleteExecution (status : value).

(** A [logging.Handler] object: a [StreamHandler] (or subclass) with its
    [stream] attribute, an object identity, or a handler of another
    class. *)
Inductive handler : Type :=
| StreamHandler (stream : nat)
| OtherHandler.

(** The part of the interpreter state the code reads and writes:
    [sys.stderr] (an object identity), the handler objects by identity,
    [logging.Logger.manager.loggerDict] and the root logger with the
    handlers attached to each, the next fresh object identity, and the
    events so far. *)
Record proc : Type := Proc {
  sys_stderr : nat;
  handlers : gmap nat handler;
  loggerDict : list (string * list nat);
  root_handlers : list nat;
  next_obj : nat;
  trace : list event
}.

Definition M (A : Type) : Type := proc -> proc * result A.

Definition ret {A} (a : A) : M A := fun p => (p, Ok a).

Definition bind {A B} (m : M A) (k : A -> M B) : M B :=
  fun p => match m p with
           | (p', Ok a) => k a p'
           | (p', Raise e) => (p', Raise e)
           end.

Definition raise {A} (e : exn) : M A := fun p => (p, Raise e).

(** An outcome decided outside the process (a collaborator's answer). *)
Definition lift {A} (r : result A) : M A := fun p => (p, r).

Definition emit (ev : event) : M unit :=
  fun p => (Proc (sys_stderr p) (handlers p) (loggerDict p) (root_handlers p)
                 (next_obj p) (trace p ++ [ev]), Ok tt).

(** [try: body except Exception as e: handler(e)]: an exception that does
    not derive from [Exception] passes through. *)
Definition try_except {A} (body : M A) (handle : exn -> M A) : M A :=
  fun p => match body p with
           | (p', Ok a) => (p', Ok a)
           | (p', Raise e) =>
               if exn_is_exception e then handle e p' else (p', Raise e)
           end.

(** [try: body finally: cleanup]; an exception raised by [cleanup]
    replaces the outcome of [body]. *)
Definition try_finally {A} (body : M A) (cleanup : M unit) : M A :=
  fun p => match body p with
           | (p', r) =>
               match cleanup p' with
               | (p'', Ok _) => (p'', r)
               | (p'', Raise e) => (p'', Raise e)
               end
           end.

Declare Scope py_scope.
Delimit Scope py_scope with py.
Notation "'let*' x ':=' m 'in' k" := (bind m (fun x => k))
  (at level 10, x binder, m at level 100, k at level 200) : py_scope.
Notation "m '>>' k" := (bind m (fun _ => k))
  (at level 100, k at level 200, right associativity) : py_scope.
Open Scope py_scope.

(** ** Installers *)

(** The outcome of [subprocess.run([python, "-m", "pip", "install", spec], ...)]. *)
Inductive pip_outcome : Type :=
| Completed (returncode : Z) (stderr : string)
| TimeoutExpired
| Failed (e : exn).

Definition install_status (installed failed : list value) : value :=
  match failed with
  | [] => VStr "success"
  | _ => match installed with [] => VStr "error" | _ => VStr "partial" end
  end.

Definition install_result (installed failed : list value) : value :=
  VDict [("status", install_status installed failed);
         ("installed", VList installed);
         ("failed", VList failed)].

Module EnvManager.

(** The package spec built inside [install_packages]
    (env_manager.py, lines 229-238), for [packages : list[dict[str, str]]]:
    [pkg_version] is [pkg.get("version")], a string or [None]. *)
Definition package_spec (pkg_name : string) (pkg_version : option string)
    : string :=
  match pkg_version with
  | Some v =>
      if negb (String.eqb v "") then
        if startswith ">=" v || startswith "<=" v || startswith "==" v
           || startswith "~=" v || startswith "!=" v
        then pkg_name +:+ v
        else pkg_name +:+ "==" +:+ v
      else pkg_name
  | None => pkg_name
  end.

Section install.

(** The interpreter of the managed environment, as [self.get_python()]
    returned it, and the outcome of running pip on a package spec. *)
Variable python : string.
Variable pip : string -> pip_outcome.

Definition failure (pkg_name error : string) : value :=
  VDict [("name", VStr pkg_name); ("error", VStr error)].

Fixpoint install_each (packages : list (dict string))
    (installed failed : list value) : M value :=
  match packages with
  | [] => ret (install_result installed failed)
  | pkg :: rest =>
      let pkg_name := dict_get "name" pkg in
      let pkg_version := dict_get "version" pkg in
      match pkg_name with
      | None | Some "" => install_each rest installed failed
      | Some n =>
          let spec := package_spec n pkg_version in
          emit (PipInstall python spec) >>
          match pip spec with
          | Completed 0 _ =>
              install_each rest
                (installed ++ [VDict [("name", VStr n);
                                      ("version", opt_str pkg_version)]])
                failed
          | Completed _ stderr =>
              install_each rest installed
                (failed ++ [failure n
                   (if String.eqb stderr "" then "Unknown error"
                    else str_slice_to 500 stderr)])
          | TimeoutExpired =>
              install_each rest installed
                (failed ++ [failure n "Installation timed out"])
          | Failed ex =>
              install_each rest installed (failed ++ [failure n (exn_msg ex)])
          end
      end
  end.

End install.

(** [python = self.get_python()] comes after the test for an empty list
    and before the loop.  [get_python] runs [ensure_venv()] first, which
    raises a [RuntimeError] when the environment cannot be created:
    [get_python] is the outcome of that call. *)
Definition install_packages (get_python : result string)
    (pip : string -> pip_outcome) (packages : list (dict string)) : M value :=
  match packages with
  | [] => ret (install_result [] [])
  | _ =>
      let* python := lift get_python in
      install_each python pip packages [] []
  end.

End EnvManager.

(** ** The file system as the resolver sees it *)

Module FS.

(** What [open] followed by [json.load] makes of a file. *)
Inductive content : Type :=
| Unreadable
| Malformed
| Json (v : value).

Inductive node : Type :=
| File (name : string) (c : content)
| Dir (name : string) (children : list node).

(** A [pathlib.Path], as its components below the root directory. *)
Definition path : Type := list string.

Definition node_name (n : node) : string :=
  match n with File s _ => s | Dir s _ => s end.

Fixpoint child (name : string) (children : list node) : option node :=
  match children with
  | [] => None
  | n :: rest => if String.eqb name (node_name n) then Some n else child name rest
  end.

(** The node a path leads to, from the directory [n]. *)
Fixpoint lookup (p : path) (n : node) {struct p} : option node :=
  match p with
  | [] => Some n
  | c :: p' =>
      match n with
      | Dir _ children =>
          match child c children with
          | Some n' => lookup p' n'
          | None => None
          end
      | File _ _ => None
      end
  end.

(** [p.exists()] and [p.is_file()] *)
Definition exists_ (fs : node) (p : path) : bool :=
  match lookup p fs with Some _ => true | None => false end.

Definition is_file (fs : node) (p : path) : bool :=
  match lookup p fs with Some (File _ _) => true | _ => false end.

(** [base.rglob(fname)] on the node [n] found at [base], for an [fname]
    that [rglob] takes as one literal file name: it holds no asterisk,
    question mark or opening bracket, which would make it a glob pattern,
    and no slash, which would make it several path components.  Every
    directory from [base] downwards, parents before children, is asked for
    an entry of that name.  The order of [children] stands for the order
    in which the directory is scanned. *)
Fixpoint rglob (fname : string) (base : path) (n : node) {struct n} : list path :=
  match n with
  | File _ _ => []
  | Dir _ children =>
      (match child fname children with
       | Some _ => [base ++ [fname]]
       | None => []
       end)
      ++ (fix below (cs : list node) : list path :=
            match cs with
            | [] => []
            | c :: cs' =>
                match c with
                | Dir cname _ => rglob fname (base ++ [cname]) c
                | File _ _ => []
                end ++ below cs'
            end) children
  end.

(** [open(p)] then [json.load(f)] *)
Definition load_json (fs : node) (p : path) : result value :=
  match lookup p fs with
  | Some (File _ (Json v)) => Ok v
  | Some (File _ Malformed) => Raise (Exn "JSONDecodeError" false true "Expecting value")
  | Some (File _ Unreadable) => Raise (Exn "PermissionError" false true "Permission denied")
  | Some (Dir _ _) => Raise (Exn "IsADirectoryError" false true "Is a directory")
  | None => Raise (Exn "FileNotFoundError" false true "No such file or directory")
  end.

End FS.

(** ** Script resolution (script_resolver.py) *)

Inductive tier : Type := Project | User | Registry.

(** The registry collaborator: whether a database client is configured, and
    the answer of [get_script(script_name, version)]. *)
Record registry : Type := {
  client : bool;
  get_script : string -> value -> result value
}.

Record ScriptResolver : Type := {
  project_root : FS.path;
  user_home : FS.path;
  script_kiwi_home : FS.path;
  registry_client : registry
}.

(** The dict returned by [resolve_script].  Its ["category"] and
    ["subcategory"] entries, derived from the path text, are not modelled. *)
Record resolution : Type := {
  location : option tier;
  path : option FS.path;
  version : value;
  lockfile_version : value;
  registry_data : option (dict value)
}.

Section Resolver.

(** The tree as the process can list it.  Script names and categories are
    taken to be single path components, and the search by name is the
    literal one of [FS.rglob]. *)
Variable fs : FS.node.

(** What [os.stat] raises on a path, if anything, besides the errors that
    stand for an absent file (ENOENT, ENOTDIR, EBADF, ELOOP): a
    [PermissionError] below a directory that may not be searched, an
    [OSError] for a file name that is too long.  [Path.exists] and
    [Path.is_file] re-raise it. *)
Variable stat_error : FS.path -> option exn.

Variable self : ScriptResolver.

(** [p.exists()] and [p.is_file()] *)
Definition exists_ (p : FS.path) : result bool :=
  match stat_error p with
  | Some e => Raise e
  | None => Ok (FS.exists_ fs p)
  end.

Definition is_file (p : FS.path) : result bool :=
  match stat_error p with
  | Some e => Raise e
  | None => Ok (FS.is_file fs p)
  end.

Definition project_scripts : FS.path := project_root self ++ [".ai"; "scripts"].
Definition user_scripts : FS.path := script_kiwi_home self ++ ["scripts"].

(** [f"{script_name}.py"] *)
Definition py_file (script_name : string) : string := script_name +:+ ".py".

(** The [for p in dir.rglob(...): if p.is_file(): return p] loops: the
    first of the paths found that is a file. *)
Fixpoint first_of (found : list FS.path) : result (option FS.path) :=
  match found with
  | [] => Ok None
  | p :: rest =>
      match is_file p with
      | Raise e => Raise e
      | Ok true => Ok (Some p)
      | Ok false => first_of rest
      end
  end.

Definition first_file (dir : FS.path) (fname : string)
    : result (option FS.path) :=
  match FS.lookup dir fs with
  | Some n => first_of (FS.rglob fname dir n)
  | None => Ok None
  end.

(** [_check_project_space] and [_check_user_space] differ only in the
    scripts directory they search.  A category is a directory name; an
    empty one counts as absent ([if category:]). *)
Definition check_space (scripts : FS.path) (script_name : string)
    (category : option string) : result (option FS.path) :=
  let search_all : result (option FS.path) :=
    match exists_ scripts with
    | Raise e => Raise e
    | Ok false => Ok None
    | Ok true => first_file scripts (py_file script_name)
    end in
  match category with
  | Some c =>
      if negb (String.eqb c "") then
        let direct_path := scripts ++ [c; py_file script_name] in
        match exists_ direct_path with
        | Raise e => Raise e
        | Ok true => Ok (Some direct_path)
        | Ok false =>
            let cat_dir := scripts ++ [c] in
            match exists_ cat_dir with
            | Raise e => Raise e
            | Ok true => first_file cat_dir (py_file script_name)
            | Ok false => Ok None
            end
        end
      else search_all
  | None => search_all
  end.

Definition _check_project_space := check_space project_scripts.
Definition _check_user_space := check_space user_scripts.

(** [v.get(k, default)] on an arbitrary value: only a dict has [get]. *)
Definition py_get (v : value) (k : string) (default : value) : result value :=
  match v with
  | VDict d => Ok (get_default k default d)
  | _ => Raise (AttributeError
           ("'" +:+ type_name v +:+ "' object has no attribute 'get'"))
  end.

(** The two [lockfile_path.exists()] tests come before the [try:], so what
    they raise leaves the function; whatever the [try] block raises makes
    the answer [None]. *)
Definition _get_lockfile_version (script_name : string) : result value :=
  let project_lock := project_root self ++ [".ai"; "scripts.lock.json"] in
  let user_lock := user_home self ++ [".script-kiwi"; "scripts.lock.json"] in
  let read (lockfile_path : FS.path) : result value :=
    match (match FS.load_json fs lockfile_path with
           | Ok lockfile =>
               match py_get lockfile "scripts" (VDict []) with
               | Ok scripts => py_get scripts script_name VNone
               | Raise e => Raise e
               end
           | Raise e => Raise e
           end) with
    | Ok v => Ok v
    | Raise _ => Ok VNone
    end in
  match exists_ project_lock with
  | Raise e => Raise e
  | Ok true => read project_lock
  | Ok false =>
      match exists_ user_lock with
      | Raise e => Raise e
      | Ok true => read user_lock
      | Ok false => Ok VNone
      end
  end.

Definition registry_fields : list string :=
  ["name"; "category"; "subcategory"; "version"; "content"; "content_hash";
   "module_path"; "description"; "dependencies"; "required_env_vars";
   "required_libs"; "changelog"].

Definition registry_entry (script : dict value) : dict value :=
  map (fun k =>
         (k, if String.eqb k "dependencies" || String.eqb k "required_env_vars"
                || String.eqb k "required_libs"
             then get_default k (VList []) script
             else get k script))
      registry_fields.

Definition _check_registry (script_name : string) (lockfile_version : value)
    : option (dict value) :=
  if negb (client (registry_client self)) then None
  else
    match get_script (registry_client self) script_name lockfile_version with
    | Ok script =>
        if truthy script then
          match script with
          | VDict d => Some (registry_entry d)
          | _ => None
          end
        else None
    | Raise _ => None
    end.

(** [p = self._check_..._space(...)] followed by [p and p.exists()] *)
Definition present (found : result (option FS.path))
    : result (option FS.path) :=
  match found with
  | Raise e => Raise e
  | Ok None => Ok None
  | Ok (Some q) =>
      match exists_ q with
      | Raise e => Raise e
      | Ok true => Ok (Some q)
      | Ok false => Ok None
      end
  end.

Definition resolve_script (script_name : string) (category : option string)
    : result resolution :=
  match _get_lockfile_version script_name with
  | Raise e => Raise e
  | Ok lockfile_version =>
      match present (_check_project_space script_name category) with
      | Raise e => Raise e
      | Ok (Some project_path) =>
          Ok {| location := Some Project; path := Some project_path;
                version := VNone; lockfile_version := lockfile_version;
                registry_data := None |}
      | Ok None =>
          match present (_check_user_space script_name category) with
          | Raise e => Raise e
          | Ok (Some user_path) =>
              Ok {| location := Some User; path := Some user_path;
                    version := VNone; lockfile_version := lockfile_version;
                    registry_data := None |}
          | Ok None =>
              match _check_registry script_name lockfile_version with
              | Some registry_script =>
                  Ok {| location := Some Registry; path := None;
                        version := get "version" registry_script;
                        lockfile_version := lockfile_version;
                        registry_data := Some registry_script |}
              | None =>
                  Ok {| location := None; path := None; version := VNone;
                        lockfile_version := lockfile_version;
                        registry_data := None |}
              end
          end
      end
  end.

End Resolver.

(** ** The run tool (run.py) *)

(** Primitive accesses to the interpreter state. *)
Definition read {A} (f : proc -> A) : M A := fun p => (p, Ok (f p)).

(** [sys.stderr = s] *)
Definition set_stderr (s : nat) : M unit :=
  fun p => (Proc s (handlers p) (loggerDict p) (root_handlers p)
                 (next_obj p) (trace p), Ok tt).

(** [handler.stream = s] on the handler object [h]. *)
Definition set_stream (h s : nat) : M unit :=
  fun p => (Proc (sys_stderr p) (<[h := StreamHandler s]> (handlers p))
                 (loggerDict p) (root_handlers p) (next_obj p) (trace p),
            Ok tt).

(** Allocation of a new object: its identity differs from every earlier
    one. *)
Definition new_object : M nat :=
  fun p => (Proc (sys_stderr p) (handlers p) (loggerDict p) (root_handlers p)
                 (S (next_obj p)) (trace p), Ok (next_obj p)).

(** [try: body except (ModuleNotFoundError, ImportError) as e: handle(e)] *)
Definition try_except_import {A} (body : M A) (handle : exn -> M A) : M A :=
  fun p => match body p with
           | (p', Raise e) =>
               if exn_is_import_error e then handle e p' else (p', Raise e)
           | r => r
           end.

Definition quote : ascii := "'"%char.

(** [s.split("'")[1]]: the text between the first quote and the next one
    (or the end). *)
Fixpoint until_quote (s : string) : string :=
  match s with
  | EmptyString => EmptyString
  | String c s' => if Ascii.eqb c quote then EmptyString else String c (until_quote s')
  end.

Fixpoint after_quote (s : string) : option string :=
  match s with
  | EmptyString => None
  | String c s' => if Ascii.eqb c quote then Some s' else after_quote s'
  end.

Definition missing_module_name (msg : string) : string :=
  match after_quote msg with
  | Some rest => until_quote rest
  | None => msg
  end.

(** A script's entry point, [execute(params)] or [main(params)]: arbitrary
    code, which may write to and replace any part of the interpreter
    state, and may raise. *)
Definition script_function : Type := dict value -> M value.

Section function_script.

(** [_ensure_runs_dir(_get_history_file())], and flushing the original
    diagnostic stream. *)
Variable ensure_runs_dir : result unit.
Variable flush_original : result unit.

(** The loops over [logger_obj.handlers[:]]: every stream handler whose
    stream is the original [sys.stderr], or the current one, is pointed at
    the dual writer and remembered with the stream to restore. *)
Fixpoint rewire (hs : list nat) (original_stderr dual_stderr : nat)
    (updated_handlers : list (nat * nat)) : M (list (nat * nat)) :=
  match hs with
  | [] => ret updated_handlers
  | h :: rest =>
      let* ho := read (fun p => handlers p !! h) in
      let* current := read sys_stderr in
      match ho with
      | Some (StreamHandler stream) =>
          if Nat.eqb stream original_stderr || Nat.eqb stream current then
            set_stream h dual_stderr >>
            rewire rest original_stderr dual_stderr
                   (updated_handlers ++ [(h, original_stderr)])
          else rewire rest original_stderr dual_stderr updated_handlers
      | _ => rewire rest original_stderr dual_stderr updated_handlers
      end
  end.

Fixpoint rewire_loggers (ls : list (string * list nat))
    (original_stderr dual_stderr : nat)
    (updated_handlers : list (nat * nat)) : M (list (nat * nat)) :=
  match ls with
  | [] => ret updated_handlers
  | (_, hs) :: rest =>
      let* updated := rewire hs original_stderr dual_stderr updated_handlers in
      rewire_loggers rest original_stderr dual_stderr updated
  end.

(** [for logger_obj, handler, orig_stream in updated_handlers:
       handler.stream = orig_stream] *)
Fixpoint restore (updated_handlers : list (nat * nat)) : M unit :=
  match updated_handlers with
  | [] => ret tt
  | (h, orig_stream) :: rest => set_stream h orig_stream >> restore rest
  end.

Definition _run_function_script (func : script_function)
    (script_params : dict value) (stream_logs : value) : M value :=
  if negb (truthy stream_logs) then
    emit CallFunction >> func script_params
  else
    lift ensure_runs_dir >>
    let* original_stderr := read sys_stderr in
    let* dual_stderr := new_object in
    set_stderr dual_stderr >>
    let* loggers := read loggerDict in
    let* named := rewire_loggers loggers original_stderr dual_stderr [] in
    let* root := read root_handlers in
    let* updated_handlers := rewire root original_stderr dual_stderr named in
    try_finally
      (try_except_import
         (emit CallFunction >> func script_params)
         (fun e =>
            raise (RuntimeError
              ("Missing dependency: " +:+ missing_module_name (exn_msg e)
               +:+ ". Add to script dependencies or install manually."))))
      (set_stderr original_stderr >>
       restore updated_handlers >>
       lift flush_original).

End function_script.

(** *** Python helpers used by [RunTool] *)

(** [{k: v for k, v in d.items() if k not in ks}] *)
Definition dict_without (ks : list string) (d : dict value) : dict value :=
  filter (fun kv => negb (existsb (String.eqb (fst kv)) ks)) d.

Fixpoint dict_remove {A} (k : string) (d : dict A) : dict A :=
  match d with
  | [] => []
  | (k', v) :: d' =>
      if String.eqb k k' then d' else (k', v) :: dict_remove k d'
  end.

(** [d.pop(k, default)]: the value and the dict that is left. *)
Definition dict_pop (k : string) (default : value) (d : dict value)
    : (value * dict value)%type :=
  (get_default k default d, dict_remove k d).

(** [a or b] *)
Definition py_or (a b : value) : value := if truthy a then a else b.

(** [v == "s"] for a string literal. *)
Definition is_str (s : string) (v : value) : bool :=
  match v with VStr s' => String.eqb s s' | _ => false end.

Definition is_dict (v : value) : bool :=
  match v with VDict _ => true | _ => false end.

(** [v is None] *)
Definition is_none (v : value) : bool :=
  match v with VNone => true | _ => false end.

(** [response["metadata"][k] = v] *)
Definition set_metadata (k : string) (v : value) (response : dict value)
    : dict value :=
  match dict_get "metadata" response with
  | Some (VDict m) => dict_set "metadata" (VDict (dict_set k v m)) response
  | _ => response
  end.

(** [f"{n:,}"] for a non-negative integer. *)
Fixpoint group3 (rev_digits : list ascii) (n : nat) : list ascii :=
  match rev_digits with
  | [] => []
  | c :: rest =>
      match n with
      | 3%nat => ","%char :: c :: group3 rest 1
      | _ => c :: group3 rest (S n)
      end
  end.

Definition with_commas (z : Z) : string :=
  string_of_list_ascii
    (rev (group3 (rev (list_ascii_of_string (str_of_Z z))) 0)).

(** [str(p)] for a path. *)
Definition path_str (p : FS.path) : string :=
  fold_left (fun acc c => acc +:+ "/" +:+ c) p "".

(** The surface a loaded script module exposes: [execute], a [main] that
    takes parameters, a [main] that takes none (it parses its own command
    line), or neither. *)
Inductive entry_point : Type :=
| HasExecute (f : script_function)
| HasMain (f : script_function)
| HasArgparseMain
| NoEntryPoint.

(** The arguments of the [run] tool, typed as its input schema declares
    them (server.py). *)
Record run_params : Type := {
  script_name : string;
  parameters : dict value;
  dry_run : bool;
  auto_download : bool;
  project_path : option string
}.

(** What the collaborators and the operating system answer during one
    call of [execute].  [w_resolve false] is the first resolution,
    [w_resolve true] the one after a download. *)
Record world : Type := {
  w_py_str : value -> string;
  w_round : Z -> value -> value;
  w_no_module_named : string -> option string;
  w_resolve : bool -> result resolution;
  w_download : result unit;
  w_get_script : result (option (dict value));
  w_preflight : result (dict value);
  w_lib_in_project : string -> bool;
  w_lib_in_user : string -> bool;
  w_script_file_exists : bool;
  w_file_dependencies : result (list value);
  w_import : string -> result unit;
  w_pip : string -> pip_outcome;
  w_sys_executable : string;
  w_start_execution : result value;
  w_log_execution_start : result unit;
  w_load_module : result entry_point;
  w_argparse : result value;
  w_elapsed : Z * Z;
  w_log_execution : result value;
  w_complete_execution : result unit;
  w_log_error : result value;
  w_complete_error : result unit;
  w_json_size : value -> Z;
  w_time : Z;
  w_script_kiwi_home : string;
  w_cwd : string;
  w_write : string -> result unit;
  w_ensure_runs_dir : result unit;
  w_flush_original : result unit;
  w_traceback : string
}.

Section RunTool.

Variable w : world.

(** [str(v)]: a string formats as itself. *)
Definition fmt (v : value) : string :=
  match v with VStr s => s | _ => w_py_str w v end.

(** [for x in v]: the items a value iterates over. *)
Definition py_iter (v : value) : result (list value) :=
  match v with
  | VList l => Ok l
  | VDict d => Ok (map (fun kv => VStr (fst kv)) d)
  | VStr s =>
      Ok (map (fun c => VStr (String c EmptyString)) (list_ascii_of_string s))
  | _ => Raise (TypeError
           ("'" +:+ type_name v +:+ "' object is not iterable"))
  end.

(** [round(v, n)] *)
Definition py_round (v : value) (n : Z) : result value :=
  match v with
  | VInt _ | VFloat _ _ | VBool _ => Ok (w_round w n v)
  | _ => Raise (TypeError
           ("type " +:+ type_name v +:+ " doesn't define __round__ method"))
  end.

(** [_create_result_summary] (run.py, lines 88-116). *)
Fixpoint _create_result_summary (data : value) (max_depth current_depth : Z)
    {struct data} : value :=
  if current_depth >=? max_depth then
    VDict [("_type", VStr (type_name data));
           ("_summary", VStr "Max depth reached")]
  else
    match data with
    | VDict d =>
        let summary :=
          (fix first_keys (kvs : dict value) (n : nat) (summary : dict value)
               {struct kvs} : dict value :=
             match kvs, n with
             | (key, v) :: rest, S n' =>
                 first_keys rest n'
                   (dict_set key
                      (match v with
                       | VDict _ | VList _ =>
                           _create_result_summary v max_depth (current_depth + 1)
                       | _ => VStr (str_slice_to 100 (fmt v))
                       end) summary)
             | _, _ => summary
             end) d 10%nat [] in
        VDict (if len d >? 10
               then dict_set "_other_keys" (VInt (len d - 10)) summary
               else summary)
    | VList l =>
        match l with
        | [] => VList []
        | _ =>
            let summary :=
              (fix first_items (xs : list value) (n : nat) {struct xs}
                   : list value :=
                 match xs, n with
                 | item :: rest, S n' =>
                     (match item with
                      | VDict _ | VList _ =>
                          _create_result_summary item max_depth
                                                 (current_depth + 1)
                      | _ => VStr (str_slice_to 100 (fmt item))
                      end) :: first_items rest n'
                 | _, _ => []
                 end) l 5%nat in
            VList (if len l >? 5
                   then summary ++ [VStr ("_and_" +:+ str_of_Z (len l - 5)
                                          +:+ "_more_items")]
                   else summary)
        end
    | _ => VStr (str_slice_to 200 (fmt data))
    end.

(** [_check_pip_dependencies] (run.py, lines 240-294). *)
Fixpoint check_each (validated_deps : list dependency) (missing : list value)
    : result (list value) :=
  match validated_deps with
  | [] => Ok missing
  | dep :: rest =>
      let name := dep_name dep in
      if startswith "lib" name || startswith "lib." name then
        check_each rest missing
      else
        let module_name :=
          get_default name (replace_char "-" "_" name) PACKAGE_TO_MODULE in
        let entry :=
          VDict [("name", VStr name);
                 ("version", opt_str (dep_version dep));
                 ("module", VStr module_name);
                 ("install_cmd",
                  VStr (match dep_version dep with
                        | Some (String _ _ as v) =>
                            "pip install '" +:+ name +:+ v +:+ "'"
                        | _ => "pip install '" +:+ name +:+ "'"
                        end))] in
        match w_import w module_name with
        | Ok _ => check_each rest missing
        | Raise e =>
            if exn_is_import_error e then
              match w_import w name with
              | Ok _ => check_each rest missing
              | Raise e' =>
                  if exn_is_import_error e'
                  then check_each rest (missing ++ [entry])
                  else Raise e'
              end
            else Raise e
        end
  end.

Definition _check_pip_dependencies (dependencies : list value)
    : result (list value) :=
  match _validate_dependencies (w_py_str w) (VList dependencies) with
  | Ok validated_deps => check_each validated_deps []
  | Raise e => Raise e
  end.

(** The package spec built inside [_install_pip_dependencies]
    (run.py, line 320). *)
Definition package_spec (pkg_name : string) (pkg_version : option string)
    : string :=
  match pkg_version with
  | Some (String _ _ as v) => pkg_name +:+ v
  | _ => pkg_name
  end.

(** [_install_pip_dependencies] (run.py, lines 296-347). *)
Fixpoint install_each (validated_packages : list dependency)
    (installed failed : list value) : M value :=
  match validated_packages with
  | [] => ret (install_result installed failed)
  | pkg :: rest =>
      let pkg_name := dep_name pkg in
      let pkg_version := dep_version pkg in
      let spec := package_spec pkg_name pkg_version in
      emit (PipInstall (w_sys_executable w) spec) >>
      match w_pip w spec with
      | Completed 0 _ =>
          install_each rest (installed ++ [dep_value pkg]) failed
      | Completed _ stderr =>
          install_each rest installed
            (failed ++ [EnvManager.failure pkg_name
               (if String.eqb stderr "" then "Unknown error"
                else str_slice_to 200 stderr)])
      | TimeoutExpired =>
          install_each rest installed
            (failed ++ [EnvManager.failure pkg_name "Installation timed out"])
      | Failed ex =>
          install_each rest installed
            (failed ++ [EnvManager.failure pkg_name (exn_msg ex)])
      end
  end.

Definition _install_pip_dependencies (packages : list value) : M value :=
  match packages with
  | [] => ret (install_result [] [])
  | _ =>
      let* validated_packages :=
        lift (_validate_dependencies (w_py_str w) (VList packages)) in
      install_each validated_packages [] []
  end.

(** [_verify_lib_dependencies] (run.py, lines 349-388). *)
Definition _verify_lib_dependencies (name : string) (required_libs : list value)
    : dict value :=
  let missing_libs :=
    filter (fun lib_name =>
              negb (w_lib_in_project w (fmt lib_name +:+ ".py")
                    || w_lib_in_user w (fmt lib_name +:+ ".py")))
           required_libs in
  match missing_libs with
  | [] => [("status", VStr "ok")]
  | _ =>
      [("error",
        VDict [("code", VStr "MISSING_DEPENDENCIES");
               ("message", VStr ("Script '" +:+ name
                  +:+ "' requires libraries that are not installed"));
               ("details",
                VDict [("missing_libs", VList missing_libs);
                       ("suggestion", VStr "Download script with dependencies");
                       ("command", VStr ("load({'script_name': '" +:+ name
                          +:+ "', 'download_to_user': true})"))])])]
  end.

(** *** [RunTool.execute] (run.py, lines 1039-1675)

    The value returned stands for the JSON object that [json.dumps]
    serializes.  [sys.path] and [sys.modules], which the call changes and
    restores, and the command line built for an argument-parser script are
    not modelled. *)

Definition script_name_required : value :=
  VDict [("error", VStr "script_name is required")].

Definition script_not_found (name : string) : value :=
  VDict [("error",
    VDict [("code", VStr "SCRIPT_NOT_FOUND");
           ("message", VStr ("Script '" +:+ name
                             +:+ "' not found in any location"));
           ("details",
            VDict [("script_name", VStr name);
                   ("suggestion",
                    VStr "Use search({'query': '...'}) to find available scripts")])])].

Definition script_not_found_locally (name : string) : value :=
  VDict [("error",
    VDict [("code", VStr "SCRIPT_NOT_FOUND_LOCALLY");
           ("message", VStr ("Script '" +:+ name +:+ "' not found locally"));
           ("details",
            VDict [("script_name", VStr name);
                   ("suggestion",
                    VStr "Use load tool first, or set auto_download=true");
                   ("load_command",
                    VStr ("load({'script_name': '" +:+ name
                          +:+ "', 'download_to_user': true})"));
                   ("auto_download_command",
                    VStr ("run({'script_name': '" +:+ name
                          +:+ "', 'auto_download': true, ...})"))])])].

Definition tier_name (t : tier) : string :=
  match t with Project => "project" | User => "user" | Registry => "registry" end.

Definition script_without_path (name : string) (resolved : resolution) : value :=
  VDict [("error",
    VDict [("code", VStr "SCRIPT_NOT_FOUND_LOCALLY");
           ("message", VStr ("Script '" +:+ name +:+ "' not found locally"));
           ("details",
            VDict [("script_name", VStr name);
                   ("suggestion",
                    VStr ("Use load tool first: load({'script_name': '" +:+ name
                          +:+ "', 'download_to_user': true})"));
                   ("available_in",
                    match location resolved with
                    | Some t => VStr (tier_name t)
                    | None => VNone
                    end)])])].

Definition validation_failed (validation : dict value) : value :=
  VDict [("status", VStr "validation_failed");
         ("errors", get_default "blockers" (VList []) validation);
         ("warnings", get_default "warnings" (VList []) validation)].

Definition metadata_corruption (name : string) (e : exn) : value :=
  VDict [("status", VStr "error");
         ("error", VStr ("Script has corrupted dependency metadata in registry: "
                         +:+ exn_msg e));
         ("error_type", VStr "metadata_corruption");
         ("suggestion", VStr ("Republish script '" +:+ name
                              +:+ "' to fix corrupted metadata"))].

Definition install_failed (install : dict value) : value :=
  VDict [("status", VStr "error");
         ("error", VStr "Failed to install some dependencies");
         ("error_type", VStr "dependency_error");
         ("details",
          VDict [("installed", get_default "installed" (VList []) install);
                 ("failed", get_default "failed" (VList []) install);
                 ("message",
                  VStr "Some dependencies could not be installed automatically.")])].

(** [script.get(k) if script else None] *)
Definition script_field (k : string) (script : option (dict value)) : value :=
  match script with Some d => get k d | None => VNone end.

Definition validation_passed (script : option (dict value)) : value :=
  VDict [("status", VStr "validation_passed");
         ("message", VStr "Script is ready to execute");
         ("estimated_cost", script_field "estimated_cost_usd" script);
         ("estimated_time", script_field "estimated_time_seconds" script)].

(** [if script:] - an empty dict counts as no script. *)
Definition if_script (script : option (dict value)) : option (dict value) :=
  match script with
  | Some ((_ :: _) as d) => Some d
  | _ => None
  end.

(** Lines 1344-1387: the status the script reported, its error if the
    status is "error", and the data to return. *)
Definition fallback_data (d : dict value) (result_data : value) : value :=
  if truthy result_data then result_data
  else if dict_mem "businesses" d then
    VDict [("businesses", get "businesses" d)]
  else if dict_mem "items" d then VDict [("items", get "items" d)]
  else if dict_mem "results" d then VDict [("results", get "results" d)]
  else if dict_mem "data" d then VDict [("data", get "data" d)]
  else result_data.

Definition read_result (script_result : value)
    : (value * value * value)%type :=
  match script_result with
  | VDict ((_ :: _) as d) =>
      let script_status := get_default "status" (VStr "success") d in
      if is_str "error" script_status then
        (script_status,
         py_or (get "error" d) (py_or (get "message" d) (VStr "Unknown error")),
         VDict (dict_without ["status"; "metadata"] d))
      else
        let result_data :=
          match get "data" d with
          | VNone => VDict (dict_without ["status"; "metadata"; "logs"] d)
          | data => data
          end in
        (script_status, VNone, fallback_data d result_data)
  | _ => (VStr "success", VNone, VNone)
  end.

(** Lines 1392-1405: [(duration_sec, cost_usd, rows_processed,
    api_calls_made)]. *)
Definition read_metadata (script_result : value)
    : result (value * value * value * value)%type :=
  let elapsed := VFloat (fst (w_elapsed w)) (snd (w_elapsed w)) in
  match script_result with
  | VDict ((_ :: _) as d) =>
      let metadata := get_default "metadata" (VDict []) d in
      match py_get metadata "duration_sec" VNone with
      | Raise e => Raise e
      | Ok duration =>
          let duration_sec :=
            match duration with VNone => elapsed | _ => duration end in
          match metadata with
          | VDict m =>
              Ok (duration_sec,
                  py_or (get_default "cost_usd" (VInt 0) m) (VInt 0),
                  get "rows_processed" m, get "api_calls_made" m)
          | _ => Raise (AttributeError "object has no attribute 'get'")
          end
      end
  | _ => Ok (elapsed, VInt 0, VNone, VNone)
  end.

(** [result.get(k) if result else None] *)
Definition result_field (k : string) (default : value) (script_result : value)
    : result value :=
  if truthy script_result then py_get script_result k default else Ok VNone.

(** Lines 1444-1490: where the full result is written, if anywhere. *)
Definition is_absolute (s : string) : bool := startswith "/" s.

Definition output_destination (p : run_params) (output_file save_output
    result_data : value) (result_size_bytes : Z) : result (option string) :=
  let should_write_file :=
    truthy output_file
    || (truthy save_output && negb (is_none result_data))
    || (result_size_bytes >? MAX_RESPONSE_SIZE_BYTES) in
  let is_auto_save :=
    negb (truthy output_file)
    && negb (truthy save_output && negb (is_none result_data))
    && (result_size_bytes >? MAX_RESPONSE_SIZE_BYTES) in
  if negb should_write_file then Ok None
  else if negb (truthy output_file) then
    if is_auto_save then
      Ok (Some (w_script_kiwi_home w +:+ "/tmp/" +:+ script_name p +:+ "_"
                +:+ str_of_Z (w_time w) +:+ "_results.json"))
    else
      Ok (Some (w_script_kiwi_home w +:+ "/outputs/" +:+ script_name p +:+ "/"
                +:+ str_of_Z (w_time w) +:+ "_results.json"))
  else
    match output_file with
    | VStr f =>
        if is_absolute f then Ok (Some f)
        else
          match project_path p with
          | Some (String _ _ as project) => Ok (Some (project +:+ "/" +:+ f))
          | _ => Ok (Some (w_cwd w +:+ "/" +:+ f))
          end
    | _ => Raise (TypeError
             ("expected str, bytes or os.PathLike object, not "
              +:+ type_name output_file))
    end.

(** Lines 1501-1535: what is returned in place of, or along with, data
    that was written to a file. *)
Definition file_info (output_path : string) (result_size_bytes : Z)
    (original_data : value) : dict value :=
  [("_output_file", VStr output_path);
   ("_file_size_bytes", VInt result_size_bytes);
   ("_message", VStr ("Results written to file ("
                      +:+ with_commas result_size_bytes
                      +:+ " bytes). Full data available at: " +:+ output_path));
   ("_summary", _create_result_summary original_data 2 0)].

Definition preview_value (v : value) : value :=
  match v with
  | VList l =>
      if len l >? 5 then
        VList (firstn 5 l
               ++ [VStr ("... (" +:+ str_of_Z (len l - 5) +:+ " more items)")])
      else v
  | VDict d =>
      if len d >? 10 then
        VDict (dict_set "_truncated"
                 (VStr ("... (" +:+ str_of_Z (len d - 10) +:+ " more keys)"))
                 (firstn 10 d))
      else v
  | _ => v
  end.

(** [preview = original_data.copy()] and the loop over its items. *)
Definition preview (original_data : value) : result value :=
  match original_data with
  | VDict d => Ok (VDict (map (fun kv => (fst kv, preview_value (snd kv))) d))
  | VList l => Ok (VList l)
  | _ => Raise (AttributeError
           ("'" +:+ type_name original_data
            +:+ "' object has no attribute 'copy'"))
  end.

Definition with_file_info (output_path : string) (result_size_bytes : Z)
    (original_data : value) : result value :=
  let info := file_info output_path result_size_bytes original_data in
  if result_size_bytes <=? MAX_RESPONSE_SIZE_BYTES then
    match original_data with
    | VDict d => Ok (VDict (dict_update d info))
    | _ => Ok (VDict (("_data", original_data) :: info))
    end
  else if truthy original_data then
    match preview original_data with
    | Ok pv => Ok (VDict (dict_set "_preview" pv info))
    | Raise e => Raise e
    end
  else Ok (VDict info).

(** [len(v)] *)
Definition py_len (v : value) : result Z :=
  match v with
  | VStr s => Ok (str_len s)
  | VList l => Ok (len l)
  | VDict d => Ok (len d)
  | _ => Raise (TypeError
           ("object of type '" +:+ type_name v +:+ "' has no len()"))
  end.

Definition execution_id_for_response (log_result execution_id : value)
    : value :=
  let from_log :=
    match log_result with
    | VDict ((_ :: _) as d) => get "execution_id" d
    | _ => VNone
    end in
  if truthy from_log then from_log
  else if truthy execution_id then VStr (fmt execution_id)
  else from_log.

(** Lines 1544-1603: the response after a run. *)
Definition build_response (script_result script_status script_error
    result_data log_result execution_id duration_sec cost_usd rows_processed
    api_calls_made : value) (output_path : option string) : result value :=
  match py_round duration_sec 3, py_round cost_usd 4 with
  | Raise e, _ => Raise e
  | _, Raise e => Raise e
  | Ok duration, Ok cost =>
      let response :=
        [("status", script_status);
         ("execution_id", execution_id_for_response log_result execution_id);
         ("result", py_or result_data (VDict []));
         ("metadata", VDict [("duration_sec", duration); ("cost_usd", cost)])] in
      let response :=
        if truthy script_error then dict_set "error" script_error response
        else response in
      let response :=
        match output_path with
        | Some op =>
            set_metadata "output_saved" (VBool true)
              (set_metadata "output_file" (VStr op) response)
        | None => response
        end in
      let d := match script_result with VDict d => d | _ => [] end in
      let is_result := truthy script_result && is_dict script_result in
      let response :=
        if negb (truthy result_data) && is_result then
          dict_set "_debug"
            (VDict [("result_keys", VList (map VStr (keys d)));
                    ("result_status", get "status" d);
                    ("result_has_data", VBool (dict_mem "data" d));
                    ("result_data_type",
                     if truthy (get "data" d)
                     then VStr (type_name (get "data" d)) else VNone)])
            response
        else response in
      let response :=
        if negb (is_none rows_processed)
        then set_metadata "rows_processed" rows_processed response
        else response in
      let response :=
        if negb (is_none api_calls_made)
        then set_metadata "api_calls_made" api_calls_made response
        else response in
      let response :=
        if is_result && truthy (get "logs" d)
        then dict_set "logs" (get "logs" d) response
        else response in
      if negb (truthy result_data) && is_result
         && is_str "success" (get "status" d) then
        match py_len (get_default "logs" (VList []) d) with
        | Raise e => Raise e
        | Ok log_count =>
            Ok (VDict (dict_set "_debug"
              (VDict [("message",
                       VStr "Script completed successfully but returned empty data");
                      ("raw_result_keys", VList (map VStr (keys d)));
                      ("has_logs", VBool (truthy (get "logs" d)));
                      ("log_count", VInt log_count);
                      ("suggestion",
                       VStr "Check logs field for warnings or errors from the script")])
              response))
        end
      else Ok (VDict response)
  end.

Definition elapsed : value := VFloat (fst (w_elapsed w)) (snd (w_elapsed w)).

(** Lines 1605-1627 *)
Definition undeclared_dependency (e : exn) : value :=
  let missing_module := w_no_module_named w (exn_msg e) in
  VDict [("status", VStr "error");
         ("error", VStr ("Missing dependency: "
                         +:+ match missing_module with
                             | Some (String _ _ as m) => m
                             | _ => "unknown"
                             end));
         ("error_type", VStr "dependency_error");
         ("missing_module", opt_str missing_module);
         ("suggestion",
          VStr ("This dependency was not declared. Add to script or install: pip install "
                +:+ match missing_module with
                    | Some (String _ _ as m) => replace_char "_" "-" m
                    | _ => "PACKAGE"
                    end));
         ("data", VNone);
         ("metadata", VDict [("duration_sec", w_round w 3 elapsed);
                             ("cost_usd", VInt 0)])].

(** Lines 1628-1675 *)
Definition error_response (p : run_params) (e : exn)
    (log_result execution_id : value) : value :=
  VDict [("status", VStr "error");
         ("execution_id", execution_id_for_response log_result execution_id);
         ("error", VStr (exn_msg e));
         ("error_type", VStr (exn_type e));
         ("metadata", VDict [("duration_sec", w_round w 3 elapsed);
                             ("cost_usd", VInt 0)]);
         ("troubleshooting",
          VList [VStr "Check error message above";
                 VStr "Verify all required environment variables are set";
                 VStr "Use help() tool for guidance";
                 VStr ("Script: " +:+ script_name p);
                 VStr ("Project: "
                       +:+ match project_path p with
                           | Some (String _ _ as project) => project
                           | _ => "N/A"
                           end)]);
         ("traceback",
          VStr (if str_len (w_traceback w) <? 2000 then w_traceback w
                else str_slice_to 2000 (w_traceback w) +:+ newline
                     +:+ "... (truncated)"))].

Definition handle (p : run_params) (execution_id : value) (e : exn) : M value :=
  if exn_is_import_error e then ret (undeclared_dependency e)
  else
    emit (LogExecution (VStr "error")) >>
    let* log_result := lift (w_log_error w) in
    emit (CompleteExecution (VStr "error")) >>
    lift (w_complete_error w) >>
    ret (error_response p e log_result execution_id).

(** The statements of the [try] block after [start_execution]. *)
Definition run_script (p : run_params) (script_path : FS.path)
    (script : option (dict value)) (script_params : dict value)
    (stream_logs output_file save_output execution_id : value) : M value :=
  try_except (emit (LogExecutionStart (script_name p)) >>
              lift (w_log_execution_start w))
             (fun _ => ret tt) >>
  emit (ExecModule (path_str script_path)) >>
  let* module := lift (w_load_module w) in
  let* script_result :=
    match module with
    | HasExecute f | HasMain f =>
        _run_function_script (w_ensure_runs_dir w) (w_flush_original w)
                             f script_params stream_logs
    | HasArgparseMain =>
        emit (ScriptSubprocess (path_str script_path)) >> lift (w_argparse w)
    | NoEntryPoint =>
        raise (ValueError ("Script " +:+ script_name p
                           +:+ " has no execute() or main() function"))
    end in
  let '(script_status, script_error, result_data) := read_result script_result in
  let* '(duration_sec, cost_usd, rows_processed, api_calls_made) :=
    lift (read_metadata script_result) in
  let* log_result :=
    try_except
      (lift (result_field "data" VNone script_result) >>
       emit (LogExecution script_status) >>
       lift (w_log_execution w))
      (fun _ => ret VNone) in
  lift (result_field "data" VNone script_result) >>
  lift (result_field "metadata" (VDict []) script_result) >>
  emit (CompleteExecution script_status) >>
  lift (w_complete_execution w) >>
  let result_size_bytes := w_json_size w result_data in
  let* output_path :=
    lift (output_destination p output_file save_output result_data
                             result_size_bytes) in
  let* result_data :=
    match output_path with
    | Some op =>
        emit (WriteOutputFile op) >>
        lift (w_write w op) >>
        lift (with_file_info op result_size_bytes result_data)
    | None => ret result_data
    end in
  lift (build_response script_result script_status script_error result_data
                       log_result execution_id duration_sec cost_usd
                       rows_processed api_calls_made output_path).

(** [try: ... except (ModuleNotFoundError, ImportError): ...
    except Exception: ...] around the run.  Neither clause catches an
    exception that does not derive from [Exception]; [execution_id] is
    still [None] when [start_execution] is what raised. *)
Definition guarded_run (p : run_params) (script_path : FS.path)
    (script : option (dict value)) (script_params : dict value)
    (stream_logs output_file save_output : value) : M value :=
  fun st =>
    match (emit (StartExecution (script_name p)) >>
           lift (w_start_execution w)) st with
    | (st', Raise e) =>
        if exn_is_exception e then handle p VNone e st' else (st', Raise e)
    | (st', Ok execution_id) =>
        try_except
          (run_script p script_path script script_params stream_logs
                      output_file save_output execution_id)
          (handle p execution_id) st'
    end.

(** Lines 1137-1202: the pip dependencies of the script are collected,
    checked and the missing ones installed.  [None] lets the call go on;
    a response ends it. *)
Definition reconcile_dependencies (p : run_params) (resolved : resolution)
    (script : option (dict value)) : M (option value) :=
  let* pip_dependencies :=
    match path resolved with
    | Some _ =>
        if w_script_file_exists w then lift (w_file_dependencies w) else ret []
    | None => ret []
    end in
  let registry_deps := script_field "dependencies" script in
  let merged : result (list value) :=
    if truthy registry_deps then
      match _validate_dependencies (w_py_str w) registry_deps with
      | Ok validated_registry_deps =>
          Ok (merge_dependencies pip_dependencies validated_registry_deps)
      | Raise e => Raise e
      end
    else Ok pip_dependencies in
  match merged with
  | Raise e => ret (Some (metadata_corruption (script_name p) e))
  | Ok [] => ret None
  | Ok pip_dependencies =>
      let* missing_deps := lift (_check_pip_dependencies pip_dependencies) in
      match missing_deps with
      | [] => ret None
      | _ =>
          let* install := _install_pip_dependencies missing_deps in
          match install with
          | VDict d =>
              if truthy (get "failed" d) then ret (Some (install_failed d))
              else ret None
          | _ => ret None
          end
      end
  end.

(** Lines 1108-1135: preflight and the library check. *)
Definition preflight_and_libs (p : run_params) (script : option (dict value))
    : M (option value) :=
  match script with
  | None => ret None
  | Some d =>
      let* validation := lift (w_preflight w) in
      if negb (truthy (get_default "pass" (VBool true) validation)) then
        ret (Some (validation_failed validation))
      else
        let required_libs := get_default "required_libs" (VList []) d in
        if truthy required_libs then
          let* libs := lift (py_iter required_libs) in
          let verification := _verify_lib_dependencies (script_name p) libs in
          if truthy (get "error" verification)
          then ret (Some (VDict verification))
          else ret None
        else ret None
  end.

(** The call after resolution (lines 1108-1675). *)
Definition execute_resolved (p : run_params) (resolved : resolution) : M value :=
  let* found := lift (w_get_script w) in
  let script := if_script found in
  let* stop := preflight_and_libs p script in
  match stop with
  | Some response => ret response
  | None =>
      let* stop := reconcile_dependencies p resolved script in
      match stop with
      | Some response => ret response
      | None =>
          if dry_run p then ret (validation_passed script)
          else
            match path resolved with
            | None => ret (script_without_path (script_name p) resolved)
            | Some script_path =>
                let '(_, script_params) :=
                  dict_pop "_timeout" VNone (parameters p) in
                let '(stream_logs, script_params) :=
                  dict_pop "_stream_logs" (VBool true) script_params in
                let '(output_file, script_params) :=
                  dict_pop "_output_file" VNone script_params in
                let '(save_output, script_params) :=
                  dict_pop "_save_output" (VBool true) script_params in
                guarded_run p script_path script script_params
                            stream_logs output_file save_output
            end
      end
  end.

Definition execute (p : run_params) : M value :=
  if String.eqb (script_name p) "" then ret script_name_required
  else
    let* resolved := lift (w_resolve w false) in
    match location resolved with
    | None => ret (script_not_found (script_name p))
    | Some Registry =>
        match path resolved with
        | None =>
            if auto_download p then
              emit (DownloadScript (script_name p)) >>
              lift (w_download w) >>
              let* resolved := lift (w_resolve w true) in
              execute_resolved p resolved
            else ret (script_not_found_locally (script_name p))
        | Some _ => execute_resolved p resolved
        end
    | Some _ => execute_resolved p resolved
    end.

End RunTool.

(** ** The context a script runs in (run.py) *)

(** [p.parent]; the root is its own parent. *)
Definition parent (p : FS.path) : FS.path := removelast p.

(** [paths.insert(1, p)] *)
Definition insert_second {A} (x : A) (paths : list A) : list A :=
  match paths with
  | [] => [x]
  | first :: rest => first :: x :: rest
  end.

Section search_paths.

(** The file system, [os.getenv("SCRIPT_KIWI_HOME")] when it is set and
    not empty, [Path.home()], [self.project_path] and the directory of the
    [script_kiwi] package. *)
Variable fs : FS.node.
Variable script_kiwi_home_env : option FS.path.
Variable home : FS.path.
Variable project_path : option FS.path.
Variable mcp_root : FS.path.

(** [_build_search_paths] (run.py, lines 131-183). *)
Definition _build_search_paths (script_path : FS.path)
    (storage_location : string) : list FS.path :=
  let script_kiwi_home :=
    match script_kiwi_home_env with
    | Some h => h
    | None => home ++ [".script-kiwi"]
    end in
  let user_scripts := script_kiwi_home ++ ["scripts"] in
  let paths := if FS.exists_ fs user_scripts then [user_scripts] else [] in
  let paths :=
    match project_path with
    | Some project =>
        let project_scripts := project ++ [".ai"; "scripts"] in
        if FS.exists_ fs project_scripts
           && negb (bool_decide (project_scripts ∈ paths))
        then project_scripts :: paths
        else paths
    | None => paths
    end in
  let paths :=
    if negb (bool_decide (parent script_path ∈ paths))
    then parent script_path :: paths
    else paths in
  let scripts_root := parent (parent script_path) in
  let paths :=
    if FS.exists_ fs scripts_root && negb (bool_decide (scripts_root ∈ paths))
    then insert_second scripts_root paths
    else paths in
  if negb (bool_decide (mcp_root ∈ paths)) then paths ++ [mcp_root]
  else paths.

End search_paths.

(** [s.lstrip(c)] for one character. *)
Fixpoint lstrip (c : ascii) (s : string) : string :=
  match s with
  | EmptyString => EmptyString
  | String c' s' => if Ascii.eqb c' c then lstrip c s' else s
  end.

Section argparse.

Variable w : world.

(** The flag for a parameter name (run.py, lines 555-562). *)
Definition arg_flag (key : string) : string :=
  if startswith "--" key then key
  else if startswith "-" key then key
  else "--" +:+ replace_char "_" "-" key.

(** The command-line arguments built from the parameters by
    [_run_argparse_script] (run.py, lines 543-578). *)
Fixpoint argparse_args (script_params : dict value) : list string :=
  match script_params with
  | [] => []
  | (key, v) :: rest =>
      (if is_none v then []
       else if startswith "_" key then []
       else
         match v with
         | VBool true => [arg_flag key]
         | VBool false => ["--no-" +:+ lstrip "-" (arg_flag key)]
         | VList items =>
             flat_map (fun item => [arg_flag key; fmt w item]) items
         | _ => [arg_flag key; fmt w v]
         end)
      ++ argparse_args rest
  end.

(** [cmd] *)
Definition argparse_command (script_path : FS.path)
    (script_params : dict value) : list string :=
  [w_sys_executable w; path_str script_path] ++ argparse_args script_params.

(** The timeout of the subprocess (run.py, lines 613-616). *)
Definition subprocess_timeout (timeout : option Z) : Z :=
  Z.min (match timeout with Some t => t | None => 300 end) 1800.

End argparse.

(** ** Finding the project (script_resolver.py) *)




(** ** Writing to the file system *)

(** The children of a directory after the entry [name] has been created
    or replaced by [n].  Where a new entry appears in a directory scan is
    not determined; here it comes last. *)
Fixpoint set_child (name : string) (n : FS.node) (children : list FS.node)
    : list FS.node :=
  match children with
  | [] => [n]
  | c :: rest =>
      if String.eqb name (FS.node_name c) then n :: rest
      else c :: set_child name n rest
  end.

(** [p.mkdir(parents=True, exist_ok=True)], from the directory [n]: the
    missing directories are created; a file in the way raises, and nothing
    is created then. *)
Fixpoint mkdir (p : FS.path) (n : FS.node) {struct p} : result FS.node :=
  match p with
  | [] =>
      match n with
      | FS.Dir _ _ => Ok n
      | FS.File _ _ => Raise (Exn "FileExistsError" false true "File exists")
      end
  | c :: p' =>
      match n with
      | FS.File _ _ => Raise (Exn "NotADirectoryError" false true "Not a directory")
      | FS.Dir name children =>
          match mkdir p' (match FS.child c children with
                          | Some n' => n'
                          | None => FS.Dir c []
                          end) with
          | Ok n' => Ok (FS.Dir name (set_child c n' children))
          | Raise e => Raise e
          end
      end
  end.

(** [open(p, 'w')] followed by a write of the whole text: the file is
    created or replaced; its directory has to exist. *)
Fixpoint write_file (p : FS.path) (c : FS.content) (n : FS.node) {struct p}
    : result FS.node :=
  match p with
  | [] => Raise (Exn "IsADirectoryError" false true "Is a directory")
  | d :: p' =>
      match n with
      | FS.File _ _ => Raise (Exn "NotADirectoryError" false true "Not a directory")
      | FS.Dir name children =>
          match p' with
          | [] =>
              match FS.child d children with
              | Some (FS.Dir _ _) =>
                  Raise (Exn "IsADirectoryError" false true "Is a directory")
              | _ => Ok (FS.Dir name (set_child d (FS.File d c) children))
              end
          | _ :: _ =>
              match FS.child d children with
              | Some n' =>
                  match write_file p' c n' with
                  | Ok n'' => Ok (FS.Dir name (set_child d n'' children))
                  | Raise e => Raise e
                  end
              | None =>
                  Raise (Exn "FileNotFoundError" false true
                             "No such file or directory")
              end
          end
      end
  end.

Section downloads.

(** What [json.load] makes of a file with a given text, the resolver, the
    home directory and the registry's answer to [get_script(name)]. *)
Variable json_of : string -> FS.content.
Variable self : ScriptResolver.
Variable home : FS.path.
Variable registry_get_script : string -> result (option (dict value)).

(** [download_to_user_space] (script_resolver.py, lines 401-426).  The
    script name, the category and the subcategory are single path
    components.  A [content] that is not a string makes [f.write] raise
    after the file has been opened, that is, created empty. *)
Definition download_to_user_space (script_name category : string)
    (content : value) (subcategory : option string) (fs : FS.node)
    : FS.node * result FS.path :=
  let user_path :=
    match subcategory with
    | Some (String _ _ as sub) =>
        user_scripts self ++ [category; sub; py_file script_name]
    | _ => user_scripts self ++ [category; py_file script_name]
    end in
  match mkdir (parent user_path) fs with
  | Raise e => (fs, Raise e)
  | Ok fs1 =>
      match content with
      | VStr text =>
          match write_file user_path (json_of text) fs1 with
          | Ok fs2 => (fs2, Ok user_path)
          | Raise e => (fs1, Raise e)
          end
      | _ =>
          match write_file user_path (json_of "") fs1 with
          | Ok fs2 =>
              (fs2, Raise (TypeError
                 ("write() argument must be str, not "
                  +:+ type_name content)))
          | Raise e => (fs1, Raise e)
          end
      end
  end.

(** [Path.home() / ".script-kiwi/scripts/lib"] *)
Definition lib_dir : FS.path := home ++ [".script-kiwi"; "scripts"; "lib"].

(** The loop of [_download_lib_dependencies]. *)
Fixpoint download_libs (lib_names : list string) (fs : FS.node)
    : FS.node * result unit :=
  match lib_names with
  | [] => (fs, Ok tt)
  | lib_name :: rest =>
      let lib_file := lib_dir ++ [py_file lib_name] in
      if FS.exists_ fs lib_file then download_libs rest fs
      else
        match registry_get_script lib_name with
        | Raise e => (fs, Raise e)
        | Ok lib_script =>
            match lib_script with
            | Some ((_ :: _) as d) =>
                if truthy (get "content" d) then
                  match download_to_user_space lib_name "lib"
                          (get "content" d) None fs with
                  | (fs', Ok _) => download_libs rest fs'
                  | (fs', Raise e) => (fs', Raise e)
                  end
                else download_libs rest fs
            | _ => download_libs rest fs
            end
        end
  end.

(** [_download_lib_dependencies] (run.py, lines 986-1015). *)
Definition _download_lib_dependencies (lib_names : list string)
    (fs : FS.node) : FS.node * result unit :=
  match mkdir lib_dir fs with
  | Raise e => (fs, Raise e)
  | Ok fs1 =>
      let lib_init := lib_dir ++ ["__init__.py"] in
      let written :=
        if negb (FS.exists_ fs1 lib_init)
        then write_file lib_init
               (json_of ("# Script Kiwi library modules" +:+ newline)) fs1
        else Ok fs1 in
      match written with
      | Raise e => (fs1, Raise e)
      | Ok fs2 => download_libs lib_names fs2
      end
  end.

End downloads.

(** ** The managed environment (env_manager.py) *)

Module Venv.

Inductive command : Type :=
| CreateVenv
| UpgradePip.

(** The part of the [EnvManager] object and of the process that
    [ensure_venv] touches: [self._lock_file], the descriptors that are
    open, those that hold the lock on [.venv.lock], and the subprocesses
    run so far. *)
Record state : Type := State {
  lock_file : option nat;
  open_fds : list nat;
  locked : list nat;
  commands : list command
}.

(** What the operating system answers during one call: whether the
    environment is there at the first and at the second look, the outcome
    of making the lock's directory, the descriptor [os.open] returns
    ([None] for an [OSError]), whether taking the lock, dropping it and
    closing the descriptor succeed (an [OSError] or [BlockingIOError]
    otherwise), the outcome of making the environment's directory, of
    [python -m venv] (return code and output) and of the pip upgrade
    (return code). *)
Record os : Type := {
  ready_first : bool;
  ready_second : bool;
  make_lock_dir : result unit;
  os_open : option nat;
  flock_ok : bool;
  unlock_ok : bool;
  close_ok : bool;
  make_venv_parent : result unit;
  create_venv : result (Z * string);
  upgrade_pip : result Z
}.

Definition OSError : exn := Exn "OSError" false true "Bad file descriptor".

Section env.

Variable o : os.

(** [os.close(fd)] *)
Definition close (fd : nat) (st : state) : state * result unit :=
  if close_ok o then
    (State (lock_file st) (List.filter (fun d => negb (Nat.eqb d fd)) (open_fds st))
           (List.filter (fun d => negb (Nat.eqb d fd)) (locked st))
           (commands st), Ok tt)
  else (st, Raise OSError).

(** [_acquire_lock] (env_manager.py, lines 56-74). *)
Definition _acquire_lock (st : state) : state * result bool :=
  match make_lock_dir o with
  | Raise e => (st, Raise e)
  | Ok _ =>
      let failed (st : state) : state * result bool :=
        match lock_file st with
        | Some fd =>
            match close fd st with
            | (st', Ok _) =>
                (State None (open_fds st') (locked st') (commands st'),
                 Ok false)
            | (st', Raise e) => (st', Raise e)
            end
        | None => (st, Ok false)
        end in
      match os_open o with
      | None => failed st
      | Some fd =>
          let st1 := State (Some fd) (fd :: open_fds st) (locked st)
                           (commands st) in
          if flock_ok o then
            (State (Some fd) (open_fds st1) (fd :: locked st1) (commands st1),
             Ok true)
          else failed st1
      end
  end.

(** [_release_lock] (env_manager.py, lines 76-85). *)
Definition _release_lock (st : state) : state * result unit :=
  match lock_file st with
  | None => (st, Ok tt)
  | Some fd =>
      let st1 :=
        if unlock_ok o then
          let unlocked :=
            State (lock_file st) (open_fds st)
                  (List.filter (fun d => negb (Nat.eqb d fd)) (locked st))
                  (commands st) in
          fst (close fd unlocked)
        else st in
      (State None (open_fds st1) (locked st1) (commands st1), Ok tt)
  end.

Definition run (c : command) (st : state) : state :=
  State (lock_file st) (open_fds st) (locked st) (commands st ++ [c]).

(** The body of the [try] in [ensure_venv]. *)
Definition create (st : state) : state * result unit :=
  if ready_second o then (st, Ok tt)
  else
    match make_venv_parent o with
    | Raise e => (st, Raise e)
    | Ok _ =>
        let st1 := run CreateVenv st in
        match create_venv o with
        | Raise e => (st1, Raise e)
        | Ok (returncode, output) =>
            if negb (returncode =? 0) then
              (st1, Raise (RuntimeError ("Failed to create venv: " +:+ output)))
            else
              let st2 := run UpgradePip st1 in
              match upgrade_pip o with
              | Raise e => (st2, Raise e)
              | Ok _ => (st2, Ok tt)
              end
        end
    end.

(** [ensure_venv] (env_manager.py, lines 87-134); the path returned is
    always [self.venv_dir]. *)
Definition ensure_venv (st : state) : state * result unit :=
  if ready_first o then (st, Ok tt)
  else
    match _acquire_lock st with
    | (st1, Raise e) => (st1, Raise e)
    | (st1, Ok lock_acquired) =>
        match create st1 with
        | (st2, outcome) =>
            if lock_acquired then
              match _release_lock st2 with
              | (st3, Ok _) => (st3, outcome)
              | (st3, Raise e) => (st3, Raise e)
              end
            else (st2, outcome)
        end
    end.

End env.
End Venv.

(** ** Preflight (utils/shared/preflight.py) *)

(** [sub in s] *)
Definition contains (sub s : string) : bool :=
  match String.index 0 sub s with Some _ => true | None => false end.

Section preflight.

(** [os.getenv]; [str] of a value inside an f-string; the error messages
    [validate_inputs] collects for the inputs and the rules (its checks of
    types, bounds, patterns and enumerations are not modelled);
    [round(float(eval(formula, ..., inputs)), 2)] and
    [int(eval(formula, ..., inputs))]; and [a > b] on numbers. *)
Variable getenv : string -> option string.
Variable py_str : value -> string.
Variable validation_errors : dict value -> list value -> list string.
Variable eval_cost : string -> dict value -> result value.
Variable eval_seconds : string -> dict value -> result Z.
Variable gt : value -> value -> bool.

(** [os.getenv(k)] is set and not empty. *)
Definition is_set (k : string) : bool :=
  match getenv k with Some (String _ _) => true | _ => false end.

(** [check_credentials] (preflight.py, lines 19-41). *)
Definition check_credentials (required_keys : list string) : dict value :=
  match List.filter (fun k => negb (is_set k)) required_keys with
  | [] => [("status", VStr "pass")]
  | missing => [("status", VStr "fail"); ("missing", VList (map VStr missing))]
  end.

(** [validate_inputs] (preflight.py, lines 44-110), from the errors it
    collects. *)
Definition validate_inputs (inputs : dict value) (rules : list value)
    : dict value :=
  match validation_errors inputs rules with
  | [] => [("status", VStr "pass")]
  | errors => [("status", VStr "fail"); ("errors", VList (map VStr errors))]
  end.

(** [estimate_cost] (preflight.py, lines 113-141). *)
Definition estimate_cost (formula : string) (inputs : dict value)
    : dict value :=
  match eval_cost formula inputs with
  | Ok cost =>
      [("estimated_cost_usd", cost);
       ("formula", VStr formula);
       ("inputs_used",
        VDict (List.filter (fun kv => contains (fst kv) formula) inputs))]
  | Raise e => [("error", VStr (exn_msg e)); ("formula", VStr formula)]
  end.

Definition human_readable (seconds : Z) : string :=
  if seconds <? 60 then str_of_Z seconds +:+ " seconds"
  else if seconds <? 3600 then
    let mins := seconds / 60 in
    let secs := seconds mod 60 in
    if negb (secs =? 0)
    then str_of_Z mins +:+ " minutes " +:+ str_of_Z secs +:+ " seconds"
    else str_of_Z mins +:+ " minutes"
  else
    let hours := seconds / 3600 in
    let mins := (seconds mod 3600) / 60 in
    if negb (mins =? 0)
    then str_of_Z hours +:+ " hours " +:+ str_of_Z mins +:+ " minutes"
    else str_of_Z hours +:+ " hours".

(** [estimate_time] (preflight.py, lines 144-181). *)
Definition estimate_time (formula : string) (inputs : dict value)
    : dict value :=
  match eval_seconds formula inputs with
  | Ok seconds =>
      [("estimated_seconds", VInt seconds);
       ("human_readable", VStr (human_readable seconds))]
  | Raise e => [("error", VStr (exn_msg e))]
  end.

(** [run_preflight] (preflight.py, lines 184-283).  A missing list
    argument is an empty list, a missing formula is [None], a missing
    threshold is [VNone]. *)
Definition run_preflight (inputs : dict value)
    (required_credentials : list string) (validation_rules : list value)
    (cost_formula : option string)
    (cost_warn_threshold cost_block_threshold : value)
    (time_formula : option string) : dict value :=
  let checks : dict value := [] in
  let warnings : list value := [] in
  let blockers : list value := [] in
  let '(checks, blockers) :=
    match required_credentials with
    | [] => (checks, blockers)
    | _ =>
        let cred_result := check_credentials required_credentials in
        (dict_set "credentials" (VDict cred_result) checks,
         if is_str "fail" (get "status" cred_result)
         then blockers
              ++ [VStr ("Missing credentials: "
                        +:+ py_str (get "missing" cred_result))]
         else blockers)
    end in
  let '(checks, blockers) :=
    match validation_rules with
    | [] => (checks, blockers)
    | _ =>
        let input_result := validate_inputs inputs validation_rules in
        (dict_set "inputs" (VDict input_result) checks,
         if is_str "fail" (get "status" input_result)
         then blockers
              ++ match get "errors" input_result with
                 | VList errors => errors
                 | _ => []
                 end
         else blockers)
    end in
  let '(checks, warnings, blockers) :=
    match cost_formula with
    | Some (String _ _ as formula) =>
        let cost_result := estimate_cost formula inputs in
        let checks := dict_set "cost" (VDict cost_result) checks in
        if dict_mem "estimated_cost_usd" cost_result then
          let cost := get "estimated_cost_usd" cost_result in
          if truthy cost_block_threshold && gt cost cost_block_threshold then
            (checks, warnings,
             blockers
             ++ [VStr ("Estimated cost $" +:+ py_str cost
                       +:+ " exceeds block threshold $"
                       +:+ py_str cost_block_threshold)])
          else if truthy cost_warn_threshold && gt cost cost_warn_threshold
          then
            (checks,
             warnings
             ++ [VStr ("Estimated cost $" +:+ py_str cost
                       +:+ " exceeds warning threshold $"
                       +:+ py_str cost_warn_threshold)],
             blockers)
          else (checks, warnings, blockers)
        else (checks, warnings, blockers)
    | _ => (checks, warnings, blockers)
    end in
  let checks :=
    match time_formula with
    | Some (String _ _ as formula) =>
        dict_set "time" (VDict (estimate_time formula inputs)) checks
    | _ => checks
    end in
  [("pass", VBool (len blockers =? 0));
   ("checks", VDict checks);
   ("warnings", VList warnings);
   ("blockers", VList blockers)].

End preflight.

(** ** Downloading a script with its libraries (run.py) *)

Section download_with_deps.

Variable json_of : string -> FS.content.
Variable py_str : value -> string.
Variable self : ScriptResolver.
Variable home : FS.path.
Variable registry_get_script : string -> result (option (dict value)).





End download_with_deps.

(** ** The output of an argument-parser script (run.py, lines 742-984) *)

(** [s.split("\n")] *)
Fixpoint split_lines (s : string) : list string :=
  match s with
  | EmptyString => [EmptyString]
  | String c s' =>
      if Ascii.eqb c "010" then EmptyString :: split_lines s'
      else
        match split_lines s' with
        | line :: rest => String c line :: rest
        | [] => [String c EmptyString]
        end
  end.

(** How the subprocess ended: with a return code and its two streams
    (here after [strip()]), by timing out, or with another exception. *)
Inductive subprocess_result : Type :=
| Exited (returncode : Z) (output stderr_output : string)
| SubprocessTimeout
| SubprocessError (e : exn).

Section argparse_output.

(** [json.loads], with [None] for a [JSONDecodeError] and [json_error]
    for its message, and the quoted module name that the regular
    expression for [No module named] finds in a text. *)
Variable json_loads : string -> option value.
Variable json_error : string -> string.
Variable no_module_named : string -> option string.

(** [if json_output:] *)
Definition found (json_output : option value) : bool :=
  match json_output with Some v => truthy v | None => false end.

Definition no_metadata : value :=
  VDict [("duration_sec", VNone); ("cost_usd", VInt 0)].

(** Lines 746-763: [(json_output, json_source)]. *)
Definition find_json (output stderr_output : string)
    : option value * option string :=
  let from_stdout :=
    if negb (String.eqb output "") then
      match json_loads output with
      | Some v => (Some v, Some "stdout")
      | None => (None, None)
      end
    else (None, None) in
  if negb (found (fst from_stdout)) && negb (String.eqb stderr_output "") then
    match json_loads stderr_output with
    | Some v => (Some v, Some "stderr")
    | None => from_stdout
    end
  else from_stdout.

(** Lines 766-775 *)
Definition structured_error (json_output : dict value) : value :=
  VDict [("status", VStr "error");
         ("error", get_default "error" (VStr "unknown") json_output);
         ("message", get_default "message" (VStr "") json_output);
         ("data", VDict json_output);
         ("metadata", no_metadata)].

(** Lines 788-806 *)
Definition undeclared_module (error_msg : string) : value :=
  let missing_module := no_module_named error_msg in
  VDict [("status", VStr "error");
         ("error",
          VStr ("Missing dependency: "
                +:+ match missing_module with
                    | Some (String _ _ as m) => m
                    | _ => "unknown"
                    end
                +:+ ". This dependency was not declared in the script metadata."));
         ("error_type", VStr "dependency_error");
         ("missing_module", opt_str missing_module);
         ("suggestion",
          VStr ("Add '"
                +:+ match missing_module with Some m => m | None => "None" end
                +:+ "' to script dependencies or install manually: pip install "
                +:+ match missing_module with
                    | Some (String _ _ as m) => replace_char "_" "-" m
                    | _ => "PACKAGE"
                    end));
         ("data", VNone);
         ("metadata", no_metadata)].

(** Lines 808-813 and 979-984 *)
Definition failed_run (error : string) : value :=
  VDict [("status", VStr "error");
         ("error", VStr error);
         ("data", VNone);
         ("metadata", no_metadata)].

(** Lines 972-977 *)
Definition timed_out : value :=
  VDict [("status", VStr "error");
         ("error", VStr "Script execution timed out after 5 minutes");
         ("data", VNone);
         ("metadata", VDict [("duration_sec", VInt 300); ("cost_usd", VInt 0)])].

(** Lines 833-844: the log lines from stderr. *)
Definition with_logs (stderr_output : string) (json_source : option string)
    (response : dict value) : dict value :=
  if negb (String.eqb stderr_output "")
     && negb (match json_source with
              | Some source => String.eqb source "stderr"
              | None => false
              end)
  then
    let log_lines := split_lines stderr_output in
    if len log_lines >? MAX_LOG_LINES then
      dict_set "log_truncated"
        (VDict [("original_lines", VInt (len log_lines));
                ("shown_lines", VInt MAX_LOG_LINES);
                ("message",
                 VStr ("Logs truncated from " +:+ str_of_Z (len log_lines)
                       +:+ " to " +:+ str_of_Z MAX_LOG_LINES +:+ " lines"))])
        (dict_set "logs"
           (VList (map VStr (slice_to MAX_LOG_LINES log_lines))) response)
    else dict_set "logs" (VList (map VStr log_lines)) response
  else response.

(** [response["metadata"].update({...})] with the four fields read from
    [source]. *)
Definition update_metadata (source : dict value) (response : dict value)
    : dict value :=
  match dict_get "metadata" response with
  | Some (VDict m) =>
      dict_set "metadata"
        (VDict (dict_update m
                  [("duration_sec", get "duration_sec" source);
                   ("cost_usd", get_default "cost_usd" (VInt 0) source);
                   ("rows_processed", get "rows_processed" source);
                   ("api_calls_made", get "api_calls_made" source)]))
        response
  | _ => response
  end.

(** [len(script_data.get(field, []))], evaluated for the log message when
    the field is there. *)
Definition counted (field : string) (script_data : dict value) : result unit :=
  if dict_mem field script_data then
    match py_len (get_default field (VList []) script_data) with
    | Ok _ => Ok tt
    | Raise e => Raise e
    end
  else Ok tt.

(** Lines 846-908: what is made of stdout when no JSON was found before. *)
Definition with_parsed (output stderr_output : string)
    (json_output : option value) (response : dict value)
    : result (dict value) :=
  if found json_output then Ok response
  else if negb (String.eqb output "") then
    match json_loads output with
    | Some (VDict parsed) =>
        if dict_mem "status" parsed then
          let script_status := get_default "status" (VStr "success") parsed in
          let script_metadata := get_default "metadata" (VDict []) parsed in
          let script_data := dict_without ["status"; "metadata"] parsed in
          let response := dict_set "status" script_status response in
          let '(truncated_data, truncation_info) :=
            truncate_large_response (VDict script_data) MAX_ARRAY_ITEMS
                                    MAX_STRING_LENGTH "" in
          let response := dict_set "data" truncated_data response in
          let response :=
            match truncation_info with
            | [] => response
            | _ => dict_set "truncation_warnings" (VDict truncation_info)
                            response
            end in
          match counted "businesses" script_data with
          | Raise e => Raise e
          | Ok _ =>
              match counted "items" script_data with
              | Raise e => Raise e
              | Ok _ =>
                  if truthy script_metadata then
                    match script_metadata with
                    | VDict m => Ok (update_metadata m response)
                    | _ =>
                        Raise (AttributeError
                          ("'" +:+ type_name script_metadata
                           +:+ "' object has no attribute 'get'"))
                    end
                  else if dict_mem "duration_sec" parsed
                          || dict_mem "cost_usd" parsed
                  then Ok (update_metadata parsed response)
                  else Ok response
              end
          end
        else Ok (dict_set "data" (VDict parsed) response)
    | Some parsed => Ok (dict_set "data" parsed response)
    | None =>
        let data :=
          [("output", VStr (str_slice_to 1000 output));
           ("parse_error",
            VStr ("Could not parse as JSON: " +:+ json_error output))] in
        let data :=
          if negb (String.eqb stderr_output "")
          then dict_set "stderr" (VStr (str_slice_to 1000 stderr_output)) data
          else data in
        Ok (dict_set "data"
              (VDict (dict_set "_raw_output" (VStr (str_slice_to 2000 output))
                               data))
              response)
    end
  else Ok response.

(** Lines 910-918: stderr is added to the response. *)
Definition with_stderr (stderr_output : string) (response : dict value)
    : result (dict value) :=
  if String.eqb stderr_output "" then Ok response
  else
    let response :=
      if negb (dict_mem "logs" response)
      then dict_set "logs" (VList (map VStr (split_lines stderr_output)))
                    response
      else response in
    let response :=
      if negb (truthy (get "data" response))
      then dict_set "data" (VDict []) response
      else response in
    match get "data" response with
    | VDict data =>
        Ok (dict_set "data"
              (VDict (dict_set "_stderr"
                        (VStr (str_slice_to 500 stderr_output)) data))
              response)
    | VList _ =>
        Raise (TypeError "list indices must be integers or slices, not str")
    | data =>
        Raise (TypeError ("'" +:+ type_name data
                          +:+ "' object does not support item assignment"))
    end.

(** The first of the fields that is in [parsed] with a truthy value. *)
Fixpoint first_field (data_fields : list string) (parsed : dict value)
    : option string :=
  match data_fields with
  | [] => None
  | field :: rest =>
      if dict_mem field parsed && truthy (get field parsed) then Some field
      else first_field rest parsed
  end.

(** Lines 920-941: data found at the top level of the script's output. *)
Definition with_top_level_data (output : string) (response : dict value)
    : dict value :=
  if is_str "success" (get "status" response)
     && negb (truthy (get "data" response))
     && negb (String.eqb output "")
  then
    match json_loads output with
    | Some (VDict parsed) =>
        let response :=
          match first_field ["businesses"; "items"; "results"; "data"] parsed
          with
          | Some field =>
              dict_set "data" (VDict [(field, get field parsed)]) response
          | None => response
          end in
        if negb (truthy (get "data" response)) && truthy (VDict parsed)
        then dict_set "data" (VDict parsed) response
        else response
    | _ => response
    end
  else response.

(** Lines 943-957: stdout as it is, when nothing else was found. *)
Definition with_stdout (output : string) (response : dict value)
    : dict value :=
  if negb (truthy (get "data" response)) && negb (String.eqb output "") then
    dict_set "data"
      (VDict [("_stdout", VStr (str_slice_to 2000 output));
              ("_stdout_length", VInt (str_len output));
              ("_is_json",
               VBool (match json_loads output with
                      | Some _ => true
                      | None => false
                      end))])
      response
  else response.

(** What [_run_argparse_script] returns for the way the subprocess
    ended. *)
Definition argparse_response (r : subprocess_result) : value :=
  match r with
  | SubprocessTimeout => timed_out
  | SubprocessError e => failed_run (exn_msg e)
  | Exited returncode output stderr_output =>
      let '(json_output, json_source) := find_json output stderr_output in
      match (if found json_output then
               match json_output with
               | Some (VDict d) =>
                   if is_str "error" (get "status" d)
                   then Some (structured_error d)
                   else None
               | _ => None
               end
             else None) with
      | Some response => response
      | None =>
          if negb (returncode =? 0) && negb (found json_output) then
            let error_msg :=
              str_or stderr_output (str_or output "Unknown error") in
            if contains "ModuleNotFoundError" error_msg
               || contains "ImportError" error_msg
               || contains "No module named" error_msg
            then undeclared_module error_msg
            else failed_run (str_slice_to 500 error_msg)
          else
            let response :=
              [("status", VStr "success");
               ("data", VDict []);
               ("metadata", no_metadata)] in
            let response := with_logs stderr_output json_source response in
            match with_parsed output stderr_output json_output response with
            | Raise e => failed_run (exn_msg e)
            | Ok response =>
                match with_stderr stderr_output response with
                | Raise e => failed_run (exn_msg e)
                | Ok response =>
                    VDict (with_stdout output
                             (with_top_level_data output response))
                end
            end
      end
  end.

End argparse_output.

(** ** The environment of a subprocess (env_manager.py) *)

Section subprocess_env.

(** The file system, [os.pathsep], and whether [os.name] is "nt". *)
Variable fs : FS.node.
Variable pathsep : string.
Variable nt : bool.

(** [build_subprocess_env] (env_manager.py, lines 170-200), from
    [os.environ], the search paths (absolute) and the outcome of
    [self.ensure_venv()]. *)
Definition build_subprocess_env (environ : dict string)
    (search_paths : list FS.path) (venv : result FS.path)
    : result (dict string) :=
  let env := environ in
  let pythonpath_parts :=
    map path_str (List.filter (FS.exists_ fs) search_paths) in
  let pythonpath_parts :=
    match dict_get "PYTHONPATH" env with
    | Some (String _ _ as inherited) => pythonpath_parts ++ [inherited]
    | _ => pythonpath_parts
    end in
  let env := dict_set "PYTHONPATH" (String.concat pathsep pythonpath_parts) env in
  match venv with
  | Raise e => Raise e
  | Ok venv_dir =>
      let bin_dir := venv_dir ++ [if nt then "Scripts" else "bin"] in
      let env :=
        dict_set "PATH"
          (path_str bin_dir +:+ pathsep +:+ get_default "PATH" "" env) env in
      let env := dict_set "VIRTUAL_ENV" (path_str venv_dir) env in
      Ok (dict_remove "PYTHONHOME" env)
  end.

End subprocess_env.

(** * Properties *)

(** ** Induction over values *)

Section value_induction.

Variable P : value -> Prop.
Hypothesis P_none : P VNone.
Hypothesis P_bool : forall b, P (VBool b).
Hypothesis P_int : forall n, P (VInt n).
Hypothesis P_float : forall m e, P (VFloat m e).
Hypothesis P_str : forall s, P (VStr s).
Hypothesis P_list : forall l, Forall P l -> P (VList l).
Hypothesis P_dict : forall d, Forall (fun kv => P (snd kv)) d -> P (VDict d).

Fixpoint value_rect' (v : value) : P v :=
  match v with
  | VNone => P_none
  | VBool b => P_bool b
  | VInt n => P_int n
  | VFloat m e => P_float m e
  | VStr s => P_str s
  | VList l =>
      P_list l ((fix all (xs : list value) : Forall P xs :=
                   match xs with
                   | [] => @List.Forall_nil _ P
                   | x :: xs' => @List.Forall_cons _ P x xs' (value_rect' x) (all xs')
                   end) l)
  | VDict d =>
      P_dict d ((fix all (xs : list (string * value))
                   : Forall (fun kv => P (snd kv)) xs :=
                   match xs with
                   | [] => @List.Forall_nil _ _
                   | x :: xs' =>
                       @List.Forall_cons _ (fun kv => P (snd kv)) x xs'
                                    (value_rect' (snd x)) (all xs')
                   end) d)
  end.

End value_induction.

(** ** Truncation *)

(** Every dict inside the value has pairwise distinct keys. *)
Inductive wf_value : value -> Prop :=
| wf_VNone : wf_value VNone
| wf_VBool b : wf_value (VBool b)
| wf_VInt n : wf_value (VInt n)
| wf_VFloat m e : wf_value (VFloat m e)
| wf_VStr s : wf_value (VStr s)
| wf_VList l : Forall wf_value l -> wf_value (VList l)
| wf_VDict d :
    wf_dict d -> Forall (fun kv => wf_value (snd kv)) d -> wf_value (VDict d).

(** The data component alone, on well-formed values. *)
Fixpoint trunc (max_items max_string : Z) (data : value) : value :=
  match data with
  | VDict d =>
      VDict (map (fun kv => (fst kv, trunc max_items max_string (snd kv))) d)
  | VList l =>
      if len l >? max_items then VList (slice_to max_items l)
      else VList (map (trunc max_items max_string) l)
  | VStr s =>
      if str_len s >? max_string then
        VStr (str_slice_to max_string s
              +:+ string_suffix (str_len s - max_string))
      else data
  | _ => data
  end.

(** Nothing in the value exceeds the caps. *)
Fixpoint within_caps (max_items max_string : Z) (v : value) : bool :=
  match v with
  | VStr s => str_len s <=? max_string
  | VList l =>
      (len l <=? max_items) && forallb (within_caps max_items max_string) l
  | VDict d =>
      forallb (fun kv => within_caps max_items max_string (snd kv)) d
  | _ => true
  end.


Lemma dict_set_fresh {A} (k : string) (v : A) (d : dict A) :
  k ∉ keys d -> dict_set k v d = d ++ [(k, v)].
Proof.
  induction d as [|[k' v'] d IH]; simpl; intros Hk; [reflexivity|].
  destruct (String.eqb_spec k k') as [->|_].
  - exfalso. apply Hk. apply elem_of_cons. now left.
  - rewrite IH; [reflexivity|]. intros Hin. apply Hk.
    apply elem_of_cons. now right.
Qed.

Lemma keys_app {A} (d1 d2 : dict A) : keys (d1 ++ d2) = keys d1 ++ keys d2.
Proof. unfold keys. apply map_app. Qed.

Lemma truncate_data (mi ms : Z) (v : value) :
  wf_value v ->
  forall path, fst (truncate_large_response v mi ms path) = trunc mi ms v.
Proof.
  induction v as [| | | | |l IH|d IH] using value_rect'; intros Hwf path;
    try reflexivity.
  - (* str *)
    simpl. destruct (str_len s >? ms); reflexivity.
  - (* list *)
    simpl. destruct (len l >? mi); [reflexivity|].
    inversion Hwf as [| | | | |l' Hl|]; subst.
    assert (Hgen : forall xs i acc info,
      Forall wf_value xs ->
      Forall (fun v => wf_value v -> forall path,
                fst (truncate_large_response v mi ms path) = trunc mi ms v) xs ->
      fst ((fix each (xs : list value) (i : Z) (truncated : list value)
                 (truncation_info : dict value) {struct xs}
              : value * dict value :=
              match xs with
              | [] => (VList truncated, truncation_info)
              | item :: rest =>
                  let new_path :=
                    if String.eqb path "" then "[" +:+ str_of_Z i +:+ "]"
                    else path +:+ "[" +:+ str_of_Z i +:+ "]" in
                  let '(truncated_item, info) :=
                    truncate_large_response item mi ms new_path in
                  each rest (i + 1) (truncated ++ [truncated_item])
                       (match info with
                        | [] => truncation_info
                        | _ => dict_update truncation_info info
                        end)
              end) xs i acc info)
      = VList (acc ++ map (trunc mi ms) xs)).
    { induction xs as [|x xs IHxs]; intros i acc info Hw Hall.
      - simpl. now rewrite app_nil_r.
      - inversion Hw; subst. inversion Hall as [|? ? Hx Hxs]; subst.
        cbn -[truncate_large_response].
        specialize (Hx H1 (if String.eqb path "" then "[" +:+ str_of_Z i +:+ "]"
                           else path +:+ "[" +:+ str_of_Z i +:+ "]")).
        destruct (truncate_large_response x mi ms _) as [tv inf].
        simpl in Hx. subst tv.
        rewrite IHxs by assumption.
        now rewrite <- app_assoc. }
    now rewrite Hgen.
  - (* dict *)
    simpl.
    inversion Hwf as [| | | | | |d' Hnd Hd]; subst.
    assert (Hgen : forall kvs acc info,
      NoDup (keys acc ++ keys kvs) ->
      Forall (fun kv => wf_value (snd kv)) kvs ->
      Forall (fun kv => wf_value (snd kv) -> forall path,
                fst (truncate_large_response (snd kv) mi ms path)
                = trunc mi ms (snd kv)) kvs ->
      fst ((fix items (kvs : list (string * value))
                 (truncated truncation_info : dict value) {struct kvs}
              : value * dict value :=
              match kvs with
              | [] => (VDict truncated, truncation_info)
              | (key, v) :: rest =>
                  let new_path :=
                    if String.eqb path "" then key else path +:+ "." +:+ key in
                  let '(truncated_val, info) :=
                    truncate_large_response v mi ms new_path in
                  items rest (dict_set key truncated_val truncated)
                        (match info with
                         | [] => truncation_info
                         | _ => dict_update truncation_info info
                         end)
              end) kvs acc info)
      = VDict (acc ++ map (fun kv => (fst kv, trunc mi ms (snd kv))) kvs)).
    { induction kvs as [|[k x] kvs IHk]; intros acc info Hn Hw Hall.
      - simpl. now rewrite app_nil_r.
      - inversion Hw; subst. inversion Hall as [|? ? Hx Hxs]; subst.
        cbn -[truncate_large_response].
        simpl in Hx, H1.
        specialize (Hx H1 (if String.eqb path "" then k else path +:+ "." +:+ k)).
        destruct (truncate_large_response x mi ms _) as [tv inf].
        simpl in Hx. subst tv.
        simpl in Hn.
        rewrite dict_set_fresh.
        2:{ apply NoDup_app in Hn as (_ & Hn & _). intros Hin.
            apply (Hn k Hin). apply elem_of_cons. now left. }
        rewrite IHk; try assumption.
        + now rewrite <- app_assoc.
        + rewrite keys_app. simpl.
          rewrite <- app_assoc. exact Hn. }
    now rewrite Hgen.
Qed.

Lemma within_caps_fixed (mi ms : Z) (v : value) :
  within_caps mi ms v = true -> trunc mi ms v = v.
Proof.
  induction v as [| | | | |l IH|d IH] using value_rect'; intros Hc;
    try reflexivity; simpl in *.
  - destruct (Z.gtb_spec (str_len s) ms); [|reflexivity].
    apply Z.leb_le in Hc. lia.
  - apply andb_true_iff in Hc as [Hlen Hall].
    apply Z.leb_le in Hlen.
    destruct (Z.gtb_spec (len l) mi) as [?|Hle]; [lia|].
    f_equal. clear Hlen Hle.
    induction l as [|x l IHl]; [reflexivity|].
    simpl in Hall. apply andb_true_iff in Hall as [Hx Hl].
    inversion IH as [|? ? IHx IHl']; subst.
    simpl. rewrite IHx by assumption. rewrite IHl by assumption. reflexivity.
  - f_equal.
    induction d as [|[k x] d IHd]; [reflexivity|].
    simpl in Hc. apply andb_true_iff in Hc as [Hx Hd].
    inversion IH as [|? ? IHx IHd']; subst.
    simpl in *. rewrite IHx by assumption. rewrite IHd by assumption.
    reflexivity.
Qed.



(** Data within the caps is left as it is. *)
Lemma truncate_fixed_point (mi ms : Z) (v : value) (path : string) :
  wf_value v -> within_caps mi ms v = true ->
  fst (truncate_large_response v mi ms path) = v.
Proof.
  intros Hwf Hc. rewrite truncate_data by assumption.
  now apply within_caps_fixed.
Qed.



Definition sample_data : value :=
  VDict [("rows", VList [VInt 1; VInt 2; VInt 3; VInt 4]);
         ("note", VStr "ok");
         ("nested", VList [VDict [("k", VStr "v")]; VNone])].

Ltac prove_wf :=
  repeat first
    [ apply wf_VDict;
      [ unfold wf_dict; apply (bool_decide_unpack _); vm_compute; exact I | ]
    | apply wf_VList
    | apply List.Forall_cons
    | apply List.Forall_nil
    | apply wf_VStr | apply wf_VInt | apply wf_VNone | apply wf_VBool
    | apply wf_VFloat ].

Lemma wf_sample_data : wf_value sample_data.
Proof. unfold sample_data. prove_wf. Qed.


(** C10: on a list longer than the item cap the code returns the first
    [max_items] items as they are, without descending into them: with an
    item cap of 1, the list [[1, 2], [3]] is cut to [[1, 2]], although
    truncating the surviving item [1, 2] on its own gives [1]. *)
Theorem truncate_cut_list_keeps_items_as_they_are :
  fst (truncate_large_response
         (VList [VList [VInt 1; VInt 2]; VList [VInt 3]]) 1 10 "")
  = VList [VList [VInt 1; VInt 2]]
  /\ fst (truncate_large_response (VList [VInt 1; VInt 2]) 1 10 "[0]")
     = VList [VInt 1].
Proof. split; reflexivity. Qed.

(** In general: a list longer than the cap is sliced and nothing else. *)
Lemma truncate_cut_list (mi ms : Z) (l : list value) (path : string) :
  len l > mi ->
  fst (truncate_large_response (VList l) mi ms path) = VList (slice_to mi l).
Proof.
  intros H. simpl. destruct (Z.gtb_spec (len l) mi); [reflexivity|lia].
Qed.

(** The parts of the structure that are preserved: a dict keeps its keys
    in order, and a list within the cap keeps its length. *)
Lemma truncate_dict_keys (mi ms : Z) (d : dict value) (path : string) :
  wf_value (VDict d) ->
  exists d', fst (truncate_large_response (VDict d) mi ms path) = VDict d'
             /\ keys d' = keys d.
Proof.
  intros Hwf. rewrite truncate_data by assumption.
  simpl. eexists. split; [reflexivity|].
  unfold keys. rewrite map_map. reflexivity.
Qed.

(** ** Dependency validation *)

(** An entry the validation accepts: a dict whose name is a non-empty
    string that does not open like serialized JSON, and whose version is a
    string or absent. *)
Definition acceptable (e : value) : bool :=
  match e with
  | VDict d =>
      match get "name" d with
      | VStr n =>
          negb (String.eqb n "")
          && negb (startswith "{" n || startswith "[" n)
          && match get "version" d with
             | VNone | VStr _ => true
             | _ => false
             end
      | _ => false
      end
  | _ => false
  end.

(** The record an accepted entry is normalized to. *)
Definition normalize (e : value) : dependency :=
  match e with
  | VDict d =>
      Dep (match get "name" d with VStr n => n | _ => "" end)
          (match get "version" d with VStr v => Some v | _ => None end)
  | _ => Dep "" None
  end.

(** "A dict with a string name". *)
Definition has_string_name (e : value) : Prop :=
  exists d n, e = VDict d /\ get "name" d = VStr n.

(** The error is a [ValueError] whose message opens with the index of the
    entry and what is wrong with it. *)
Definition identifies (i : Z) (what : string) (e : exn) : Prop :=
  exists rest,
    e = ValueError ("Dependency " +:+ str_of_Z i +:+ what +:+ rest).

Section validation.

Variable py_str : value -> string.

Lemma validate_entry_acceptable (i : Z) (e : value) :
  acceptable e = true -> validate_entry py_str i e = Ok (normalize e).
Proof.
  destruct e as [| | | | | |d]; try discriminate. simpl.
  destruct (get "name" d) as [| | | |n| |] eqn:Hn; try discriminate.
  intros H. apply andb_true_iff in H as [H Hv].
  apply andb_true_iff in H as [Hne Hj].
  simpl. rewrite Hne. simpl.
  rewrite (negb_true_iff _) in Hj. rewrite Hj.
  destruct (get "version" d); try discriminate; reflexivity.
Qed.

Lemma validate_entries_acceptable (deps : list value) :
  forallb acceptable deps = true ->
  forall i validated,
    validate_entries py_str i deps validated
    = Ok (validated ++ map normalize deps).
Proof.
  induction deps as [|e deps IH]; intros Hall i validated; simpl.
  - now rewrite app_nil_r.
  - simpl in Hall. apply andb_true_iff in Hall as [He Hd].
    rewrite validate_entry_acceptable by assumption.
    rewrite IH by assumption. now rewrite <- app_assoc.
Qed.

Lemma validate_entries_first_failure (pre post : list value) (e : value)
    (ex : exn) :
  forallb acceptable pre = true ->
  forall i validated,
    validate_entry py_str (i + len pre) e = Raise ex ->
    validate_entries py_str i (pre ++ e :: post) validated = Raise ex.
Proof.
  induction pre as [|x pre IH]; intros Hall i validated He; simpl.
  - unfold len in He. simpl in He. rewrite Z.add_0_r in He. now rewrite He.
  - simpl in Hall. apply andb_true_iff in Hall as [Hx Hpre].
    rewrite validate_entry_acceptable by assumption.
    apply IH; [assumption|].
    replace (i + 1 + len pre) with (i + len (x :: pre)); [exact He|].
    unfold len. simpl length. lia.
Qed.

(** C4: [_validate_dependencies] fails on the first entry that is not a
    dict with a string name, with a [ValueError] whose message opens with
    the index of that entry and says whether the entry is not a dict or its
    'name' field is not a string; a list that starts with {"name": 123}
    fails on index 0 and the 'name' field, reporting type int; an entry
    whose name starts with an opening brace fails as JSON-encoded; and a
    list of accepted entries is returned normalized, entry by entry, in the
    same order and of the same length. *)
Theorem validate_dependencies_contract :
  (forall pre e post,
      forallb acceptable pre = true -> ~ has_string_name e ->
      exists ex,
        _validate_dependencies py_str (VList (pre ++ e :: post)) = Raise ex
        /\ (identifies (len pre) " must be a dict, got " ex
            \/ identifies (len pre) " 'name' field must be a string, got " ex))
  /\ (forall post,
         exists ex,
           _validate_dependencies py_str
             (VList (VDict [("name", VInt 123)] :: post)) = Raise ex
           /\ identifies 0 " 'name' field must be a string, got int: " ex)
  /\ (forall pre d n post,
         forallb acceptable pre = true ->
         get "name" d = VStr n -> startswith "{" n = true ->
         exists ex,
           _validate_dependencies py_str (VList (pre ++ VDict d :: post))
           = Raise ex
           /\ identifies (len pre)
                " 'name' field appears to be JSON-encoded: " ex)
  /\ (forall deps,
         forallb acceptable deps = true ->
         exists validated,
           _validate_dependencies py_str (VList deps) = Ok validated
           /\ validated = map normalize deps
           /\ length validated = length deps).
Proof.
  repeat split.
  - intros pre e post Hpre He.
    assert (Hfail : exists ex,
               validate_entry py_str (0 + len pre) e = Raise ex
               /\ (identifies (len pre) " must be a dict, got " ex
                   \/ identifies (len pre)
                        " 'name' field must be a string, got " ex)).
    { rewrite Z.add_0_l.
      destruct e as [| | | | | |d];
        try (eexists; split; [reflexivity|]; left; eexists; reflexivity).
      simpl. destruct (get "name" d) as [| | | |n| |] eqn:Hn;
        try (eexists; split; [reflexivity|]; right; eexists; reflexivity).
      exfalso. apply He. now exists d, n. }
    destruct Hfail as (ex & Hex & Hid).
    exists ex. split; [|exact Hid].
    simpl. now apply validate_entries_first_failure.
  - intros post. eexists. split; [reflexivity|].
    eexists. reflexivity.
  - intros pre d n post Hpre Hn Hj.
    eexists. split.
    + simpl. apply validate_entries_first_failure; [assumption|].
      rewrite Z.add_0_l. simpl. rewrite Hn.
      assert (Hne : truthy (VStr n) = true).
      { destruct n; [discriminate Hj|reflexivity]. }
      rewrite Hne. simpl. rewrite Hj. simpl. reflexivity.
    + eexists. reflexivity.
  - intros deps Hall. eexists. split; [|split; [reflexivity|]].
    + simpl. rewrite validate_entries_acceptable by assumption. reflexivity.
    + now rewrite length_map.
Qed.

End validation.

Lemma validate_dependencies_witness :
  _validate_dependencies (fun _ => "?")
    (VList [VDict [("name", VStr "requests"); ("version", VStr ">=2.0")];
            VDict [("name", VStr "rich")]])
  = Ok [Dep "requests" (Some ">=2.0"); Dep "rich" None].
Proof.
  destruct (validate_dependencies_contract (fun _ => "?"))
    as (_ & _ & _ & Hok).
  destruct (Hok [VDict [("name", VStr "requests"); ("version", VStr ">=2.0")];
                 VDict [("name", VStr "rich")]] eq_refl)
    as (validated & Hrun & Hval & _).
  rewrite Hrun, Hval. reflexivity.
Defined.

(** ** Merging file and registry dependencies *)

(** A registry entry whose (mapped) name is already among the names
    extracted from the file is dropped. *)
Lemma append_registry_deps_known (names : list value)
    (registry_deps : list dependency) (pip_dependencies : list value) :
  Forall (fun dep =>
            name_in (get_default (dep_name dep) (dep_name dep) MODULE_TO_PACKAGE)
                    names = true) registry_deps ->
  append_registry_deps names registry_deps pip_dependencies = pip_dependencies.
Proof.
  induction 1 as [|dep rest Hdep _ IH]; simpl; [reflexivity|].
  rewrite Hdep. rewrite andb_false_r. exact IH.
Qed.

(** C2: the script file yields [requests] with no version and the registry
    declares [requests >=2.0]; the merged list that goes to the
    missing-package check is the file's entry alone - the registry entry
    for the colliding name is dropped, not preferred. *)
Theorem merge_keeps_file_entry_on_collision :
  merge_dependencies
    [VDict [("name", VStr "requests"); ("version", VNone)]]
    [Dep "requests" (Some ">=2.0")]
  = [VDict [("name", VStr "requests"); ("version", VNone)]].
Proof. reflexivity. Qed.

(** ** Package specs *)

(** What [EnvManager.install_packages] builds. *)
Lemma env_manager_package_spec (name v : string) :
  EnvManager.package_spec name None = name
  /\ (v <> "" ->
      startswith ">=" v || startswith "<=" v || startswith "==" v
      || startswith "~=" v || startswith "!=" v = true ->
      EnvManager.package_spec name (Some v) = name +:+ v)
  /\ (v <> "" ->
      startswith ">=" v || startswith "<=" v || startswith "==" v
      || startswith "~=" v || startswith "!=" v = false ->
      EnvManager.package_spec name (Some v) = name +:+ "==" +:+ v).
Proof.
  split; [reflexivity|].
  split; intros Hv Hop; unfold EnvManager.package_spec;
    destruct (String.eqb_spec v "") as [->|_]; try congruence;
    simpl; now rewrite Hop.
Qed.

Lemma env_manager_install_issues_spec (python : string)
    (pip : string -> pip_outcome) (name : string) (pkg_version : option string)
    (st : proc) :
  name <> "" ->
  trace (fst (EnvManager.install_packages (Ok python) pip
                [("name", name) :: match pkg_version with
                                   | Some v => [("version", v)]
                                   | None => []
                                   end] st))
  = trace st ++ [PipInstall python (EnvManager.package_spec name pkg_version)].
Proof.
  intros Hname.
  assert (Hget : dict_get "version"
            (("name", name) :: match pkg_version with
                               | Some v => [("version", v)]
                               | None => []
                               end) = pkg_version).
  { destruct pkg_version; reflexivity. }
  unfold EnvManager.install_packages, EnvManager.install_each.
  rewrite Hget. cbn [dict_get String.eqb Ascii.eqb Bool.eqb].
  destruct name as [|c name]; [congruence|].
  unfold bind, emit, lift. cbn [trace fst].
  destruct (pip _) as [[| |] ?| |]; reflexivity.
Qed.

(** C6: asked to install [requests] with the bare version number 2.31.0,
    [RunTool._install_pip_dependencies] - the installer [execute] uses for
    missing dependencies - runs pip on the spec "requests2.31.0", where
    [EnvManager.install_packages] builds "requests==2.31.0". *)
Theorem run_tool_installs_bare_version_without_operator (w : world) (st : proc) :
  trace (fst (_install_pip_dependencies w
                [VDict [("name", VStr "requests"); ("version", VStr "2.31.0")]]
                st))
  = trace st ++ [PipInstall (w_sys_executable w) "requests2.31.0"]
  /\ EnvManager.package_spec "requests" (Some "2.31.0") = "requests==2.31.0".
Proof.
  split; [|reflexivity].
  unfold _install_pip_dependencies, bind, lift. simpl.
  unfold bind, emit. cbn [trace fst].
  destruct (w_pip w _) as [[| |] ?| |]; reflexivity.
Qed.

(** ** Resolution order *)

Section node_induction.

Variable P : FS.node -> Prop.
Hypothesis P_file : forall name c, P (FS.File name c).
Hypothesis P_dir : forall name children, Forall P children -> P (FS.Dir name children).


End node_induction.

Definition below (fname : string) (base : FS.path) (c : FS.node) : list FS.path :=
  match c with
  | FS.Dir cname _ => FS.rglob fname (base ++ [cname]) c
  | FS.File _ _ => []
  end.


Lemma child_in (name : string) (children : list FS.node) (n : FS.node) :
  FS.child name children = Some n -> In n children /\ FS.node_name n = name.
Proof.
  induction children as [|c cs IH]; simpl; [discriminate|].
  destruct (String.eqb_spec name (FS.node_name c)) as [->|_].
  - intros [= ->]. split; [now left|reflexivity].
  - intros H. destruct (IH H). split; [now right|assumption].
Qed.






(** *** The names and trees the search is modelled for *)

(** The characters that keep a script name from being one literal file
    name: an asterisk, a question mark or an opening bracket makes
    [f"{script_name}.py"] a glob pattern for [Path.rglob], a slash makes
    it several path components, and no file name holds a NUL. *)
Definition glob_or_separator (a : ascii) : bool :=
  existsb (Ascii.eqb a)
    ["*"%char; "?"%char; "["%char; "/"%char; Ascii.zero].

(** A script name that is looked for as it is written, and whose file
    name fits in a directory entry (255 bytes). *)
Definition literal_name (script_name : string) : bool :=
  forallb (fun a => negb (glob_or_separator a))
          (list_ascii_of_string script_name)
  && Nat.leb (String.length script_name) 252.

(** A category that names one directory below the scripts directory. *)
Definition directory_name (c : string) : bool :=
  forallb (fun a => negb (Ascii.eqb a "/" || Ascii.eqb a Ascii.zero))
          (list_ascii_of_string c)
  && negb (String.eqb c ".") && negb (String.eqb c "..")
  && Nat.leb (String.length c) 255.

Definition directory_or_none (category : option string) : bool :=
  match category with
  | Some c => directory_name c
  | None => true
  end.

(** Every existence test answers: [os.stat] fails on no path. *)
Definition accessible (stat_error : FS.path -> option exn) : Prop :=
  forall p, stat_error p = None.

Definition no_stat_error : FS.path -> option exn := fun _ => None.

Lemma no_stat_error_accessible : accessible no_stat_error.
Proof. intros p. reflexivity. Qed.



Section accessible_tree.

Variable fs : FS.node.
Variable stat_error : FS.path -> option exn.
Hypothesis answers : accessible stat_error.

Lemma exists_accessible (p : FS.path) :
  exists_ fs stat_error p = Ok (FS.exists_ fs p).
Proof. unfold exists_. now rewrite answers. Qed.

Lemma is_file_accessible (p : FS.path) :
  is_file fs stat_error p = Ok (FS.is_file fs p).
Proof. unfold is_file. now rewrite answers. Qed.

Lemma first_of_accessible (found : list FS.path) :
  first_of fs stat_error found = Ok (find (FS.is_file fs) found).
Proof.
  induction found as [|p rest IH]; [reflexivity|].
  cbn [first_of find]. rewrite is_file_accessible.
  destruct (FS.is_file fs p); [reflexivity|exact IH].
Qed.

Lemma present_accessible (q : FS.path) :
  present fs stat_error (Ok (Some q))
  = Ok (if FS.exists_ fs q then Some q else None).
Proof.
  unfold present. rewrite exists_accessible.
  destruct (FS.exists_ fs q); reflexivity.
Qed.


Lemma first_file_returns (dir : FS.path) (fname : string) :
  exists found, first_file fs stat_error dir fname = Ok found.
Proof.
  unfold first_file. destruct (FS.lookup dir fs); [|now eexists].
  rewrite first_of_accessible. now eexists.
Qed.


Lemma check_space_returns (scripts : FS.path) (name : string)
    (category : option string) :
  exists found, check_space fs stat_error scripts name category = Ok found.
Proof.
  unfold check_space. cbv zeta.
  destruct category as [c|]; [destruct (negb (String.eqb c ""))|];
    repeat (rewrite exists_accessible;
            match goal with
            | |- context [FS.exists_ fs ?q] => destruct (FS.exists_ fs q)
            end);
    try apply first_file_returns; now eexists.
Qed.

Lemma present_returns (found : option FS.path) :
  exists kept, present fs stat_error (Ok found) = Ok kept.
Proof.
  destruct found as [q|]; [|now eexists].
  rewrite present_accessible. now eexists.
Qed.

Lemma get_lockfile_version_returns (self : ScriptResolver) (name : string) :
  exists v, _get_lockfile_version fs stat_error self name = Ok v.
Proof.
  unfold _get_lockfile_version. rewrite !exists_accessible.
  repeat match goal with
         | |- context [match FS.exists_ fs ?q with _ => _ end] =>
             destruct (FS.exists_ fs q)
         | |- context [match ?x with Ok _ => _ | Raise _ => _ end] => destruct x
         end; eexists; reflexivity.
Qed.

(** On a tree whose tests answer, [resolve_script] returns, and its
    result carries what [_get_lockfile_version] returned. *)
Lemma resolve_script_total (self : ScriptResolver) (name : string)
    (category : option string) :
  exists r lv,
    resolve_script fs stat_error self name category = Ok r
    /\ _get_lockfile_version fs stat_error self name = Ok lv
    /\ lockfile_version r = lv.
Proof.
  unfold resolve_script, _check_project_space, _check_user_space.
  destruct (get_lockfile_version_returns self name) as [lv ->].
  destruct (check_space_returns (project_scripts self) name category)
    as [found ->].
  destruct (present_returns found) as [[pp|] ->];
    [eexists _, lv; repeat split|].
  destruct (check_space_returns (user_scripts self) name category)
    as [found' ->].
  destruct (present_returns found') as [[up|] ->];
    [eexists _, lv; repeat split|].
  destruct (_check_registry self name lv); eexists _, lv; repeat split.
Qed.


End accessible_tree.





Definition demo_fs : FS.node :=
  FS.Dir ""
    [FS.Dir "work"
       [FS.Dir ".ai"
          [FS.Dir "scripts"
             [FS.Dir "scraping" [FS.File "scrape.py" FS.Malformed];
              FS.Dir "lib" [FS.File "http_session.py" FS.Malformed]];
           FS.File "scripts.lock.json" FS.Malformed]];
     FS.Dir "home"
       [FS.Dir ".script-kiwi"
          [FS.Dir "scripts"
             [FS.Dir "scraping"
                [FS.Dir "maps" [FS.File "scrape.py" FS.Malformed]];
              FS.Dir "utility" [FS.File "tidy.py" FS.Malformed]];
           FS.File "scripts.lock.json"
             (FS.Json (VDict [("scripts",
                               VDict [("tidy", VStr "1.2.0")])]))]]].

Definition demo_registry : registry :=
  {| client := true;
     get_script := fun name _ =>
       Ok (VDict [("name", VStr name); ("version", VStr "9.9.9")]) |}.

Definition demo_resolver : ScriptResolver :=
  {| project_root := ["work"];
     user_home := ["home"];
     script_kiwi_home := ["home"; ".script-kiwi"];
     registry_client := demo_registry |}.


(** *** A directory that may not be searched *)

Definition permission_denied : exn :=
  Exn "PermissionError" false true "[Errno 13] Permission denied".

Fixpoint strictly_below (dir p : FS.path) : bool :=
  match dir, p with
  | [], _ :: _ => true
  | d :: dir', c :: p' => String.eqb d c && strictly_below dir' p'
  | _, [] => false
  end.

(** [dir] lacks the search permission: [os.stat] fails with EACCES on
    every path below it. *)
Definition sealed (dir : FS.path) : FS.path -> option exn :=
  fun p => if strictly_below dir p then Some permission_denied else None.



(** ** The lockfile *)

Definition project_lock (self : ScriptResolver) : FS.path :=
  project_root self ++ [".ai"; "scripts.lock.json"].

Definition user_lock (self : ScriptResolver) : FS.path :=
  user_home self ++ [".script-kiwi"; "scripts.lock.json"].

(** The lockfile that is read: the project's if it exists, else the
    user's if it exists. *)
Definition chosen_lockfile (fs : FS.node) (self : ScriptResolver)
    : option FS.path :=
  if FS.exists_ fs (project_lock self) then Some (project_lock self)
  else if FS.exists_ fs (user_lock self) then Some (user_lock self)
  else None.

(** Both [lockfile_path.exists()] tests answer. *)
Definition lockfiles_testable (stat_error : FS.path -> option exn)
    (self : ScriptResolver) : Prop :=
  stat_error (project_lock self) = None /\ stat_error (user_lock self) = None.

Lemma lockfile_read (fs : FS.node) (stat_error : FS.path -> option exn)
    (self : ScriptResolver) (name : string) (p : FS.path) :
  lockfiles_testable stat_error self ->
  chosen_lockfile fs self = Some p ->
  _get_lockfile_version fs stat_error self name
  = match (match FS.load_json fs p with
           | Ok lockfile =>
               match py_get lockfile "scripts" (VDict []) with
               | Ok scripts => py_get scripts name VNone
               | Raise e => Raise e
               end
           | Raise e => Raise e
           end) with
    | Ok v => Ok v
    | Raise _ => Ok VNone
    end.
Proof.
  intros [Hp Hu].
  unfold chosen_lockfile, _get_lockfile_version, exists_.
  fold (project_lock self). fold (user_lock self). rewrite Hp, Hu.
  destruct (FS.exists_ fs (project_lock self)).
  - now intros [= <-].
  - destruct (FS.exists_ fs (user_lock self)); [|discriminate].
    now intros [= <-].
Qed.

(** C9 (as stated, refuted): the test of the project's lockfile raises
    [PermissionError] when [.ai] may not be searched, and
    [_get_lockfile_version] with it, for both tests stand before the
    [try:]; [resolve_script] raises in turn. *)
Lemma lockfile_version_raises_in_sealed_project :
  _get_lockfile_version demo_fs (sealed ["work"; ".ai"]) demo_resolver
    "scrape"
  = Raise permission_denied
  /\ resolve_script demo_fs (sealed ["work"; ".ai"]) demo_resolver
       "scrape" None
     = Raise permission_denied.
Proof. split; reflexivity. Qed.

(** C9: [_get_lockfile_version] raises only what one of its two
    existence tests raises, and raises whenever the test it reaches
    does.  When both tests answer it always returns a value: [None] when
    neither lockfile exists, when the lockfile chosen cannot be read, holds
    malformed JSON, or has no entry for the script; and [resolve_script],
    when its own existence tests answer too, returns a result whose
    [lockfile_version] is that value. *)
Theorem lockfile_version_raises_only_from_its_tests (fs : FS.node)
    (stat_error : FS.path -> option exn) (self : ScriptResolver)
    (name : string) :
  (forall e,
      _get_lockfile_version fs stat_error self name = Raise e <->
      stat_error (project_lock self) = Some e
      \/ (stat_error (project_lock self) = None
          /\ FS.exists_ fs (project_lock self) = false
          /\ stat_error (user_lock self) = Some e))
  /\ (lockfiles_testable stat_error self ->
      (exists v, _get_lockfile_version fs stat_error self name = Ok v)
      /\ (chosen_lockfile fs self = None ->
          _get_lockfile_version fs stat_error self name = Ok VNone)
      /\ (forall p file_name,
             chosen_lockfile fs self = Some p ->
             FS.lookup p fs = Some (FS.File file_name FS.Unreadable)
             \/ FS.lookup p fs = Some (FS.File file_name FS.Malformed) ->
             _get_lockfile_version fs stat_error self name = Ok VNone)
      /\ (forall p file_name d scripts,
             chosen_lockfile fs self = Some p ->
             FS.lookup p fs = Some (FS.File file_name (FS.Json (VDict d))) ->
             get_default "scripts" (VDict []) d = VDict scripts ->
             dict_get name scripts = None ->
             _get_lockfile_version fs stat_error self name = Ok VNone))
  /\ (forall category v,
         literal_name name = true ->
         directory_or_none category = true ->
         accessible stat_error ->
         _get_lockfile_version fs stat_error self name = Ok v ->
         exists r, resolve_script fs stat_error self name category = Ok r
                   /\ lockfile_version r = v).
Proof.
  split.
  { intros e. unfold _get_lockfile_version, exists_.
    fold (project_lock self). fold (user_lock self).
    destruct (stat_error (project_lock self)) as [e1|].
    - split.
      + intros [= ->]. now left.
      + intros [[= ->]|(H & _)]; [reflexivity|discriminate].
    - destruct (FS.exists_ fs (project_lock self)).
      + split.
        * intros H. exfalso. revert H.
          repeat match goal with
                 | |- context [match ?x with Ok _ => _ | Raise _ => _ end] =>
                     destruct x
                 end; discriminate.
        * intros [H|(_ & H & _)]; discriminate.
      + destruct (stat_error (user_lock self)) as [e2|].
        * split.
          -- intros [= ->]. right. now repeat split.
          -- intros [H|(_ & _ & [= ->])]; [discriminate|reflexivity].
        * split.
          -- intros H. exfalso. revert H.
             destruct (FS.exists_ fs (user_lock self)); [|discriminate].
             repeat match goal with
                    | |- context [match ?x with Ok _ => _ | Raise _ => _ end] =>
                        destruct x
                    end; discriminate.
          -- intros [H|(_ & _ & H)]; discriminate. }
  split.
  { intros Htest. split.
    { destruct Htest as [Hp Hu].
      unfold _get_lockfile_version, exists_.
      fold (project_lock self). fold (user_lock self). rewrite Hp, Hu.
      repeat match goal with
             | |- context [match FS.exists_ fs ?q with _ => _ end] =>
                 destruct (FS.exists_ fs q)
             | |- context [match ?x with Ok _ => _ | Raise _ => _ end] =>
                 destruct x
             end; eexists; reflexivity. }
    split.
    { destruct Htest as [Hp Hu].
      unfold chosen_lockfile, _get_lockfile_version, exists_.
      fold (project_lock self). fold (user_lock self). rewrite Hp, Hu.
      destruct (FS.exists_ fs (project_lock self)); [discriminate|].
      destruct (FS.exists_ fs (user_lock self)); [discriminate|].
      reflexivity. }
    split.
    { intros p file_name Hp Hl. rewrite (lockfile_read _ _ _ _ _ Htest Hp).
      unfold FS.load_json. destruct Hl as [-> | ->]; reflexivity. }
    intros p file_name d scripts Hp Hl Hs Hn.
    rewrite (lockfile_read _ _ _ _ _ Htest Hp).
    unfold FS.load_json. rewrite Hl. simpl. rewrite Hs. simpl.
    unfold get_default. rewrite Hn. reflexivity. }
  intros category v Hname Hcat Hacc Hv.
  destruct (resolve_script_total fs stat_error Hacc self name category)
    as (r & lv & Hr & Hlv & Hrv).
  exists r. split; [exact Hr|]. rewrite Hrv. congruence.
Qed.

Lemma lockfile_version_witness :
  chosen_lockfile demo_fs demo_resolver
  = Some ["work"; ".ai"; "scripts.lock.json"]
  /\ _get_lockfile_version demo_fs no_stat_error demo_resolver "scrape"
     = Ok VNone
  /\ exists r,
       resolve_script demo_fs no_stat_error demo_resolver "scrape" None = Ok r
       /\ lockfile_version r = VNone.
Proof.
  destruct (lockfile_version_raises_only_from_its_tests demo_fs no_stat_error
              demo_resolver "scrape")
    as (_ & Hreturns & Hresolve).
  destruct (Hreturns (conj eq_refl eq_refl)) as (_ & _ & Hbad & _).
  assert (Hnone : _get_lockfile_version demo_fs no_stat_error demo_resolver
                    "scrape" = Ok VNone).
  { apply (Hbad ["work"; ".ai"; "scripts.lock.json"] "scripts.lock.json");
      [reflexivity|right; reflexivity]. }
  split; [reflexivity|]. split; [exact Hnone|].
  exact (Hresolve None VNone eq_refl eq_refl no_stat_error_accessible Hnone).
Defined.

(** ** Restoring the diagnostic stream *)

(** The handler object is attached to a named logger or to the root
    logger. *)
Definition attached (st : proc) (h : nat) : Prop :=
  In h (root_handlers st)
  \/ exists name hs, In (name, hs) (loggerDict st) /\ In h hs.

(** What the rewiring loops keep true: a handler that pointed at the
    original stream when the call began either still does, or is
    remembered for restoration. *)
Definition remembered (st0 st : proc) (original : nat)
    (updated : list (nat * nat)) : Prop :=
  forall h, handlers st0 !! h = Some (StreamHandler original) ->
            handlers st !! h = Some (StreamHandler original)
            \/ In (h, original) updated.

Definition same_frame (st st' : proc) : Prop :=
  sys_stderr st' = sys_stderr st /\ loggerDict st' = loggerDict st
  /\ root_handlers st' = root_handlers st /\ next_obj st' = next_obj st
  /\ trace st' = trace st.

Lemma same_frame_refl (st : proc) : same_frame st st.
Proof. repeat split. Qed.

Lemma same_frame_trans (a b c : proc) :
  same_frame a b -> same_frame b c -> same_frame a c.
Proof.
  unfold same_frame. intros (? & ? & ? & ? & ?) (? & ? & ? & ? & ?).
  repeat split; congruence.
Qed.

Definition with_stream (st : proc) (h s : nat) : proc :=
  Proc (sys_stderr st) (<[h := StreamHandler s]> (handlers st))
       (loggerDict st) (root_handlers st) (next_obj st) (trace st).

Lemma rewire_cons (h : nat) (hs : list nat) (original dual : nat)
    (updated : list (nat * nat)) (st : proc) :
  rewire (h :: hs) original dual updated st
  = match handlers st !! h with
    | Some (StreamHandler stream) =>
        if Nat.eqb stream original || Nat.eqb stream (sys_stderr st) then
          rewire hs original dual (updated ++ [(h, original)])
                 (with_stream st h dual)
        else rewire hs original dual updated st
    | _ => rewire hs original dual updated st
    end.
Proof.
  cbn [rewire]. unfold bind, read. cbn iota beta.
  destruct (handlers st !! h) as [[stream|]|]; try reflexivity.
  destruct (Nat.eqb stream original || Nat.eqb stream (sys_stderr st));
    reflexivity.
Qed.

Lemma restore_cons (h o : nat) (updated : list (nat * nat)) (st : proc) :
  restore ((h, o) :: updated) st = restore updated (with_stream st h o).
Proof. reflexivity. Qed.

Lemma rewire_spec (st0 : proc) (original dual : nat) (hs : list nat) :
  forall (updated : list (nat * nat)) (st : proc),
    remembered st0 st original updated ->
    Forall (fun x => snd x = original) updated ->
    exists updated',
      snd (rewire hs original dual updated st) = Ok updated'
      /\ same_frame st (fst (rewire hs original dual updated st))
      /\ remembered st0 (fst (rewire hs original dual updated st))
                    original updated'
      /\ Forall (fun x => snd x = original) updated'
      /\ (forall x, In x updated -> In x updated')
      /\ (forall h, In h hs ->
                    handlers st0 !! h = Some (StreamHandler original) ->
                    In (h, original) updated').
Proof.
  induction hs as [|h hs IH]; intros updated st Hrem Hall.
  - exists updated. simpl. repeat split; auto. intros h [].
  - rewrite rewire_cons.
    assert (Hskip :
      (handlers st !! h = Some (StreamHandler original) -> False) ->
      exists updated',
        snd (rewire hs original dual updated st) = Ok updated'
        /\ same_frame st (fst (rewire hs original dual updated st))
        /\ remembered st0 (fst (rewire hs original dual updated st))
                      original updated'
        /\ Forall (fun x => snd x = original) updated'
        /\ (forall x, In x updated -> In x updated')
        /\ (forall h', In h' (h :: hs) ->
              handlers st0 !! h' = Some (StreamHandler original) ->
              In (h', original) updated')).
    { intros Hnot.
      destruct (IH updated st Hrem Hall)
        as (u & Hr & Hf & Hrem' & Hall' & Hsub & Hin).
      exists u. repeat split; try assumption; try apply Hf.
      intros h' [<-|Hh'] Hh0; [|now apply Hin].
      destruct (Hrem h Hh0) as [Hcur|Hup]; [now destruct Hnot|now apply Hsub]. }
    destruct (handlers st !! h) as [[stream|]|] eqn:Hh;
      [|apply Hskip; discriminate|apply Hskip; discriminate].
    destruct (Nat.eqb stream original || Nat.eqb stream (sys_stderr st))
      eqn:Hcond.
    + assert (Hrem1 : remembered st0 (with_stream st h dual) original
                                 (updated ++ [(h, original)])).
      { intros h' Hh0. destruct (Nat.eq_dec h' h) as [->|Hne].
        - right. apply in_or_app. right. now left.
        - destruct (Hrem h' Hh0) as [Hcur|Hup].
          + left. unfold with_stream. cbn [handlers].
            rewrite lookup_insert_ne by congruence. exact Hcur.
          + right. apply in_or_app. now left. }
      assert (Hall1 : Forall (fun x => snd x = original)
                             (updated ++ [(h, original)])).
      { apply Forall_app. split; [assumption|]. now repeat constructor. }
      destruct (IH _ _ Hrem1 Hall1)
        as (u & Hr & Hf & Hrem' & Hall' & Hsub & Hin).
      exists u. repeat split; try assumption; try apply Hf.
      * intros x Hx. apply Hsub. apply in_or_app. now left.
      * intros h' [<-|Hh'] Hh0; [|now apply Hin].
        apply Hsub. apply in_or_app. right. now left.
    + apply Hskip. intros [= ->].
      rewrite Nat.eqb_refl in Hcond. discriminate.
Qed.

Lemma rewire_loggers_spec (st0 : proc) (original dual : nat)
    (ls : list (string * list nat)) :
  forall (updated : list (nat * nat)) (st : proc),
    remembered st0 st original updated ->
    Forall (fun x => snd x = original) updated ->
    exists updated',
      snd (rewire_loggers ls original dual updated st) = Ok updated'
      /\ same_frame st (fst (rewire_loggers ls original dual updated st))
      /\ remembered st0 (fst (rewire_loggers ls original dual updated st))
                    original updated'
      /\ Forall (fun x => snd x = original) updated'
      /\ (forall x, In x updated -> In x updated')
      /\ (forall name hs h, In (name, hs) ls -> In h hs ->
                    handlers st0 !! h = Some (StreamHandler original) ->
                    In (h, original) updated').
Proof.
  induction ls as [|[name hs] ls IH]; intros updated st Hrem Hall.
  - exists updated. simpl.
    split; [reflexivity|]. split; [apply same_frame_refl|].
    split; [assumption|]. split; [assumption|]. split; [auto|].
    intros name hs h Hin. destruct Hin.
  - cbn [rewire_loggers]. unfold bind at 1 2 3.
    destruct (rewire_spec st0 original dual hs updated st Hrem Hall)
      as (u1 & Hr1 & Hf1 & Hrem1 & Hall1 & Hsub1 & Hin1).
    destruct (rewire hs original dual updated st) as [st1 r1].
    cbn [fst snd] in *. subst r1.
    destruct (IH u1 st1 Hrem1 Hall1)
      as (u & Hr & Hf & Hrem' & Hall' & Hsub & Hin).
    exists u.
    split; [assumption|].
    split; [exact (same_frame_trans _ _ _ Hf1 Hf)|].
    split; [assumption|]. split; [assumption|].
    split; [intros x Hx; auto|].
    intros name' hs' h [Heq|Hl] Hh Hh0.
    + injection Heq as <- <-. apply Hsub. now apply Hin1.
    + eapply Hin; eassumption.
Qed.

Lemma restore_spec (original : nat) (updated : list (nat * nat)) :
  Forall (fun x => snd x = original) updated ->
  forall st : proc,
    snd (restore updated st) = Ok tt
    /\ same_frame st (fst (restore updated st))
    /\ forall h,
         handlers st !! h = Some (StreamHandler original)
         \/ In (h, original) updated ->
         handlers (fst (restore updated st)) !! h
         = Some (StreamHandler original).
Proof.
  induction 1 as [|[h o] updated Ho _ IH]; intros st.
  - simpl. repeat split. intros h [Hh|[]]. exact Hh.
  - rewrite restore_cons. simpl in Ho. subst o.
    destruct (IH (with_stream st h original)) as (Hr & Hf & Hh).
    split; [exact Hr|]. split; [apply Hf|].
    intros h' Hh'. apply Hh.
    destruct (Nat.eq_dec h' h) as [->|Hne].
    + left. unfold with_stream. cbn [handlers]. apply lookup_insert_eq.
    + destruct Hh' as [Hcur|[[= -> ]|Hin]]; [|congruence|now right].
      left. unfold with_stream. cbn [handlers].
      rewrite lookup_insert_ne by congruence. exact Hcur.
Qed.

(** C8: when log streaming is enabled, whatever the script function does to
    the interpreter state and whether it returns or raises, after
    [_run_function_script] [sys.stderr] is the stream it was before the
    call, and every stream handler attached to a named logger or to the
    root logger that pointed at that stream - the handlers the call rewires
    to the dual writer - points at it again. *)
Theorem stderr_and_handlers_restored (ensure_runs_dir flush_original : result unit)
    (func : script_function) (script_params : dict value)
    (stream_logs : value) (st : proc) :
  truthy stream_logs = true ->
  sys_stderr (fst (_run_function_script ensure_runs_dir flush_original func
                     script_params stream_logs st))
  = sys_stderr st
  /\ forall h,
       attached st h ->
       handlers st !! h = Some (StreamHandler (sys_stderr st)) ->
       handlers (fst (_run_function_script ensure_runs_dir flush_original func
                        script_params stream_logs st)) !! h
       = Some (StreamHandler (sys_stderr st)).
Proof.
  intros Hstream.
  remember (fst (_run_function_script ensure_runs_dir flush_original func
                   script_params stream_logs st)) as final eqn:Hfinal.
  unfold _run_function_script in Hfinal. rewrite Hstream in Hfinal.
  cbn [negb] in Hfinal.
  unfold bind, read, new_object, set_stderr, lift in Hfinal.
  destruct ensure_runs_dir as [[]|e];
    [|subst final; split; [reflexivity|auto]].
  cbn [sys_stderr handlers loggerDict root_handlers next_obj trace] in Hfinal.
  set (original := sys_stderr st) in *.
  match type of Hfinal with
  | context [rewire_loggers ?ls original ?d ?u ?s] =>
      assert (Hrem1 : remembered st s original u) by (intros h Hh; now left);
      destruct (rewire_loggers_spec st original d ls u s Hrem1
                  (List.Forall_nil _))
        as (named & Hr2 & Hf2 & Hrem2 & Hall2 & _ & Hin2);
      destruct (rewire_loggers ls original d u s) as [st2 r2]
  end.
  cbn [fst snd] in *. subst r2.
  match type of Hfinal with
  | context [rewire ?hs original ?d named st2] =>
      destruct (rewire_spec st original d hs named st2 Hrem2 Hall2)
        as (updated & Hr3 & Hf3 & Hrem3 & Hall3 & Hsub3 & Hin3);
      destruct (rewire hs original d named st2) as [st3 r3]
  end.
  cbn [fst snd] in *. subst r3.
  unfold try_finally in Hfinal.
  match type of Hfinal with
  | context [try_except_import ?b ?k st3] =>
      destruct (try_except_import b k st3) as [st4 r4]
  end.
  match type of Hfinal with
  | context [restore updated ?s] =>
      destruct (restore_spec original updated Hall3 s) as (Hr6 & Hf6 & Hh6);
      destruct (restore updated s) as [st6 r6]
  end.
  cbn [fst snd sys_stderr] in *. subst r6.
  assert (Hst6 : final = st6).
  { rewrite Hfinal. destruct flush_original as [[]|e]; reflexivity. }
  clear Hfinal. rewrite Hst6. clear Hst6 final.
  split.
  - destruct Hf6 as (-> & _). reflexivity.
  - intros h Hatt Hh. apply Hh6. right.
    destruct Hatt as [Hroot|(name & hs & Hl & Hhs)].
    + apply Hin3; [|assumption].
      destruct Hf2 as (_ & _ & Hroots & _). rewrite Hroots. exact Hroot.
    + apply Hsub3. eapply Hin2; eassumption.
Qed.

Definition demo_proc : proc :=
  Proc 1 (<[10%nat := StreamHandler 1]>
            (<[11%nat := StreamHandler 5]> (<[12%nat := OtherHandler]> ∅)))
       [("app", [10%nat; 11%nat])] [10%nat; 12%nat] 20 [].

(** A script function that replaces [sys.stderr], repoints a handler and
    then raises. *)
Definition unruly : script_function :=
  fun _ st =>
    (Proc 99 (<[10%nat := StreamHandler 77]> (handlers st)) (loggerDict st)
          (root_handlers st) (next_obj st) (trace st),
     Raise (Exn "KeyError" false true "boom")).

Lemma stderr_and_handlers_restored_witness :
  truthy (VBool true) = true
  /\ sys_stderr (fst (_run_function_script (Ok tt) (Ok tt) unruly []
                        (VBool true) demo_proc)) = 1%nat
  /\ handlers (fst (_run_function_script (Ok tt) (Ok tt) unruly []
                      (VBool true) demo_proc)) !! 10%nat
     = Some (StreamHandler 1).
Proof.
  split; [reflexivity|].
  destruct (stderr_and_handlers_restored (Ok tt) (Ok tt) unruly []
              (VBool true) demo_proc eq_refl) as [Hs Hh].
  split; [exact Hs|].
  apply Hh.
  - left. simpl. now left.
  - unfold demo_proc. cbn [handlers sys_stderr]. apply lookup_insert_eq.
Defined.

(** ** The run tool: what a call returns and what it does *)

(** Events that run script code or write a result file. *)
Definition runs_script (ev : event) : bool :=
  match ev with
  | ExecModule _ | CallFunction | ScriptSubprocess _ | WriteOutputFile _ => true
  | _ => false
  end.

(** A computation that only adds events that are not of that kind. *)
Definition quiet {A} (m : M A) : Prop :=
  forall st, exists evs,
    trace (fst (m st)) = trace st ++ evs
    /\ forallb (fun ev => negb (runs_script ev)) evs = true.

(** Every value the computation returns satisfies [P]. *)
Definition yields {A} (m : M A) (P : A -> Prop) : Prop :=
  forall st a, snd (m st) = Ok a -> P a.


Lemma quiet_raise {A} (e : exn) : quiet (@raise A e).
Proof. intros st. exists []. split; [now rewrite app_nil_r|reflexivity]. Qed.




Lemma yields_ret {A} (a : A) (P : A -> Prop) : P a -> yields (ret a) P.
Proof. intros H st a' [= <-]. exact H. Qed.

Lemma yields_raise {A} (e : exn) (P : A -> Prop) : yields (raise e) P.
Proof. intros st a H. discriminate H. Qed.

Lemma yields_lift {A} (r : result A) (P : A -> Prop) :
  (forall a, r = Ok a -> P a) -> yields (lift r) P.
Proof. intros H st a Hr. apply H. exact Hr. Qed.

Lemma yields_bind {A B} (m : M A) (k : A -> M B) (P : B -> Prop) :
  (forall a, yields (k a) P) -> yields (bind m k) P.
Proof.
  intros Hk st b. unfold bind.
  destruct (m st) as [st' [a|e]]; [apply Hk|discriminate].
Qed.

Lemma yields_bind_with {A B} (m : M A) (k : A -> M B) (Q : A -> Prop)
    (P : B -> Prop) :
  yields m Q -> (forall a, Q a -> yields (k a) P) -> yields (bind m k) P.
Proof.
  intros Hm Hk st b. unfold bind.
  destruct (m st) as [st' [a|e]] eqn:Hrun; [|discriminate].
  apply Hk. apply (Hm st). now rewrite Hrun.
Qed.

Lemma yields_try_except {A} (body : M A) (handle : exn -> M A) (P : A -> Prop) :
  yields body P -> (forall e, yields (handle e) P) ->
  yields (try_except body handle) P.
Proof.
  intros Hb Hh st a. unfold try_except.
  destruct (body st) as [st' [a'|e]] eqn:Hrun.
  - intros [= <-]. apply (Hb st). now rewrite Hrun.
  - destruct (exn_is_exception e); [apply Hh|discriminate].
Qed.

Section run_tool_properties.

Variable w : world.
Variable p : run_params.

(** The responses that end a call before the script is run because a
    check failed. *)
Inductive check_failure : value -> Prop :=
| failure_name_required : check_failure script_name_required
| failure_not_found : check_failure (script_not_found (script_name p))
| failure_not_found_locally :
    check_failure (script_not_found_locally (script_name p))
| failure_preflight validation :
    check_failure (validation_failed validation)
| failure_missing_libs libs :
    truthy (get "error" (_verify_lib_dependencies w (script_name p) libs)) = true ->
    check_failure (VDict (_verify_lib_dependencies w (script_name p) libs))
| failure_corruption e :
    check_failure (metadata_corruption (script_name p) e)
| failure_install install :
    check_failure (install_failed install).




Lemma yields_reconcile (resolved : resolution) (script : option (dict value)) :
  yields (reconcile_dependencies w p resolved script)
         (fun stop => forall response, stop = Some response ->
                                       check_failure response).
Proof.
  unfold reconcile_dependencies.
  apply yields_bind. intros deps.
  destruct (if truthy _ then _ else _) as [[|d ds]|e].
  - apply yields_ret. discriminate.
  - apply yields_bind. intros missing.
    destruct missing; [apply yields_ret; discriminate|].
    apply yields_bind. intros install.
    destruct install; try (apply yields_ret; discriminate).
    destruct (truthy _); apply yields_ret; [|discriminate].
    intros response [= <-]. constructor.
  - apply yields_ret. intros response [= <-]. constructor.
Qed.


Lemma yields_preflight (script : option (dict value)) :
  yields (preflight_and_libs w p script)
         (fun stop => forall response, stop = Some response ->
                                       check_failure response).
Proof.
  unfold preflight_and_libs. destruct script; [|apply yields_ret; discriminate].
  apply yields_bind. intros validation.
  destruct (negb _).
  { apply yields_ret. intros response [= <-]. constructor. }
  destruct (truthy _); [|apply yields_ret; discriminate].
  apply yields_bind. intros libs.
  destruct (truthy _) eqn:Herr; apply yields_ret; [|discriminate].
  intros response [= <-]. now constructor.
Qed.




End run_tool_properties.

(** ** The shape of responses *)

Lemma dict_get_set_other {A} (k k' : string) (v : A) (d : dict A) :
  String.eqb k k' = false -> dict_get k (dict_set k' v d) = dict_get k d.
Proof.
  intros Hne. induction d as [|[k0 v0] d IH]; simpl.
  - now rewrite Hne.
  - destruct (String.eqb_spec k' k0) as [->|Hk0]; simpl.
    + now rewrite Hne.
    + now rewrite IH.
Qed.

Lemma dict_get_set_same {A} (k : string) (v : A) (d : dict A) :
  dict_get k (dict_set k v d) = Some v.
Proof.
  induction d as [|[k0 v0] d IH]; simpl.
  - now rewrite String.eqb_refl.
  - destruct (String.eqb_spec k k0) as [->|Hk0]; simpl.
    + now rewrite String.eqb_refl.
    + destruct (String.eqb_spec k k0); [contradiction|exact IH].
Qed.

Lemma dict_mem_set {A} (k k' : string) (v : A) (d : dict A) :
  dict_mem k d = true -> dict_mem k (dict_set k' v d) = true.
Proof.
  unfold dict_mem. destruct (String.eqb k k') eqn:Hk.
  - apply String.eqb_eq in Hk. subst k'. now rewrite dict_get_set_same.
  - now rewrite dict_get_set_other.
Qed.

Lemma dict_mem_set_same {A} (k : string) (v : A) (d : dict A) :
  dict_mem k (dict_set k v d) = true.
Proof. unfold dict_mem. now rewrite dict_get_set_same. Qed.

Lemma dict_get_set_metadata (k k' : string) (v : value) (d : dict value) :
  String.eqb k "metadata" = false ->
  dict_get k (set_metadata k' v d) = dict_get k d.
Proof.
  intros Hne. unfold set_metadata.
  destruct (dict_get "metadata" d) as [[| | | | | |m]|]; try reflexivity.
  now apply dict_get_set_other.
Qed.

Lemma dict_mem_set_metadata (k k' : string) (v : value) (d : dict value) :
  dict_mem k d = true -> dict_mem k (set_metadata k' v d) = true.
Proof.
  intros Hm. unfold set_metadata.
  destruct (dict_get "metadata" d) as [[| | | | | |m]|]; try assumption.
  now apply dict_mem_set.
Qed.

(** A response carries the status [status] and, if that status is
    "error", an [error] field. *)
Definition well_shaped (status : value) (d : dict value) : Prop :=
  dict_get "status" d = Some status
  /\ (is_str "error" status = true -> dict_mem "error" d = true).

Lemma well_shaped_set (status : value) (k : string) (v : value) (d : dict value) :
  String.eqb "status" k = false ->
  well_shaped status d -> well_shaped status (dict_set k v d).
Proof.
  intros Hk [Hs He]. split.
  - now rewrite dict_get_set_other.
  - intros H. apply dict_mem_set. now apply He.
Qed.

Lemma well_shaped_set_metadata (status : value) (k : string) (v : value)
    (d : dict value) :
  well_shaped status d -> well_shaped status (set_metadata k v d).
Proof.
  intros [Hs He]. split.
  - now rewrite dict_get_set_metadata.
  - intros H. apply dict_mem_set_metadata. now apply He.
Qed.

Lemma read_result_error (script_result : value) :
  is_str "error" (fst (fst (read_result script_result))) = true ->
  truthy (snd (fst (read_result script_result))) = true.
Proof.
  unfold read_result.
  destruct script_result as [| | | | | |[|kv d]]; try discriminate.
  generalize (kv :: d). clear kv d. intros d.
  destruct (is_str "error" (get_default "status" (VStr "success") d)) eqn:Hc;
    cbn [fst snd].
  - intros _. unfold py_or.
    destruct (truthy (get "error" d)) eqn:H1; [exact H1|].
    destruct (truthy (get "message" d)) eqn:H2; [exact H2|reflexivity].
  - rewrite Hc. discriminate.
Qed.

Ltac shape_step :=
  first
    [ apply well_shaped_set; [reflexivity|]
    | apply well_shaped_set_metadata
    | match goal with
      | |- well_shaped _ (if ?c then _ else _) => destruct c
      | |- well_shaped _ (match ?o with Some _ => _ | None => _ end) =>
          destruct o
      end ].

Lemma build_response_shape (w : world) (script_result status error result_data
    log_result execution_id duration_sec cost_usd rows api : value)
    (output_path : option string) (response : value) :
  (is_str "error" status = true -> truthy error = true) ->
  build_response w script_result status error result_data log_result
                 execution_id duration_sec cost_usd rows api output_path
  = Ok response ->
  exists d, response = VDict d /\ well_shaped status d.
Proof.
  intros Herr. unfold build_response.
  destruct (py_round w duration_sec 3) as [duration|e]; [|discriminate].
  destruct (py_round w cost_usd 4) as [cost|e]; [|discriminate].
  set (base := [("status", status);
                ("execution_id", execution_id_for_response w log_result execution_id);
                ("result", py_or result_data (VDict []));
                ("metadata", VDict [("duration_sec", duration); ("cost_usd", cost)])]).
  assert (Hbase : well_shaped status
            (if truthy error then dict_set "error" error base else base)).
  { destruct (truthy error) eqn:Ht.
    - split; [reflexivity|]. intros _. reflexivity.
    - split; [reflexivity|]. intros H. apply Herr in H. discriminate. }
  revert Hbase.
  generalize (if truthy error then dict_set "error" error base else base).
  intros d0 Hd0. cbv zeta.
  destruct (negb (truthy result_data) && _ && _).
  - destruct (py_len _) as [n|e]; [|discriminate].
    intros [= <-]. eexists. split; [reflexivity|].
    repeat shape_step; exact Hd0.
  - intros [= <-]. eexists. split; [reflexivity|].
    repeat shape_step; exact Hd0.
Qed.

Section responses.

Variable w : world.
Variable p : run_params.

(** The responses of a call that got past the checks and was not a dry
    run. *)
Inductive run_response : value -> Prop :=
| response_without_path resolved :
    run_response (script_without_path (script_name p) resolved)
| response_undeclared e :
    run_response (undeclared_dependency w e)
| response_error e log_result execution_id :
    run_response (error_response w p e log_result execution_id)
| response_built script_result result_data log_result execution_id
    duration_sec cost_usd rows api output_path response :
    build_response w script_result
      (fst (fst (read_result script_result)))
      (snd (fst (read_result script_result)))
      result_data log_result execution_id duration_sec cost_usd rows api
      output_path = Ok response ->
    run_response response.

Definition any_response (response : value) : Prop :=
  check_failure w p response
  \/ (exists script, response = validation_passed script)
  \/ run_response response.

Lemma yields_handle (execution_id : value) (e : exn) :
  yields (handle w p execution_id e) any_response.
Proof.
  unfold handle. destruct (exn_is_import_error e).
  - apply yields_ret. right. right. constructor.
  - apply yields_bind. intros _. apply yields_bind. intros log_result.
    apply yields_bind. intros _. apply yields_bind. intros _.
    apply yields_ret. right. right. constructor.
Qed.

Lemma yields_run_script (script_path : FS.path) (script : option (dict value))
    (script_params : dict value)
    (stream_logs output_file save_output execution_id : value) :
  yields (run_script w p script_path script script_params stream_logs
                     output_file save_output execution_id)
         any_response.
Proof.
  unfold run_script.
  apply yields_bind. intros _. apply yields_bind. intros _.
  apply yields_bind. intros module. apply yields_bind. intros script_result.
  destruct (read_result script_result) as [[script_status script_error] data]
    eqn:Hread.
  apply yields_bind. intros [[[duration_sec cost_usd] rows] api].
  apply yields_bind. intros log_result.
  apply yields_bind. intros _. apply yields_bind. intros _.
  apply yields_bind. intros _. apply yields_bind. intros _.
  apply yields_bind. intros output_path.
  apply yields_bind. intros result_data.
  apply yields_lift. intros response Hbuilt.
  right. right. eapply response_built with (script_result := script_result).
  rewrite Hread. exact Hbuilt.
Qed.

Lemma yields_guarded_run (script_path : FS.path) (script : option (dict value))
    (script_params : dict value) (stream_logs output_file save_output : value) :
  yields (guarded_run w p script_path script script_params stream_logs
                      output_file save_output)
         any_response.
Proof.
  intros st response. unfold guarded_run.
  destruct ((emit (StartExecution (script_name p)) >> lift (w_start_execution w)) st)
    as [st' [execution_id|e]].
  - apply yields_try_except; [apply yields_run_script|]. apply yields_handle.
  - destruct (exn_is_exception e); [apply yields_handle|discriminate].
Qed.

Lemma yields_execute_resolved (resolved : resolution) :
  yields (execute_resolved w p resolved) any_response.
Proof.
  unfold execute_resolved.
  apply yields_bind. intros found.
  eapply yields_bind_with; [apply yields_preflight|].
  intros [response|] Hstop.
  { apply yields_ret. left. now apply Hstop. }
  eapply yields_bind_with; [apply yields_reconcile|].
  intros [response|] Hstop'.
  { apply yields_ret. left. now apply Hstop'. }
  destruct (dry_run p).
  { apply yields_ret. right. left. now eexists. }
  destruct (path resolved) as [script_path|].
  - destruct (dict_pop "_timeout" VNone (parameters p)) as [timeout params1].
    destruct (dict_pop "_stream_logs" (VBool true) params1)
      as [stream_logs params2].
    destruct (dict_pop "_output_file" VNone params2) as [output_file params3].
    destruct (dict_pop "_save_output" (VBool true) params3)
      as [save_output params4].
    apply yields_guarded_run.
  - apply yields_ret. right. right. constructor.
Qed.

Lemma yields_execute : yields (execute w p) any_response.
Proof.
  unfold execute.
  destruct (String.eqb (script_name p) "").
  { apply yields_ret. left. constructor. }
  apply yields_bind. intros resolved.
  destruct (location resolved) as [[| |]|];
    try apply yields_execute_resolved;
    [|apply yields_ret; left; constructor].
  destruct (path resolved); [apply yields_execute_resolved|].
  destruct (auto_download p); [|apply yields_ret; left; constructor].
  apply yields_bind. intros _. apply yields_bind. intros _.
  apply yields_bind. intros resolved'. apply yields_execute_resolved.
Qed.

(** The failures reported without a status: the [error] field is the
    message for a missing script name, or a dict whose code is one of the
    three below. *)
Definition error_only (d : dict value) : Prop :=
  get "error" d = VStr "script_name is required"
  \/ exists e code,
       get "error" d = VDict e /\ get "code" e = VStr code
       /\ In code ["SCRIPT_NOT_FOUND"; "SCRIPT_NOT_FOUND_LOCALLY";
                   "MISSING_DEPENDENCIES"].

Definition has_status (d : dict value) : Prop :=
  dict_mem "status" d = true
  /\ (is_str "error" (get "status" d) = true -> dict_mem "error" d = true).

Definition response_shape (response : value) : Prop :=
  exists d,
    response = VDict d
    /\ (has_status d \/ (dict_mem "status" d = false /\ error_only d)).

Lemma any_response_shape (response : value) :
  any_response response -> response_shape response.
Proof.
  intros [Hfail|[(script & ->)|Hrun]].
  - destruct Hfail as [| | |validation|libs Hlibs|e|install].
    + eexists. split; [reflexivity|]. right. split; [reflexivity|].
      left. reflexivity.
    + eexists. split; [reflexivity|]. right. split; [reflexivity|].
      right. do 2 eexists. split; [reflexivity|]. split; [reflexivity|].
      simpl. auto.
    + eexists. split; [reflexivity|]. right. split; [reflexivity|].
      right. do 2 eexists. split; [reflexivity|]. split; [reflexivity|].
      simpl. auto.
    + eexists. split; [reflexivity|]. left. split; [reflexivity|discriminate].
    + eexists. split; [reflexivity|]. right.
      unfold _verify_lib_dependencies in *.
      destruct (filter _ libs); [discriminate Hlibs|].
      split; [reflexivity|].
      right. do 2 eexists. split; [reflexivity|]. split; [reflexivity|].
      simpl. auto.
    + eexists. split; [reflexivity|]. left. split; reflexivity.
    + eexists. split; [reflexivity|]. left. split; reflexivity.
  - eexists. split; [reflexivity|]. left. split; [reflexivity|discriminate].
  - destruct Hrun as [resolved|e|e log_result execution_id
                      |script_result result_data log_result execution_id
                         duration_sec cost_usd rows api output_path response Hb].
    + eexists. split; [reflexivity|]. right. split; [reflexivity|].
      right. do 2 eexists. split; [reflexivity|]. split; [reflexivity|].
      simpl. auto.
    + eexists. split; [reflexivity|]. left. split; reflexivity.
    + eexists. split; [reflexivity|]. left. split; reflexivity.
    + apply build_response_shape in Hb as (d & -> & Hs & He);
        [|apply read_result_error].
      exists d. split; [reflexivity|]. left.
      unfold has_status, dict_mem, get, get_default. rewrite Hs.
      split; [reflexivity|exact He].
Qed.

(** C7 (amended): every response [execute] returns is one JSON object;
    it either has a top-level [status], and then an [error] field as well
    whenever that status is "error", or it has no [status] and an [error]
    field that is the message for a missing script name or a dict with
    code SCRIPT_NOT_FOUND, SCRIPT_NOT_FOUND_LOCALLY or
    MISSING_DEPENDENCIES. *)
Theorem every_response_has_status_or_error (st : proc) (response : value) :
  snd (execute w p st) = Ok response ->
  exists d,
    response = VDict d
    /\ ((dict_mem "status" d = true
         /\ (is_str "error" (get "status" d) = true ->
             dict_mem "error" d = true))
        \/ (dict_mem "status" d = false /\ error_only d)).
Proof.
  intros Hr. apply any_response_shape. exact (yields_execute st response Hr).
Qed.

End responses.

(** ** A concrete installation *)

Definition scrape_result : value :=
  VDict [("status", VStr "success");
         ("data", VDict [("x", VInt 1)]);
         ("metadata", VDict [("duration_sec", VFloat 1 (-3))])].

(** The collaborators of [demo_fs]: the registry knows [scrape], its
    library is in the project tier, [requests] is installed, and the
    script's [execute] returns [scrape_result]. *)
Definition demo_world (self : ScriptResolver) (name : string) : world :=
  {| w_py_str := fun _ => "?";
     w_round := fun _ v => v;
     w_no_module_named := fun _ => None;
     w_resolve := fun _ => resolve_script demo_fs no_stat_error self name None;
     w_download := Ok tt;
     w_get_script :=
       Ok (Some [("name", VStr "scrape");
                 ("version", VStr "1.0.0");
                 ("estimated_cost_usd", VFloat 1 (-4));
                 ("estimated_time_seconds", VInt 30);
                 ("required_libs", VList [VStr "http_session"]);
                 ("dependencies",
                  VList [VDict [("name", VStr "requests");
                                ("version", VStr ">=2.0")]])]);
     w_preflight := Ok [("pass", VBool true)];
     w_lib_in_project := fun f => String.eqb f "http_session.py";
     w_lib_in_user := fun _ => false;
     w_script_file_exists := true;
     w_file_dependencies :=
       Ok [VDict [("name", VStr "requests"); ("version", VNone)]];
     w_import := fun m =>
       if String.eqb m "requests" then Ok tt
       else Raise (Exn "ModuleNotFoundError" true true "No module named");
     w_pip := fun _ => Completed 0 "";
     w_sys_executable := "python3";
     w_start_execution := Ok (VStr "exec-1");
     w_log_execution_start := Ok tt;
     w_load_module := Ok (HasExecute (fun _ => ret scrape_result));
     w_argparse := Ok (VDict []);
     w_elapsed := (1, 0);
     w_log_execution := Ok (VDict [("execution_id", VStr "run-1")]);
     w_complete_execution := Ok tt;
     w_log_error := Ok VNone;
     w_complete_error := Ok tt;
     w_json_size := fun _ => 10;
     w_time := 1700000000;
     w_script_kiwi_home := "/home/.script-kiwi";
     w_cwd := "/work";
     w_write := fun _ => Ok tt;
     w_ensure_runs_dir := Ok tt;
     w_flush_original := Ok tt;
     w_traceback := "Traceback (most recent call last)" |}.

Definition offline_resolver : ScriptResolver :=
  {| project_root := ["work"];
     user_home := ["home"];
     script_kiwi_home := ["home"; ".script-kiwi"];
     registry_client := {| client := false; get_script := fun _ _ => Ok VNone |} |}.

Definition call (name : string) (dry : bool) : run_params :=
  {| script_name := name; parameters := []; dry_run := dry;
     auto_download := false; project_path := Some "/work" |}.


(** The same call without [dry_run] loads the module, calls [execute] and
    writes the result file. *)
Example full_run_trace :
  trace (fst (execute (demo_world demo_resolver "scrape") (call "scrape" false)
                      demo_proc))
  = [StartExecution "scrape"; LogExecutionStart "scrape";
     ExecModule "/work/.ai/scripts/scraping/scrape.py"; CallFunction;
     LogExecution (VStr "success"); CompleteExecution (VStr "success");
     WriteOutputFile "/home/.script-kiwi/outputs/scrape/1700000000_results.json"].
Proof. reflexivity. Qed.

(** C7 (as stated, refuted): a script that no tier has - [ghost], with the
    registry offline - is answered with the SCRIPT_NOT_FOUND object, which
    has an [error] field and no [status] field. *)
Lemma not_found_response_has_no_status :
  exists d,
    snd (execute (demo_world offline_resolver "ghost") (call "ghost" false)
                 demo_proc)
    = Ok (VDict d)
    /\ dict_mem "status" d = false
    /\ get "error" d
       = VDict [("code", VStr "SCRIPT_NOT_FOUND");
                ("message", VStr "Script 'ghost' not found in any location");
                ("details",
                 VDict [("script_name", VStr "ghost");
                        ("suggestion",
                         VStr "Use search({'query': '...'}) to find available scripts")])].
Proof. eexists. split; [reflexivity|]. split; reflexivity. Qed.

Lemma every_response_witness :
  exists d,
    snd (execute (demo_world demo_resolver "scrape") (call "scrape" false)
                 demo_proc) = Ok (VDict d)
    /\ dict_mem "status" d = true
    /\ get "status" d = VStr "success".
Proof.
  pose proof (every_response_has_status_or_error
                (demo_world demo_resolver "scrape") (call "scrape" false)
                demo_proc) as Hshape.
  set (r := snd (execute (demo_world demo_resolver "scrape")
                         (call "scrape" false) demo_proc)) in *.
  vm_compute in r.
  destruct (Hshape _ eq_refl) as (d & Hd & Hs).
  exists d. split; [symmetry in Hd; subst r; now rewrite Hd|].
  injection Hd as <-. split; reflexivity.
Defined.

(** * Further properties of the code *)

(** ** Truncation notes *)

Lemma dict_set_not_nil {A} (k : string) (v : A) (d : dict A) :
  dict_set k v d <> [].
Proof.
  destruct d as [|[k' v'] d]; simpl; [discriminate|].
  destruct (String.eqb k k'); discriminate.
Qed.

Lemma dict_update_keeps_entries {A} (other d : dict A) :
  d <> [] -> dict_update d other <> [].
Proof.
  unfold dict_update. revert d.
  induction other as [|[k v] other IH]; intros d Hd; simpl; [exact Hd|].
  apply IH. apply dict_set_not_nil.
Qed.

Lemma dict_update_not_nil {A} (other d : dict A) :
  other <> [] -> dict_update d other <> [].
Proof.
  destruct other as [|[k v] other]; [congruence|]. intros _.
  unfold dict_update. simpl.
  apply (dict_update_keeps_entries other). apply dict_set_not_nil.
Qed.

(** How the notes of one item enter the notes gathered so far. *)
Definition gather (truncation_info info : dict value) : dict value :=
  match info with
  | [] => truncation_info
  | _ => dict_update truncation_info info
  end.

Lemma gather_nil (truncation_info info : dict value) :
  gather truncation_info info = [] -> truncation_info = [] /\ info = [].
Proof.
  unfold gather. destruct info as [|kv info].
  - intros ->. now split.
  - intros H. exfalso. revert H. now apply dict_update_not_nil.
Qed.

(** The two loops of [truncate_large_response], named. *)
Definition items_loop (mi ms : Z) (path : string)
    : list (string * value) -> dict value -> dict value -> value * dict value :=
  fix items (kvs : list (string * value))
            (truncated truncation_info : dict value) {struct kvs}
      : value * dict value :=
    match kvs with
    | [] => (VDict truncated, truncation_info)
    | (key, v) :: rest =>
        let new_path :=
          if String.eqb path "" then key else path +:+ "." +:+ key in
        let '(truncated_val, info) :=
          truncate_large_response v mi ms new_path in
        items rest (dict_set key truncated_val truncated)
              (match info with
               | [] => truncation_info
               | _ => dict_update truncation_info info
               end)
    end.

Definition each_loop (mi ms : Z) (path : string)
    : list value -> Z -> list value -> dict value -> value * dict value :=
  fix each (xs : list value) (i : Z) (truncated : list value)
           (truncation_info : dict value) {struct xs} : value * dict value :=
    match xs with
    | [] => (VList truncated, truncation_info)
    | item :: rest =>
        let new_path :=
          if String.eqb path "" then "[" +:+ str_of_Z i +:+ "]"
          else path +:+ "[" +:+ str_of_Z i +:+ "]" in
        let '(truncated_item, info) :=
          truncate_large_response item mi ms new_path in
        each rest (i + 1) (truncated ++ [truncated_item])
             (match info with
              | [] => truncation_info
              | _ => dict_update truncation_info info
              end)
    end.

Lemma truncate_dict_eq (mi ms : Z) (path : string) (d : dict value) :
  truncate_large_response (VDict d) mi ms path = items_loop mi ms path d [] [].
Proof. reflexivity. Qed.

Lemma truncate_list_eq (mi ms : Z) (path : string) (l : list value) :
  truncate_large_response (VList l) mi ms path
  = if len l >? mi then
      (VList (slice_to mi l), [(str_or path "root", array_note (len l) mi)])
    else each_loop mi ms path l 0 [] [].
Proof. reflexivity. Qed.

(** The loops as functions of the per-item results. *)
Lemma truncate_items_loop (mi ms : Z) (path : string)
    (P : value -> value * dict value -> Prop) :
  forall kvs truncated info,
    Forall (fun kv => forall path', P (snd kv)
                        (truncate_large_response (snd kv) mi ms path')) kvs ->
    exists results,
      Forall2 (fun kv r => P (snd kv) r) kvs results
      /\ items_loop mi ms path kvs truncated info
         = (VDict (fold_left (fun acc kr => dict_set (fst (fst kr)) (fst (snd kr)) acc)
                             (combine kvs results) truncated),
            fold_left (fun acc r => gather acc (snd r)) results info).
Proof.
  induction kvs as [|[k x] kvs IH]; intros truncated info Hall.
  - exists []. split; [constructor|reflexivity].
  - inversion Hall as [|? ? Hx Hrest]; subst.
    cbn -[truncate_large_response].
    specialize (Hx (if String.eqb path "" then k else path +:+ "." +:+ k)).
    simpl in Hx.
    destruct (truncate_large_response x mi ms _) as [tv inf] eqn:Hrun.
    destruct (IH (dict_set k tv truncated) (gather info inf) Hrest)
      as (results & Hres & Heq).
    exists ((tv, inf) :: results). split; [constructor; assumption|].
    exact Heq.
Qed.

Lemma truncate_each_loop (mi ms : Z) (path : string)
    (P : value -> value * dict value -> Prop) :
  forall xs i truncated info,
    Forall (fun x => forall path', P x (truncate_large_response x mi ms path'))
           xs ->
    exists results,
      Forall2 P xs results
      /\ each_loop mi ms path xs i truncated info
         = (VList (truncated ++ map fst results),
            fold_left (fun acc r => gather acc (snd r)) results info).
Proof.
  induction xs as [|x xs IH]; intros i truncated info Hall.
  - exists []. split; [constructor|]. simpl. now rewrite app_nil_r.
  - inversion Hall as [|? ? Hx Hrest]; subst.
    cbn -[truncate_large_response].
    specialize (Hx (if String.eqb path "" then "[" +:+ str_of_Z i +:+ "]"
                    else path +:+ "[" +:+ str_of_Z i +:+ "]")).
    destruct (truncate_large_response x mi ms _) as [tv inf] eqn:Hrun.
    destruct (IH (i + 1) (truncated ++ [tv]) (gather info inf) Hrest)
      as (results & Hres & Heq).
    exists ((tv, inf) :: results). split; [constructor; assumption|].
    refine (eq_trans Heq _). simpl. now rewrite <- app_assoc.
Qed.

Lemma gathered_nil (results : list (value * dict value)) (info : dict value) :
  fold_left (fun acc r => gather acc (snd r)) results info = [] ->
  info = [] /\ Forall (fun r => snd r = []) results.
Proof.
  revert info. induction results as [|r results IH]; intros info H;
    cbn [fold_left] in H.
  - split; [assumption|constructor].
  - apply IH in H as [Hg Hall]. apply gather_nil in Hg as [Hi Hr].
    split; [assumption|]. now constructor.
Qed.

Lemma gathered_all_nil (results : list (value * dict value)) :
  Forall (fun r => snd r = []) results ->
  fold_left (fun acc r => gather acc (snd r)) results [] = [].
Proof.
  induction 1 as [|r results Hr _ IH]; cbn [fold_left]; [reflexivity|].
  destruct r as [a b]. simpl in Hr. subst b. exact IH.
Qed.

Lemma set_each_fresh (kvs : dict value) :
  forall (results : list (value * dict value)) truncated,
    NoDup (keys truncated ++ keys kvs) ->
    Forall2 (fun kv r => fst r = snd kv) kvs results ->
    fold_left (fun acc kr => dict_set (fst (fst kr)) (fst (snd kr)) acc)
              (combine kvs results) truncated
    = truncated ++ kvs.
Proof.
  induction kvs as [|[k x] kvs IH]; intros results truncated Hn H2.
  - inversion H2; subst. simpl. now rewrite app_nil_r.
  - inversion H2 as [|? r ? results' Hr Hrest]; subst. simpl in *.
    rewrite Hr. rewrite dict_set_fresh.
    2:{ apply NoDup_app in Hn as (_ & Hn & _). intros Hin.
        apply (Hn k Hin). apply elem_of_cons. now left. }
    rewrite IH; [now rewrite <- app_assoc| |assumption].
    rewrite keys_app. simpl. rewrite <- app_assoc. exact Hn.
Qed.

Lemma map_fst_same (xs : list value) (results : list (value * dict value)) :
  Forall2 (fun x r => fst r = x) xs results -> map fst results = xs.
Proof.
  induction 1 as [|x r xs results Hr _ IH]; simpl; [reflexivity|].
  now rewrite Hr, IH.
Qed.

Lemma Forall2_with {X Y} (R R' : X -> Y -> Prop) (P : X -> Prop)
    (xs : list X) (ys : list Y) :
  Forall2 R xs ys -> Forall P xs ->
  (forall x y, P x -> R x y -> R' x y) -> Forall2 R' xs ys.
Proof.
  intros H2 HP Himp. induction H2 as [|x y xs ys Hr _ IH]; [constructor|].
  inversion HP; subst. constructor; auto.
Qed.

Lemma Forall_and_forallb {X} (P : X -> Prop) (f : X -> bool) (xs : list X) :
  Forall P xs -> forallb f xs = true ->
  Forall (fun x => P x /\ f x = true) xs.
Proof.
  induction 1 as [|x xs Hx _ IH]; simpl; intros Hf; [constructor|].
  apply andb_true_iff in Hf as [Hfx Hfs]. constructor; auto.
Qed.

Lemma all_silent (X : Type) (f : X -> value) (xs : list X)
    (results : list (value * dict value)) :
  Forall2 (fun x r => r = (f x, [])) xs results ->
  Forall (fun r => snd r = []) results.
Proof.
  induction 1 as [|x r xs rs Hr _ IH]; constructor; [now subst r|assumption].
Qed.

(** X1: data in which every list and string is within the caps comes back
    as it is, with no truncation note. *)
Theorem truncate_within_caps_is_silent
    (max_items max_string : Z) (data : value) (path : string) :
  wf_value data ->
  within_caps max_items max_string data = true ->
  truncate_large_response data max_items max_string path = (data, []).
Proof.
  revert path.
  induction data as [| | | | |l IH|d IH] using value_rect';
    intros path Hwf Hc; try reflexivity.
  - simpl in *. destruct (Z.gtb_spec (str_len s) max_string); [|reflexivity].
    apply Z.leb_le in Hc. lia.
  - cbn [within_caps] in Hc. apply andb_true_iff in Hc as [Hlen Hall].
    apply Z.leb_le in Hlen.
    inversion Hwf as [| | | | |l' Hl|]; subst.
    rewrite truncate_list_eq.
    destruct (Z.gtb_spec (len l) max_items) as [|_]; [lia|].
    destruct (truncate_each_loop max_items max_string path
                (fun x r => wf_value x ->
                            within_caps max_items max_string x = true ->
                            r = (x, [])) l 0 [] [])
      as (results & Hres & Heq).
    { eapply Forall_impl; [exact IH|]. intros x Hx path'. now apply Hx. }
    rewrite Heq. clear Heq.
    assert (Hsame : Forall2 (fun x r => r = (x, [])) l results).
    { eapply Forall2_with;
        [exact Hres|exact (Forall_and_forallb _ _ _ Hl Hall)|].
      intros x r [Hx1 Hx2] Hr. now apply Hr. }
    f_equal.
    + f_equal. simpl. apply map_fst_same.
      eapply Forall2_impl; [exact Hsame|]. now intros x r ->.
    + apply gathered_all_nil. exact (all_silent _ (fun x => x) _ _ Hsame).
  - cbn [within_caps] in Hc.
    inversion Hwf as [| | | | | |d' Hnd Hd]; subst.
    rewrite truncate_dict_eq.
    destruct (truncate_items_loop max_items max_string path
                (fun x r => wf_value x ->
                            within_caps max_items max_string x = true ->
                            r = (x, [])) d [] [])
      as (results & Hres & Heq).
    { eapply Forall_impl; [exact IH|]. intros x Hx path'. now apply Hx. }
    rewrite Heq. clear Heq.
    assert (Hsame : Forall2 (fun kv r => r = (snd kv, [])) d results).
    { eapply Forall2_with;
        [exact Hres|exact (Forall_and_forallb _ _ _ Hd Hc)|].
      intros x r [Hx1 Hx2] Hr. now apply Hr. }
    f_equal.
    + f_equal. rewrite set_each_fresh; [reflexivity|exact Hnd|].
      eapply Forall2_impl; [exact Hsame|]. now intros x r ->.
    + apply gathered_all_nil. exact (all_silent _ snd _ _ Hsame).
Qed.

Lemma truncate_within_caps_witness :
  wf_value sample_data /\ within_caps 4 10 sample_data = true
  /\ truncate_large_response sample_data 4 10 "" = (sample_data, []).
Proof.
  split; [exact wf_sample_data|]. split; [reflexivity|].
  apply truncate_within_caps_is_silent; [exact wf_sample_data|reflexivity].
Defined.

(** X2: whenever the data returned differs from the data given, the
    truncation notes are not empty: nothing is cut silently. *)
Theorem truncate_reports_every_change
    (max_items max_string : Z) (data : value) (path : string) :
  wf_value data ->
  snd (truncate_large_response data max_items max_string path) = [] ->
  fst (truncate_large_response data max_items max_string path) = data.
Proof.
  revert path.
  induction data as [| | | | |l IH|d IH] using value_rect';
    intros path Hwf Hs; try reflexivity.
  - simpl in *. destruct (str_len s >? max_string); [discriminate Hs|reflexivity].
  - inversion Hwf as [| | | | |l' Hl|]; subst.
    rewrite truncate_list_eq in *.
    destruct (len l >? max_items); [discriminate Hs|].
    destruct (truncate_each_loop max_items max_string path
                (fun x r => wf_value x -> snd r = [] -> fst r = x) l 0 [] [])
      as (results & Hres & Heq).
    { eapply Forall_impl; [exact IH|]. intros x Hx path'. now apply Hx. }
    rewrite Heq in Hs |- *. clear Heq. cbn [fst snd] in *.
    apply gathered_nil in Hs as [_ Hnil].
    f_equal. apply map_fst_same.
    clear -Hres Hl Hnil. revert Hl Hnil.
    induction Hres as [|x r xs rs Hr _ IHr]; intros Hl Hnil; [constructor|].
    inversion Hl; subst. inversion Hnil; subst. constructor; auto.
  - inversion Hwf as [| | | | | |d' Hnd Hd]; subst.
    rewrite truncate_dict_eq in *.
    destruct (truncate_items_loop max_items max_string path
                (fun x r => wf_value x -> snd r = [] -> fst r = x) d [] [])
      as (results & Hres & Heq).
    { eapply Forall_impl; [exact IH|]. intros x Hx path'. now apply Hx. }
    rewrite Heq in Hs |- *. clear Heq. cbn [fst snd] in *.
    apply gathered_nil in Hs as [_ Hnil].
    f_equal. rewrite set_each_fresh; [reflexivity|exact Hnd|].
    clear -Hres Hd Hnil. revert Hd Hnil.
    induction Hres as [|x r xs rs Hr _ IHr]; intros Hd Hnil; [constructor|].
    inversion Hd; subst. inversion Hnil; subst. constructor; auto.
Qed.

Lemma truncate_reports_witness :
  wf_value sample_data
  /\ snd (truncate_large_response sample_data 4 10 "result") = []
  /\ fst (truncate_large_response sample_data 4 10 "result") = sample_data.
Proof.
  split; [exact wf_sample_data|]. split; [reflexivity|].
  apply truncate_reports_every_change; [exact wf_sample_data|reflexivity].
Defined.

Lemma keys_set_each (kvs : dict value) :
  forall (results : list (value * dict value)) (truncated : dict value),
    NoDup (keys truncated ++ keys kvs) ->
    length results = length kvs ->
    keys (fold_left (fun acc kr => dict_set (fst (fst kr)) (fst (snd kr)) acc)
                    (combine kvs results) truncated)
    = keys truncated ++ keys kvs.
Proof.
  induction kvs as [|[k x] kvs IH]; intros results truncated Hn Hlen.
  - simpl. now rewrite app_nil_r.
  - destruct results as [|r results]; [discriminate Hlen|].
    simpl in *. rewrite dict_set_fresh.
    2:{ apply NoDup_app in Hn as (_ & Hn & _). intros Hin.
        apply (Hn k Hin). apply elem_of_cons. now left. }
    rewrite IH; [|rewrite keys_app; simpl; rewrite <- app_assoc; exact Hn|lia].
    rewrite keys_app. simpl. now rewrite <- app_assoc.
Qed.

Lemma Forall2_same_length {X Y} (R : X -> Y -> Prop) (xs : list X) (ys : list Y) :
  Forall2 R xs ys -> length ys = length xs.
Proof. induction 1; simpl; congruence. Qed.

(** X3: a dict comes back as a dict with the same keys in the same order,
    and a list as a list of min(length, item cap) items. *)
Theorem truncate_keeps_shape (max_items max_string : Z) (path : string) :
  (forall d,
      wf_dict d ->
      exists d',
        fst (truncate_large_response (VDict d) max_items max_string path)
        = VDict d'
        /\ keys d' = keys d)
  /\ (forall l,
         0 <= max_items ->
         exists l',
           fst (truncate_large_response (VList l) max_items max_string path)
           = VList l'
           /\ len l' = Z.min (len l) max_items).
Proof.
  split.
  - intros d Hnd. rewrite truncate_dict_eq.
    destruct (truncate_items_loop max_items max_string path
                (fun _ _ => True) d [] [])
      as (results & Hres & Heq).
    { apply Forall_forall. auto. }
    rewrite Heq. clear Heq. cbn [fst].
    eexists. split; [reflexivity|].
    rewrite keys_set_each; [reflexivity|exact Hnd|].
    eapply Forall2_same_length. exact Hres.
  - intros l Hcap. rewrite truncate_list_eq.
    destruct (Z.gtb_spec (len l) max_items) as [Hgt|Hle].
    + eexists. split; [reflexivity|].
      unfold slice_to. destruct (Z.ltb_spec max_items 0); [lia|].
      unfold len in *. rewrite length_firstn. lia.
    + destruct (truncate_each_loop max_items max_string path
                  (fun _ _ => True) l 0 [] [])
        as (results & Hres & Heq).
      { apply Forall_forall. auto. }
      rewrite Heq. clear Heq. cbn [fst].
      eexists. split; [reflexivity|].
      cbn [app]. unfold len in *. rewrite length_map.
      rewrite (Forall2_same_length _ _ _ Hres). lia.
Qed.

Lemma truncate_keeps_shape_witness :
  wf_dict [("a", VStr "abcdef"); ("b", VList [VInt 1; VInt 2; VInt 3])]
  /\ exists d',
       fst (truncate_large_response
              (VDict [("a", VStr "abcdef"); ("b", VList [VInt 1; VInt 2; VInt 3])])
              2 3 "") = VDict d'
       /\ keys d' = ["a"; "b"].
Proof.
  assert (Hwf : wf_dict [("a", VStr "abcdef");
                         ("b", VList [VInt 1; VInt 2; VInt 3])]).
  { unfold wf_dict. apply (bool_decide_unpack _). vm_compute. exact I. }
  split; [exact Hwf|].
  destruct (truncate_keeps_shape 2 3 "") as [Hdict _].
  exact (Hdict _ Hwf).
Defined.

(** ** Validated dependencies *)

Section validated.

Variable py_str : value -> string.

Lemma acceptable_dep_value (n : string) (v : option string) :
  acceptable (dep_value (Dep n v))
  = negb (String.eqb n "") && negb (startswith "{" n || startswith "[" n).
Proof. destruct v; cbn; now rewrite andb_true_r. Qed.

Lemma normalize_dep_value (d : dependency) : normalize (dep_value d) = d.
Proof. destruct d as [n [v|]]; reflexivity. Qed.

Lemma validate_entry_good (i : Z) (e : value) (d : dependency) :
  validate_entry py_str i e = Ok d ->
  acceptable (dep_value d) = true /\ normalize (dep_value d) = d.
Proof.
  destruct e as [| | | | | |entries]; try discriminate. simpl.
  destruct (get "name" entries) as [| | | |n| |] eqn:Hn; try discriminate.
  destruct n as [|c n]; [discriminate|]. cbn [truthy String.eqb negb].
  destruct (startswith "{" (String c n) || startswith "[" (String c n)) eqn:Hj;
    [discriminate|].
  destruct (get "version" entries) as [| | | |v| |]; try discriminate.
  all: intros Hd; injection Hd as <-.
  all: split; [|apply normalize_dep_value].
  all: change (acceptable (dep_value (Dep (String c n) None)) = true)
       || change (acceptable (dep_value (Dep (String c n) (Some v))) = true).
  all: rewrite acceptable_dep_value, Hj; reflexivity.
Qed.

Lemma validate_entries_good (deps : list value) :
  forall i validated ds,
    validate_entries py_str i deps validated = Ok ds ->
    exists ds',
      ds = validated ++ ds'
      /\ length ds' = length deps
      /\ Forall (fun d => acceptable (dep_value d) = true
                          /\ normalize (dep_value d) = d) ds'.
Proof.
  induction deps as [|e deps IH]; intros i validated ds; simpl.
  - intros [= <-]. exists []. split; [now rewrite app_nil_r|]. split; constructor.
  - destruct (validate_entry py_str i e) as [d|ex] eqn:He; [|discriminate].
    intros Hrest. apply IH in Hrest as (ds' & -> & Hlen & Hall).
    exists (d :: ds'). split; [now rewrite <- app_assoc|].
    split; [simpl; congruence|].
    constructor; [|assumption]. eapply validate_entry_good. exact He.
Qed.

(** X4: what [_validate_dependencies] returns passes validation again and
    comes back unchanged: the normalized list has as many entries as the
    input, and re-validating it (as [_install_pip_dependencies] does with
    the output of [_check_pip_dependencies]) changes nothing. *)
Theorem validated_dependencies_revalidate (dependencies : value)
    (validated : list dependency) :
  _validate_dependencies py_str dependencies = Ok validated ->
  _validate_dependencies py_str (VList (map dep_value validated)) = Ok validated
  /\ exists deps, dependencies = VList deps /\ length validated = length deps.
Proof.
  destruct dependencies as [| | | | |deps|]; try discriminate. simpl.
  intros Hv. apply validate_entries_good in Hv as (ds' & -> & Hlen & Hall).
  simpl. split; [|exists deps; split; [reflexivity|exact Hlen]].
  rewrite validate_entries_acceptable.
  - cbn [app]. f_equal. clear Hlen Hall.
    induction ds' as [|d ds IH]; cbn [map]; [reflexivity|].
    now rewrite normalize_dep_value, IH.
  - clear Hlen.
    induction Hall as [|d ds [Hd _] _ IH]; cbn [map forallb]; [reflexivity|].
    now rewrite Hd, IH.
Qed.

(** X5: an entry whose name is fine but whose version is neither a string
    nor [None] fails validation with a [ValueError] that names the index of
    the entry and its 'version' field, when the entries before it are
    accepted. *)
Theorem validate_rejects_bad_version (pre post : list value) (d : dict value)
    (n : string) :
  forallb acceptable pre = true ->
  get "name" d = VStr n ->
  n <> "" ->
  startswith "{" n || startswith "[" n = false ->
  (forall v, get "version" d <> VStr v) ->
  get "version" d <> VNone ->
  exists ex,
    _validate_dependencies py_str (VList (pre ++ VDict d :: post)) = Raise ex
    /\ identifies (len pre)
         " 'version' field must be a string or None, got " ex.
Proof.
  intros Hpre Hn Hne Hj Hstr Hnone.
  exists (version_error py_str (len pre) (get "version" d)). split.
  - simpl. apply validate_entries_first_failure; [assumption|].
    rewrite Z.add_0_l. simpl. rewrite Hn.
    destruct n as [|c n]; [congruence|]. cbn [truthy String.eqb negb].
    rewrite Hj.
    destruct (get "version" d) as [| | | |v| |] eqn:Hv; try reflexivity.
    + congruence.
    + exfalso. now apply (Hstr v).
  - eexists. reflexivity.
Qed.

End validated.

Lemma validated_dependencies_revalidate_witness :
  _validate_dependencies (fun _ => "?")
    (VList [VDict [("name", VStr "rich"); ("version", VStr ">=13");
                   ("extra", VInt 1)]])
  = Ok [Dep "rich" (Some ">=13")]
  /\ _validate_dependencies (fun _ => "?")
       (VList (map dep_value [Dep "rich" (Some ">=13")]))
     = Ok [Dep "rich" (Some ">=13")].
Proof.
  split; [reflexivity|].
  exact (proj1 (validated_dependencies_revalidate (fun _ => "?")
                  (VList [VDict [("name", VStr "rich"); ("version", VStr ">=13");
                                 ("extra", VInt 1)]])
                  [Dep "rich" (Some ">=13")] eq_refl)).
Defined.

Lemma validate_rejects_bad_version_witness :
  exists ex,
    _validate_dependencies (fun _ => "?")
      (VList [VDict [("name", VStr "rich")];
              VDict [("name", VStr "requests"); ("version", VInt 2)]])
    = Raise ex
    /\ identifies 1 " 'version' field must be a string or None, got " ex.
Proof.
  apply (validate_rejects_bad_version (fun _ => "?")
           [VDict [("name", VStr "rich")]] []
           [("name", VStr "requests"); ("version", VInt 2)] "requests");
    try reflexivity; try discriminate.
Defined.

(** ** Merging, checking and installing dependencies *)

(** The name a registry dependency is merged under. *)
Definition merged_name (dep : dependency) : string :=
  get_default (dep_name dep) (dep_name dep) MODULE_TO_PACKAGE.

Definition is_new (names : list value) (dep : dependency) : bool :=
  negb (String.eqb (merged_name dep) "") && negb (name_in (merged_name dep) names).

(** X6: merging never drops or reorders a dependency extracted from the
    script file: the merged list is the file's list followed by the
    registry entries whose package name (after the module-to-package
    mapping) is not among the file's names, in registry order, each with
    the registry's version. *)
Theorem merge_extends_file_dependencies (pip_dependencies : list value)
    (registry_deps : list dependency) :
  merge_dependencies pip_dependencies registry_deps
  = pip_dependencies
    ++ map (fun dep => dep_value (Dep (merged_name dep) (dep_version dep)))
           (List.filter (is_new (existing_names pip_dependencies))
                        registry_deps).
Proof.
  unfold merge_dependencies.
  generalize (existing_names pip_dependencies) as names. intros names.
  revert pip_dependencies.
  induction registry_deps as [|dep rest IH]; intros pip; cbn [append_registry_deps List.filter].
  - cbn [map]. now rewrite app_nil_r.
  - change (get_default (dep_name dep) (dep_name dep) MODULE_TO_PACKAGE)
      with (merged_name dep).
    change (negb (String.eqb (merged_name dep) "")
            && negb (name_in (merged_name dep) names))
      with (is_new names dep).
    destruct (is_new names dep).
    + rewrite IH. rewrite <- app_assoc. reflexivity.
    + apply IH.
Qed.

Section pip.

Variable w : world.

(** [__import__(m)] raises an [ImportError]. *)
Definition import_fails (m : string) : bool :=
  match w_import w m with
  | Raise e => exn_is_import_error e
  | Ok _ => false
  end.

Definition module_of (name : string) : string :=
  get_default name (replace_char "-" "_" name) PACKAGE_TO_MODULE.

(** The dependency is reported: it is not an internal library and cannot
    be imported under its module name nor under its own name. *)
Definition is_missing (dep : dependency) : bool :=
  negb (startswith "lib" (dep_name dep) || startswith "lib." (dep_name dep))
  && import_fails (module_of (dep_name dep))
  && import_fails (dep_name dep).

Definition missing_entry (dep : dependency) : value :=
  VDict [("name", VStr (dep_name dep));
         ("version", opt_str (dep_version dep));
         ("module", VStr (module_of (dep_name dep)));
         ("install_cmd",
          VStr (match dep_version dep with
                | Some (String _ _ as v) =>
                    "pip install '" +:+ dep_name dep +:+ v +:+ "'"
                | _ => "pip install '" +:+ dep_name dep +:+ "'"
                end))].

Lemma check_each_spec (validated : list dependency) :
  forall missing result,
    check_each w validated missing = Ok result ->
    result = missing ++ map missing_entry (List.filter is_missing validated).
Proof.
  induction validated as [|dep rest IH]; intros missing result.
  - simpl. intros [= <-]. now rewrite app_nil_r.
  - cbn [check_each List.filter]. unfold is_missing, import_fails.
    change (get_default (dep_name dep) (replace_char "-" "_" (dep_name dep))
                        PACKAGE_TO_MODULE) with (module_of (dep_name dep)).
    destruct (startswith "lib" (dep_name dep) || startswith "lib." (dep_name dep));
      cbn [negb andb]; [apply IH|].
    destruct (w_import w (module_of (dep_name dep))) as [[]|e];
      cbn [andb]; [apply IH|].
    destruct (exn_is_import_error e); cbn [andb]; [|discriminate].
    destruct (w_import w (dep_name dep)) as [[]|e']; [apply IH|].
    destruct (exn_is_import_error e'); [|discriminate].
    intros H. apply IH in H. rewrite H. cbn [map].
    rewrite <- app_assoc. reflexivity.
Qed.

(** X7: when [_check_pip_dependencies] returns, it reports exactly the
    validated dependencies whose name does not start with "lib" and whose
    import fails with an [ImportError] under both the mapped module name
    and the package name, in their order, each with its name, version,
    module and install command. *)
Theorem check_reports_failed_imports (dependencies missing : list value)
    (validated : list dependency) :
  _validate_dependencies (w_py_str w) (VList dependencies) = Ok validated ->
  _check_pip_dependencies w dependencies = Ok missing ->
  missing = map missing_entry (List.filter is_missing validated).
Proof.
  intros Hv. unfold _check_pip_dependencies. rewrite Hv.
  intros H. now apply check_each_spec in H.
Qed.

End pip.

Definition sample_dependencies : list value :=
  [VDict [("name", VStr "requests")];
   VDict [("name", VStr "libsass")];
   VDict [("name", VStr "python-dotenv"); ("version", VStr ">=1.0")]].

Lemma check_reports_failed_imports_witness :
  [VDict [("name", VStr "python-dotenv");
          ("version", VStr ">=1.0");
          ("module", VStr "dotenv");
          ("install_cmd", VStr "pip install 'python-dotenv>=1.0'")]]
  = map missing_entry
        (List.filter (is_missing (demo_world demo_resolver "scrape"))
           [Dep "requests" None; Dep "libsass" None;
            Dep "python-dotenv" (Some ">=1.0")]).
Proof.
  exact (check_reports_failed_imports (demo_world demo_resolver "scrape")
           sample_dependencies
           [VDict [("name", VStr "python-dotenv");
                   ("version", VStr ">=1.0");
                   ("module", VStr "dotenv");
                   ("install_cmd", VStr "pip install 'python-dotenv>=1.0'")]]
           [Dep "requests" None; Dep "libsass" None;
            Dep "python-dotenv" (Some ">=1.0")]
           eq_refl eq_refl).
Defined.

Lemma filter_negb_nil {A} (p : A -> bool) (l : list A) :
  List.filter (fun x => negb (p x)) l = [] <-> forallb p l = true.
Proof.
  induction l as [|x xs IH]; simpl; [tauto|].
  destruct (p x); simpl; [exact IH|]. split; discriminate.
Qed.

Lemma filter_nil_existsb {A} (p : A -> bool) (l : list A) :
  List.filter p l = [] <-> existsb p l = false.
Proof.
  induction l as [|x xs IH]; simpl; [tauto|].
  destruct (p x); simpl; [|exact IH]. split; discriminate.
Qed.

Section installing.

Variable w : world.

(** pip exits with code 0 on the spec built for the package. *)
Definition pip_ok (pkg : dependency) : bool :=
  match w_pip w (package_spec (dep_name pkg) (dep_version pkg)) with
  | Completed 0 _ => true
  | _ => false
  end.

Definition pip_run (pkg : dependency) : event :=
  PipInstall (w_sys_executable w) (package_spec (dep_name pkg) (dep_version pkg)).

(** A record of failure for the package, whatever the error text. *)
Definition failure_of (f : value) (pkg : dependency) : Prop :=
  exists error, f = EnvManager.failure (dep_name pkg) error.

Lemma install_each_spec (pkgs : list dependency) :
  forall installed failed st,
    exists failed',
      snd (install_each w pkgs installed failed st)
      = Ok (install_result
              (installed ++ map dep_value (List.filter pip_ok pkgs))
              (failed ++ failed'))
      /\ Forall2 failure_of failed'
                 (List.filter (fun pkg => negb (pip_ok pkg)) pkgs)
      /\ trace (fst (install_each w pkgs installed failed st))
         = trace st ++ map pip_run pkgs.
Proof.
  induction pkgs as [|pkg pkgs IH]; intros installed failed st.
  - exists []. simpl. rewrite !app_nil_r. repeat split. constructor.
  - cbn [install_each map]. unfold bind at 1 2.
    unfold emit at 1 2. cbn iota beta.
    set (st1 := Proc (sys_stderr st) (handlers st) (loggerDict st)
                     (root_handlers st) (next_obj st)
                     (trace st ++ [PipInstall (w_sys_executable w)
                        (package_spec (dep_name pkg) (dep_version pkg))])).
    assert (Hfail : forall error,
      pip_ok pkg = false ->
      exists failed',
        snd (install_each w pkgs installed
               (failed ++ [EnvManager.failure (dep_name pkg) error]) st1)
        = Ok (install_result
                (installed ++ map dep_value (List.filter pip_ok (pkg :: pkgs)))
                (failed ++ failed'))
        /\ Forall2 failure_of failed'
                   (List.filter (fun pkg => negb (pip_ok pkg)) (pkg :: pkgs))
        /\ trace (fst (install_each w pkgs installed
                   (failed ++ [EnvManager.failure (dep_name pkg) error]) st1))
           = trace st ++ pip_run pkg :: map pip_run pkgs).
    { intros error Hok. cbn [List.filter]. rewrite Hok. cbn [negb].
      destruct (IH installed (failed ++ [EnvManager.failure (dep_name pkg) error])
                   st1) as (failed' & Hr & Hf & Ht).
      exists (EnvManager.failure (dep_name pkg) error :: failed').
      split; [rewrite Hr; now rewrite <- app_assoc|].
      split; [constructor; [now exists error|assumption]|].
      rewrite Ht. unfold st1. cbn [trace]. now rewrite <- app_assoc. }
    destruct (w_pip w (package_spec (dep_name pkg) (dep_version pkg)))
      as [[|c|c] stderr| |ex] eqn:Hpip;
      try (apply Hfail; unfold pip_ok; now rewrite Hpip).
    assert (Hok : pip_ok pkg = true) by (unfold pip_ok; now rewrite Hpip).
    cbn [List.filter]. rewrite Hok. cbn [negb].
    destruct (IH (installed ++ [dep_value pkg]) failed st1)
      as (failed' & Hr & Hf & Ht).
    exists failed'.
    split; [rewrite Hr; cbn [map]; now rewrite <- app_assoc|].
    split; [assumption|].
    rewrite Ht. unfold st1. cbn [trace]. now rewrite <- app_assoc.
Qed.

(** X8: [_install_pip_dependencies] attempts every package, in order, with
    one pip run each, and a failure never stops the rest: each validated
    package ends up in [installed] when pip exits with 0 and in [failed]
    otherwise.  The status is "success" when nothing failed, "partial"
    when some were installed and some failed, and "error" when all
    failed. *)
Theorem install_accounts_for_every_package (packages : list value)
    (validated : list dependency) (st : proc) :
  packages <> [] ->
  _validate_dependencies (w_py_str w) (VList packages) = Ok validated ->
  exists failed,
    snd (_install_pip_dependencies w packages st)
    = Ok (install_result (map dep_value (List.filter pip_ok validated)) failed)
    /\ Forall2 failure_of failed
               (List.filter (fun pkg => negb (pip_ok pkg)) validated)
    /\ trace (fst (_install_pip_dependencies w packages st))
       = trace st ++ map pip_run validated
    /\ install_status (map dep_value (List.filter pip_ok validated)) failed
       = VStr (if forallb pip_ok validated then "success"
               else if existsb pip_ok validated then "partial"
               else "error").
Proof.
  intros Hne Hv. unfold _install_pip_dependencies.
  destruct packages as [|p0 ps]; [congruence|].
  unfold bind, lift. rewrite Hv.
  destruct (install_each_spec validated [] [] st) as (failed & Hr & Hf & Ht).
  exists failed. split; [exact Hr|]. split; [exact Hf|]. split; [exact Ht|].
  clear Hr Ht Hv Hne. unfold install_status.
  destruct failed as [|f fs].
  - destruct (List.filter (fun pkg => negb (pip_ok pkg)) validated)
      eqn:Hbad; [|inversion Hf].
    apply filter_negb_nil in Hbad. now rewrite Hbad.
  - destruct (forallb pip_ok validated) eqn:Hall.
    { apply filter_negb_nil in Hall. rewrite Hall in Hf. inversion Hf. }
    destruct (existsb pip_ok validated) eqn:Hex.
    + destruct (List.filter pip_ok validated) as [|x xs] eqn:Hfil;
        [|reflexivity].
      apply filter_nil_existsb in Hfil. congruence.
    + apply filter_nil_existsb in Hex. now rewrite Hex.
Qed.

End installing.

(** A world that differs only in what pip answers. *)
Definition with_pip (w : world) (pip : string -> pip_outcome) : world :=
  {| w_py_str := w_py_str w;
     w_round := w_round w;
     w_no_module_named := w_no_module_named w;
     w_resolve := w_resolve w;
     w_download := w_download w;
     w_get_script := w_get_script w;
     w_preflight := w_preflight w;
     w_lib_in_project := w_lib_in_project w;
     w_lib_in_user := w_lib_in_user w;
     w_script_file_exists := w_script_file_exists w;
     w_file_dependencies := w_file_dependencies w;
     w_import := w_import w;
     w_pip := pip;
     w_sys_executable := w_sys_executable w;
     w_start_execution := w_start_execution w;
     w_log_execution_start := w_log_execution_start w;
     w_load_module := w_load_module w;
     w_argparse := w_argparse w;
     w_elapsed := w_elapsed w;
     w_log_execution := w_log_execution w;
     w_complete_execution := w_complete_execution w;
     w_log_error := w_log_error w;
     w_complete_error := w_complete_error w;
     w_json_size := w_json_size w;
     w_time := w_time w;
     w_script_kiwi_home := w_script_kiwi_home w;
     w_cwd := w_cwd w;
     w_write := w_write w;
     w_ensure_runs_dir := w_ensure_runs_dir w;
     w_flush_original := w_flush_original w;
     w_traceback := w_traceback w |}.

(** pip finds no build of libsass and installs everything else. *)
Definition no_libsass (spec : string) : pip_outcome :=
  if String.eqb spec "libsass" then Completed 1 "No matching distribution"
  else Completed 0 "".

Definition flaky_world : world :=
  with_pip (demo_world demo_resolver "scrape") no_libsass.

Lemma install_accounts_for_every_package_witness :
  exists failed,
    snd (_install_pip_dependencies flaky_world sample_dependencies demo_proc)
    = Ok (install_result
            [VDict [("name", VStr "requests"); ("version", VNone)];
             VDict [("name", VStr "python-dotenv"); ("version", VStr ">=1.0")]]
            failed)
    /\ Forall2 (failure_of) failed [Dep "libsass" None]
    /\ trace (fst (_install_pip_dependencies flaky_world sample_dependencies
                     demo_proc))
       = trace demo_proc
         ++ [PipInstall "python3" "requests"; PipInstall "python3" "libsass";
             PipInstall "python3" "python-dotenv>=1.0"]
    /\ install_status
         [VDict [("name", VStr "requests"); ("version", VNone)];
          VDict [("name", VStr "python-dotenv"); ("version", VStr ">=1.0")]]
         failed
       = VStr "partial".
Proof.
  exact (install_accounts_for_every_package flaky_world sample_dependencies
           [Dep "requests" None; Dep "libsass" None;
            Dep "python-dotenv" (Some ">=1.0")]
           demo_proc ltac:(discriminate) eq_refl).
Defined.

(** ** [EnvManager.install_packages] *)

Lemma status_by_outcome {A} (ok : A -> bool) (entry : A -> value)
    (R : value -> A -> Prop) (pkgs : list A) (failed : list value) :
  Forall2 R failed (List.filter (fun pkg => negb (ok pkg)) pkgs) ->
  install_status (map entry (List.filter ok pkgs)) failed
  = VStr (if forallb ok pkgs then "success"
          else if existsb ok pkgs then "partial" else "error").
Proof.
  intros Hf. unfold install_status.
  destruct failed as [|f fs].
  - destruct (List.filter (fun pkg => negb (ok pkg)) pkgs) eqn:Hbad;
      [|inversion Hf].
    apply filter_negb_nil in Hbad. now rewrite Hbad.
  - destruct (forallb ok pkgs) eqn:Hall.
    { apply filter_negb_nil in Hall. rewrite Hall in Hf. inversion Hf. }
    destruct (existsb ok pkgs) eqn:Hex.
    + destruct (List.filter ok pkgs) as [|x xs] eqn:Hfil; [|reflexivity].
      apply filter_nil_existsb in Hfil. congruence.
    + apply filter_nil_existsb in Hex. now rewrite Hex.
Qed.

Section env_installing.

Variable python : string.
Variable pip : string -> pip_outcome.

(** [pkg.get("name")], with the empty string for a missing name. *)
Definition name_of (pkg : dict string) : string :=
  match dict_get "name" pkg with Some n => n | None => "" end.

(** [if not pkg_name: continue] lets the package through. *)
Definition named (pkg : dict string) : bool :=
  negb (String.eqb (name_of pkg) "").

Definition env_spec (pkg : dict string) : string :=
  EnvManager.package_spec (name_of pkg) (dict_get "version" pkg).

Definition env_ok (pkg : dict string) : bool :=
  match pip (env_spec pkg) with Completed 0 _ => true | _ => false end.

Definition env_run (pkg : dict string) : event :=
  PipInstall python (env_spec pkg).

Definition env_entry (pkg : dict string) : value :=
  VDict [("name", VStr (name_of pkg));
         ("version", opt_str (dict_get "version" pkg))].

Definition env_failure (f : value) (pkg : dict string) : Prop :=
  exists error, f = EnvManager.failure (name_of pkg) error.

Lemma env_install_each_spec (pkgs : list (dict string)) :
  forall installed failed st,
    exists failed',
      snd (EnvManager.install_each python pip pkgs installed failed st)
      = Ok (install_result
              (installed
               ++ map env_entry (List.filter env_ok (List.filter named pkgs)))
              (failed ++ failed'))
      /\ Forall2 env_failure failed'
                 (List.filter (fun pkg => negb (env_ok pkg))
                    (List.filter named pkgs))
      /\ trace (fst (EnvManager.install_each python pip pkgs installed
                       failed st))
         = trace st ++ map env_run (List.filter named pkgs).
Proof.
  induction pkgs as [|pkg pkgs IH]; intros installed failed st.
  - exists []. simpl. rewrite !app_nil_r. repeat split. constructor.
  - cbn [EnvManager.install_each List.filter].
    assert (Hname : name_of pkg
                    = match dict_get "name" pkg with Some n => n | None => "" end)
      by reflexivity.
    assert (Hnamed : named pkg = negb (String.eqb (name_of pkg) ""))
      by reflexivity.
    destruct (dict_get "name" pkg) as [[|c n]|] eqn:Hn;
      rewrite Hname in Hnamed; cbn in Hnamed; rewrite Hnamed;
      try apply IH.
    assert (Hspec : EnvManager.package_spec (String c n)
                      (dict_get "version" pkg) = env_spec pkg)
      by (unfold env_spec; now rewrite Hname).
    rewrite Hspec.
    unfold bind at 1 2. unfold emit at 1 2. cbn iota beta.
    set (st1 := Proc (sys_stderr st) (handlers st) (loggerDict st)
                     (root_handlers st) (next_obj st)
                     (trace st ++ [PipInstall python (env_spec pkg)])).
    assert (Hfail : forall error,
      env_ok pkg = false ->
      exists failed',
        snd (EnvManager.install_each python pip pkgs installed
               (failed ++ [EnvManager.failure (String c n) error]) st1)
        = Ok (install_result
                (installed
                 ++ map env_entry
                      (List.filter env_ok (pkg :: List.filter named pkgs)))
                (failed ++ failed'))
        /\ Forall2 env_failure failed'
                   (List.filter (fun pkg => negb (env_ok pkg))
                      (pkg :: List.filter named pkgs))
        /\ trace (fst (EnvManager.install_each python pip pkgs installed
                   (failed ++ [EnvManager.failure (String c n) error]) st1))
           = trace st ++ map env_run (pkg :: List.filter named pkgs)).
    { intros error Hok. cbn [List.filter map]. rewrite Hok. cbn [negb].
      destruct (IH installed
                   (failed ++ [EnvManager.failure (String c n) error]) st1)
        as (failed' & Hr & Hf & Ht).
      exists (EnvManager.failure (String c n) error :: failed').
      split; [rewrite Hr; now rewrite <- app_assoc|].
      split; [constructor; [exists error; now rewrite Hname|assumption]|].
      rewrite Ht. unfold st1. cbn [trace]. now rewrite <- app_assoc. }
    destruct (pip (env_spec pkg)) as [[|r|r] stderr| |ex] eqn:Hpip;
      try (apply Hfail; unfold env_ok; now rewrite Hpip).
    assert (Hok : env_ok pkg = true) by (unfold env_ok; now rewrite Hpip).
    cbn [List.filter map]. rewrite Hok. cbn [negb].
    destruct (IH (installed
                  ++ [VDict [("name", VStr (String c n));
                             ("version", opt_str (dict_get "version" pkg))]])
                 failed st1) as (failed' & Hr & Hf & Ht).
    exists failed'.
    split.
    { rewrite Hr. cbn [map]. unfold env_entry at 2. rewrite Hname.
      now rewrite <- app_assoc. }
    split; [assumption|].
    rewrite Ht. unfold st1. cbn [trace]. now rewrite <- app_assoc.
Qed.

(** X9: [EnvManager.install_packages] asks for the interpreter of the
    environment only when there is something to install.  When
    [get_python] raises (the environment cannot be created), the call
    raises the same exception and pip is not run.  Otherwise it skips the
    entries without a name and runs pip once, in order, for each of the
    others, going on after a failure: a named package ends up in
    [installed] when pip exits with 0 and in [failed] otherwise, and the
    status is "success", "partial" or "error" accordingly. *)
Theorem env_install_accounts_for_every_named_package
    (get_python : result string) (packages : list (dict string)) (st : proc) :
  (forall e,
      packages <> [] -> get_python = Raise e ->
      EnvManager.install_packages get_python pip packages st = (st, Raise e))
  /\ (packages = [] \/ get_python = Ok python ->
      exists failed,
        snd (EnvManager.install_packages get_python pip packages st)
        = Ok (install_result
                (map env_entry
                   (List.filter env_ok (List.filter named packages)))
                failed)
        /\ Forall2 env_failure failed
                   (List.filter (fun pkg => negb (env_ok pkg))
                      (List.filter named packages))
        /\ trace (fst (EnvManager.install_packages get_python pip packages
                         st))
           = trace st ++ map env_run (List.filter named packages)
        /\ install_status
             (map env_entry
                (List.filter env_ok (List.filter named packages)))
             failed
           = VStr (if forallb env_ok (List.filter named packages)
                   then "success"
                   else if existsb env_ok (List.filter named packages)
                        then "partial" else "error")).
Proof.
  split.
  - intros e Hne ->. destruct packages; [congruence|reflexivity].
  - intros Hcase.
    destruct (env_install_each_spec packages [] [] st)
      as (failed & Hr & Hf & Ht).
    exists failed.
    assert (Hsame : EnvManager.install_packages get_python pip packages st
                    = EnvManager.install_each python pip packages [] [] st).
    { destruct packages as [|pkg rest]; [reflexivity|].
      destruct Hcase as [Hnil| ->]; [discriminate|reflexivity]. }
    rewrite Hsame.
    split; [exact Hr|]. split; [exact Hf|]. split; [exact Ht|].
    exact (status_by_outcome env_ok env_entry env_failure _ failed Hf).
Qed.

End env_installing.

Definition wanted_packages : list (dict string) :=
  [[("name", "requests"); ("version", "2.31.0")];
   [("version", "1.0")];
   [("name", "libsass")]].

Definition failing_libsass (spec : string) : pip_outcome :=
  if String.eqb spec "libsass" then Completed 1 "no matching distribution"
  else Completed 0 "".

Lemma env_install_accounts_witness :
  EnvManager.install_packages
    (Raise (RuntimeError "Failed to create venv: no space left"))
    failing_libsass wanted_packages demo_proc
  = (demo_proc, Raise (RuntimeError "Failed to create venv: no space left"))
  /\ exists failed,
       snd (EnvManager.install_packages (Ok "venv/bin/python")
              failing_libsass wanted_packages demo_proc)
       = Ok (VDict [("status", VStr "partial");
                    ("installed",
                     VList [VDict [("name", VStr "requests");
                                   ("version", VStr "2.31.0")]]);
                    ("failed", VList failed)])
       /\ trace (fst (EnvManager.install_packages (Ok "venv/bin/python")
                        failing_libsass wanted_packages demo_proc))
          = [PipInstall "venv/bin/python" "requests==2.31.0";
             PipInstall "venv/bin/python" "libsass"].
Proof.
  split.
  - apply (env_install_accounts_for_every_named_package "venv/bin/python"
             failing_libsass); [discriminate|reflexivity].
  - destruct (env_install_accounts_for_every_named_package "venv/bin/python"
                failing_libsass (Ok "venv/bin/python") wanted_packages
                demo_proc) as [_ H].
    destruct (H (or_intror eq_refl)) as (failed & Hr & Hf & Ht & Hs).
    exists failed. split; [|exact Ht].
    rewrite Hr. unfold install_result. rewrite Hs. reflexivity.
Defined.

(** ** What [_run_function_script] returns *)

Fixpoint no_quote (s : string) : bool :=
  match s with
  | EmptyString => true
  | String c s' => negb (Ascii.eqb c quote) && no_quote s'
  end.

Lemma until_quote_stops (m post : string) :
  no_quote m = true -> until_quote (m +:+ String quote post) = m.
Proof.
  induction m as [|c m IH]; intros Hm.
  - reflexivity.
  - simpl in Hm. apply andb_true_iff in Hm as [Hc Hm].
    simpl.
    destruct (Ascii.eqb c quote); [discriminate Hc|].
    f_equal. now apply IH.
Qed.

(** X10: the module name reported for an import error is the text between
    the first pair of quotes of the message, as in
    [No module named 'requests'], whatever comes before and after. *)
Theorem missing_module_name_between_quotes (pre m post : string) :
  no_quote pre = true ->
  no_quote m = true ->
  missing_module_name
    (pre +:+ String quote (m +:+ String quote post)) = m.
Proof.
  intros Hpre Hm. unfold missing_module_name.
  assert (Hafter : after_quote (pre +:+ String quote (m +:+ String quote post))
                   = Some (m +:+ String quote post)).
  { clear Hm. induction pre as [|c pre IH].
    - reflexivity.
    - simpl in Hpre. apply andb_true_iff in Hpre as [Hc Hpre].
      simpl.
      destruct (Ascii.eqb c quote); [discriminate Hc|]. now apply IH. }
  rewrite Hafter. now apply until_quote_stops.
Qed.

Lemma missing_module_name_witness :
  no_quote "No module named " = true
  /\ no_quote "requests" = true
  /\ missing_module_name "No module named 'requests'" = "requests".
Proof.
  split; [reflexivity|]. split; [reflexivity|].
  exact (missing_module_name_between_quotes "No module named " "requests" ""
           eq_refl eq_refl).
Defined.

(** The [except (ModuleNotFoundError, ImportError)] clause of
    [_run_function_script] applied to the outcome of the script. *)
Definition translated (r : result value) : result value :=
  match r with
  | Ok v => Ok v
  | Raise e =>
      if exn_is_import_error e then
        Raise (RuntimeError
                 ("Missing dependency: " +:+ missing_module_name (exn_msg e)
                  +:+ ". Add to script dependencies or install manually."))
      else Raise e
  end.

(** X11: when the runs directory can be made and the dual writer flushed,
    [_run_function_script] calls the script function exactly once and
    passes on what it returns or raises; only with log streaming on, an
    import error is replaced by a [RuntimeError] that names the missing
    module. *)
Theorem function_script_outcome (func : script_function)
    (script_params : dict value) (stream_logs : value) (st : proc) :
  exists st_call,
    trace st_call = trace st ++ [CallFunction]
    /\ snd (_run_function_script (Ok tt) (Ok tt) func script_params
              stream_logs st)
       = (if truthy stream_logs
          then translated (snd (func script_params st_call))
          else snd (func script_params st_call))
    /\ trace (fst (_run_function_script (Ok tt) (Ok tt) func script_params
                     stream_logs st))
       = trace (fst (func script_params st_call)).
Proof.
  unfold _run_function_script.
  destruct (truthy stream_logs); cbn [negb].
  - remember (bind (lift (Ok tt)) _ st) as out eqn:Hout.
    unfold bind at 1, lift at 1 in Hout.
    unfold bind, read, new_object, set_stderr in Hout.
    cbn [sys_stderr handlers loggerDict root_handlers next_obj trace] in Hout.
    set (original := sys_stderr st) in *.
    match type of Hout with
    | context [rewire_loggers ?ls original ?d ?u ?s] =>
        assert (Hrem1 : remembered st s original u) by (intros h Hh; now left);
        destruct (rewire_loggers_spec st original d ls u s Hrem1
                    (List.Forall_nil _))
          as (named & Hr2 & Hf2 & Hrem2 & Hall2 & _ & _);
        destruct (rewire_loggers ls original d u s) as [st2 r2]
    end.
    cbn [fst snd] in *. subst r2.
    match type of Hout with
    | context [rewire ?hs original ?d named st2] =>
        destruct (rewire_spec st original d hs named st2 Hrem2 Hall2)
          as (updated & Hr3 & Hf3 & _ & Hall3 & _ & _);
        destruct (rewire hs original d named st2) as [st3 r3]
    end.
    cbn [fst snd] in *. subst r3.
    unfold try_finally, try_except_import, emit, raise, lift in Hout.
    set (st_call := Proc (sys_stderr st3) (handlers st3) (loggerDict st3)
                         (root_handlers st3) (next_obj st3)
                         (trace st3 ++ [CallFunction])) in *.
    exists st_call.
    split.
    { unfold st_call. cbn [trace].
      destruct Hf3 as (_ & _ & _ & _ & ->).
      destruct Hf2 as (_ & _ & _ & _ & ->). reflexivity. }
    destruct (func script_params st_call) as [st4 [v|e]] eqn:Hcall;
      cbn [fst snd translated] in *.
    + match type of Hout with
      | context [restore updated ?s] =>
          destruct (restore_spec original updated Hall3 s) as (Hr6 & Hf6 & _);
          destruct (restore updated s) as [st6 r6]
      end.
      cbn [fst snd] in *. subst r6 out. cbn [fst snd].
      split; [reflexivity|]. now destruct Hf6 as (_ & _ & _ & _ & ->).
    + destruct (exn_is_import_error e);
        match type of Hout with
        | context [restore updated ?s] =>
            destruct (restore_spec original updated Hall3 s) as (Hr6 & Hf6 & _);
            destruct (restore updated s) as [st6 r6]
        end;
        cbn [fst snd] in *; subst r6 out; cbn [fst snd];
        (split; [reflexivity|]); now destruct Hf6 as (_ & _ & _ & _ & ->).
  - unfold bind, emit.
    exists (Proc (sys_stderr st) (handlers st) (loggerDict st)
                 (root_handlers st) (next_obj st)
                 (trace st ++ [CallFunction])).
    split; [reflexivity|]. split; reflexivity.
Qed.

(** ** Checks that end a call before anything is installed or run *)

Definition is_download (ev : event) : bool :=
  match ev with DownloadScript _ => true | _ => false end.

Ltac answered :=
  let Hr := fresh "Hr" in
  intros ? Hr; unfold ret in Hr; cbn [fst snd] in Hr;
  injection Hr as <-; auto 10.

Section stopped.

Variable w : world.
Variable p : run_params.
Variable answer : value.

Hypothesis stops :
  forall resolved st, execute_resolved w p resolved st = (st, Ok answer).

Lemma execute_stopped (st : proc) :
  (exists evs,
      trace (fst (execute w p st)) = trace st ++ evs
      /\ forallb is_download evs = true)
  /\ forall response,
       snd (execute w p st) = Ok response ->
       response = script_name_required
       \/ response = script_not_found (script_name p)
       \/ response = script_not_found_locally (script_name p)
       \/ response = answer.
Proof.
  assert (Hnone : exists evs,
             trace st = trace st ++ evs /\ forallb is_download evs = true)
    by (exists []; now rewrite app_nil_r).
  unfold execute, bind, lift, emit, ret.
  destruct (String.eqb (script_name p) "").
  { split; [exact Hnone|]. answered. }
  destruct (w_resolve w false) as [resolved|e];
    [|split; [exact Hnone|discriminate]].
  destruct (location resolved) as [[| |]|].
  - rewrite stops. split; [exact Hnone|]. answered.
  - rewrite stops. split; [exact Hnone|]. answered.
  - destruct (path resolved).
    { rewrite stops. split; [exact Hnone|]. answered. }
    destruct (auto_download p).
    + destruct (w_download w) as [[]|e].
      * destruct (w_resolve w true) as [resolved'|e].
        { rewrite stops. cbn [fst snd trace].
          split; [now exists [DownloadScript (script_name p)]|].
          answered. }
        cbn [fst snd trace].
        split; [now exists [DownloadScript (script_name p)]|discriminate].
      * cbn [fst snd trace].
        split; [now exists [DownloadScript (script_name p)]|discriminate].
    + split; [exact Hnone|]. answered.
  - split; [exact Hnone|]. answered.
Qed.

End stopped.

(** X12: when the registry knows the script and preflight does not pass,
    [execute] installs nothing and runs nothing - the only thing it may
    have done is download the script - and the response, unless the
    script could not be resolved, is the validation failure with
    preflight's blockers and warnings. *)
Theorem failed_preflight_stops_the_call (w : world) (p : run_params)
    (d validation : dict value) (st : proc) :
  w_get_script w = Ok (Some d) ->
  d <> [] ->
  w_preflight w = Ok validation ->
  truthy (get_default "pass" (VBool true) validation) = false ->
  (exists evs,
      trace (fst (execute w p st)) = trace st ++ evs
      /\ forallb is_download evs = true)
  /\ forall response,
       snd (execute w p st) = Ok response ->
       response = script_name_required
       \/ response = script_not_found (script_name p)
       \/ response = script_not_found_locally (script_name p)
       \/ response = validation_failed validation.
Proof.
  intros Hscript Hd Hpre Hpass. apply execute_stopped.
  intros resolved st'. unfold execute_resolved, preflight_and_libs.
  unfold bind, lift. rewrite Hscript.
  destruct d as [|kv d]; [congruence|]. cbn [if_script].
  rewrite Hpre, Hpass. reflexivity.
Qed.

(** A library is in neither the project's nor the user's [lib]
    directory. *)
Definition lib_missing (w : world) (lib_name : value) : bool :=
  negb (w_lib_in_project w (fmt w lib_name +:+ ".py")
        || w_lib_in_user w (fmt w lib_name +:+ ".py")).

Definition missing_dependencies (name : string) (missing_libs : list value)
    : value :=
  VDict [("error",
          VDict [("code", VStr "MISSING_DEPENDENCIES");
                 ("message", VStr ("Script '" +:+ name
                    +:+ "' requires libraries that are not installed"));
                 ("details",
                  VDict [("missing_libs", VList missing_libs);
                         ("suggestion", VStr "Download script with dependencies");
                         ("command", VStr ("load({'script_name': '" +:+ name
                            +:+ "', 'download_to_user': true})"))])])].

Lemma filter_bool {A} (f : A -> bool) (l : list A) :
  filter (fun x => f x) l = List.filter f l.
Proof.
  induction l as [|x l IH]; [reflexivity|].
  rewrite filter_cons. cbn [List.filter]. rewrite IH.
  destruct (f x); reflexivity.
Qed.

Lemma verify_lib_dependencies_spec (w : world) (name : string)
    (libs : list value) :
  _verify_lib_dependencies w name libs
  = match List.filter (lib_missing w) libs with
    | [] => [("status", VStr "ok")]
    | missing =>
        match missing_dependencies name missing with
        | VDict d => d
        | _ => []
        end
    end.
Proof.
  unfold _verify_lib_dependencies.
  change (filter _ libs) with (filter (fun x => lib_missing w x) libs).
  rewrite filter_bool.
  destruct (List.filter (lib_missing w) libs); reflexivity.
Qed.

(** X13: when preflight passes and one of the libraries the script
    requires is in neither [lib] directory, [execute] installs nothing and
    runs nothing, and the response, unless the script could not be
    resolved, is MISSING_DEPENDENCIES with exactly the libraries that were
    not found, in the order they are required. *)
Theorem missing_library_stops_the_call (w : world) (p : run_params)
    (d validation : dict value) (libs : list value) (st : proc) :
  w_get_script w = Ok (Some d) ->
  w_preflight w = Ok validation ->
  truthy (get_default "pass" (VBool true) validation) = true ->
  get_default "required_libs" (VList []) d = VList libs ->
  existsb (lib_missing w) libs = true ->
  (exists evs,
      trace (fst (execute w p st)) = trace st ++ evs
      /\ forallb is_download evs = true)
  /\ forall response,
       snd (execute w p st) = Ok response ->
       response = script_name_required
       \/ response = script_not_found (script_name p)
       \/ response = script_not_found_locally (script_name p)
       \/ response = missing_dependencies (script_name p)
                       (List.filter (lib_missing w) libs).
Proof.
  intros Hscript Hpre Hpass Hlibs Hmissing. apply execute_stopped.
  intros resolved st'. unfold execute_resolved, preflight_and_libs.
  unfold bind, lift. rewrite Hscript.
  assert (Hne : libs <> []) by (destruct libs; [discriminate Hmissing|congruence]).
  destruct d as [|kv d].
  { cbn in Hlibs. congruence. }
  cbn [if_script]. rewrite Hpre, Hpass. cbn [negb]. rewrite Hlibs.
  destruct libs as [|lib libs']; [congruence|].
  cbn [truthy py_iter]. rewrite verify_lib_dependencies_spec.
  destruct (List.filter (lib_missing w) (lib :: libs')) as [|m ms] eqn:Hfil.
  { apply filter_nil_existsb in Hfil. congruence. }
  reflexivity.
Qed.

(** A world that differs only in what preflight answers and in the
    libraries found in the project. *)
Definition with_checks (w : world) (preflight : result (dict value))
    (lib_in_project : string -> bool) : world :=
  {| w_py_str := w_py_str w;
     w_round := w_round w;
     w_no_module_named := w_no_module_named w;
     w_resolve := w_resolve w;
     w_download := w_download w;
     w_get_script := w_get_script w;
     w_preflight := preflight;
     w_lib_in_project := lib_in_project;
     w_lib_in_user := w_lib_in_user w;
     w_script_file_exists := w_script_file_exists w;
     w_file_dependencies := w_file_dependencies w;
     w_import := w_import w;
     w_pip := w_pip w;
     w_sys_executable := w_sys_executable w;
     w_start_execution := w_start_execution w;
     w_log_execution_start := w_log_execution_start w;
     w_load_module := w_load_module w;
     w_argparse := w_argparse w;
     w_elapsed := w_elapsed w;
     w_log_execution := w_log_execution w;
     w_complete_execution := w_complete_execution w;
     w_log_error := w_log_error w;
     w_complete_error := w_complete_error w;
     w_json_size := w_json_size w;
     w_time := w_time w;
     w_script_kiwi_home := w_script_kiwi_home w;
     w_cwd := w_cwd w;
     w_write := w_write w;
     w_ensure_runs_dir := w_ensure_runs_dir w;
     w_flush_original := w_flush_original w;
     w_traceback := w_traceback w |}.

Definition scrape_metadata : dict value :=
  [("name", VStr "scrape");
   ("version", VStr "1.0.0");
   ("estimated_cost_usd", VFloat 1 (-4));
   ("estimated_time_seconds", VInt 30);
   ("required_libs", VList [VStr "http_session"]);
   ("dependencies",
    VList [VDict [("name", VStr "requests"); ("version", VStr ">=2.0")]])].

Definition blocked : dict value :=
  [("pass", VBool false);
   ("checks", VDict []);
   ("warnings", VList []);
   ("blockers", VList [VStr "Missing credentials: ['APIFY_API_TOKEN']"])].

Definition blocked_world : world :=
  with_checks (demo_world demo_resolver "scrape") (Ok blocked)
    (fun f => String.eqb f "http_session.py").

Lemma failed_preflight_stops_the_call_witness :
  (exists evs,
      trace (fst (execute blocked_world (call "scrape" false) demo_proc))
      = trace demo_proc ++ evs
      /\ forallb is_download evs = true)
  /\ forall response,
       snd (execute blocked_world (call "scrape" false) demo_proc)
       = Ok response ->
       response = script_name_required
       \/ response = script_not_found "scrape"
       \/ response = script_not_found_locally "scrape"
       \/ response = validation_failed blocked.
Proof.
  exact (failed_preflight_stops_the_call blocked_world (call "scrape" false)
           scrape_metadata blocked demo_proc
           eq_refl ltac:(discriminate) eq_refl eq_refl).
Defined.

Definition no_libs_world : world :=
  with_checks (demo_world demo_resolver "scrape") (Ok [("pass", VBool true)])
    (fun _ => false).

Lemma missing_library_stops_the_call_witness :
  (exists evs,
      trace (fst (execute no_libs_world (call "scrape" false) demo_proc))
      = trace demo_proc ++ evs
      /\ forallb is_download evs = true)
  /\ forall response,
       snd (execute no_libs_world (call "scrape" false) demo_proc)
       = Ok response ->
       response = script_name_required
       \/ response = script_not_found "scrape"
       \/ response = script_not_found_locally "scrape"
       \/ response = missing_dependencies "scrape" [VStr "http_session"].
Proof.
  exact (missing_library_stops_the_call no_libs_world (call "scrape" false)
           scrape_metadata [("pass", VBool true)] [VStr "http_session"]
           demo_proc eq_refl eq_refl eq_refl eq_refl eq_refl).
Defined.

(** ** Failures after the run has started *)

Definition reports_error (response : value) : Prop :=
  exists d, response = VDict d /\ get "status" d = VStr "error"
            /\ dict_mem "error" d = true.

Lemma handle_answers (w : world) (p : run_params) (execution_id : value)
    (e : exn) (log_result : value) (st : proc) :
  w_log_error w = Ok log_result ->
  w_complete_error w = Ok tt ->
  exists response,
    snd (handle w p execution_id e st) = Ok response
    /\ reports_error response.
Proof.
  intros Hlog Hcomplete. unfold handle.
  destruct (exn_is_import_error e).
  - eexists. split; [reflexivity|].
    eexists. split; [reflexivity|]. split; reflexivity.
  - unfold bind, emit, lift. rewrite Hlog, Hcomplete.
    eexists. split; [reflexivity|].
    eexists. split; [reflexivity|]. split; reflexivity.
Qed.

(** X14: once the run has started, nothing that derives from
    [Exception] escapes [execute] as long as the error itself can be
    logged: whatever the script, the loader, the output file or the
    response construction raises, the call returns a response - the one
    built from the script's result, or one with status "error" and an
    [error] field - unless what was raised does not derive from
    [Exception] ([SystemExit] from a script that calls [sys.exit],
    [KeyboardInterrupt], a cancellation): that exception leaves [execute]
    as it is. *)
Theorem started_run_always_answers (w : world) (p : run_params)
    (script_path : FS.path) (script : option (dict value))
    (script_params : dict value)
    (stream_logs output_file save_output log_result : value) (st : proc) :
  w_log_error w = Ok log_result ->
  w_complete_error w = Ok tt ->
  match snd (guarded_run w p script_path script script_params stream_logs
               output_file save_output st) with
  | Ok response =>
      (exists execution_id st',
          snd (run_script w p script_path script script_params stream_logs
                 output_file save_output execution_id st') = Ok response)
      \/ reports_error response
  | Raise e =>
      exn_is_exception e = false
      /\ (w_start_execution w = Raise e
          \/ exists execution_id st',
               snd (run_script w p script_path script script_params
                      stream_logs output_file save_output execution_id st')
               = Raise e)
  end.
Proof.
  intros Hlog Hcomplete. unfold guarded_run.
  unfold bind at 1, emit at 1, lift at 1.
  destruct (w_start_execution w) as [execution_id|e].
  - unfold try_except.
    match goal with
    | |- context [run_script w p script_path script script_params stream_logs
                    output_file save_output execution_id ?s] =>
        set (st' := s)
    end.
    destruct (run_script w p script_path script script_params stream_logs
                output_file save_output execution_id st')
      as [st'' [response|e]] eqn:Hrun.
    + cbn [snd]. left. exists execution_id, st'. now rewrite Hrun.
    + destruct (exn_is_exception e) eqn:He.
      * destruct (handle_answers w p execution_id e log_result st''
                    Hlog Hcomplete) as (response & Hr & Hshape).
        rewrite Hr. now right.
      * cbn [snd]. split; [exact He|]. right.
        exists execution_id, st'. now rewrite Hrun.
  - destruct (exn_is_exception e) eqn:He.
    + match goal with
      | |- context [handle w p VNone e ?s] =>
          destruct (handle_answers w p VNone e log_result s Hlog Hcomplete)
            as (response & Hr & Hshape)
      end.
      rewrite Hr. now right.
    + cbn [snd]. split; [exact He|]. now left.
Qed.

(** A script whose [execute] calls [sys.exit(3)]. *)
Definition exiting_world : world :=
  let w := demo_world demo_resolver "scrape" in
  {| w_py_str := w_py_str w;
     w_round := w_round w;
     w_no_module_named := w_no_module_named w;
     w_resolve := w_resolve w;
     w_download := w_download w;
     w_get_script := w_get_script w;
     w_preflight := w_preflight w;
     w_lib_in_project := w_lib_in_project w;
     w_lib_in_user := w_lib_in_user w;
     w_script_file_exists := w_script_file_exists w;
     w_file_dependencies := w_file_dependencies w;
     w_import := w_import w;
     w_pip := w_pip w;
     w_sys_executable := w_sys_executable w;
     w_start_execution := w_start_execution w;
     w_log_execution_start := w_log_execution_start w;
     w_load_module :=
       Ok (HasExecute (fun _ => raise (Exn "SystemExit" false false "3")));
     w_argparse := w_argparse w;
     w_elapsed := w_elapsed w;
     w_log_execution := w_log_execution w;
     w_complete_execution := w_complete_execution w;
     w_log_error := w_log_error w;
     w_complete_error := w_complete_error w;
     w_json_size := w_json_size w;
     w_time := w_time w;
     w_script_kiwi_home := w_script_kiwi_home w;
     w_cwd := w_cwd w;
     w_write := w_write w;
     w_ensure_runs_dir := w_ensure_runs_dir w;
     w_flush_original := w_flush_original w;
     w_traceback := w_traceback w |}.

Lemma started_run_always_answers_witness :
  (exists response,
      snd (guarded_run (demo_world demo_resolver "scrape")
             (call "scrape" false) ["work"; ".ai"; "scripts"; "scrape.py"]
             None [] (VBool false) VNone (VBool false) demo_proc)
      = Ok response
      /\ ((exists execution_id st',
              snd (run_script (demo_world demo_resolver "scrape")
                     (call "scrape" false)
                     ["work"; ".ai"; "scripts"; "scrape.py"] None []
                     (VBool false) VNone (VBool false) execution_id st')
              = Ok response)
          \/ reports_error response))
  /\ snd (guarded_run exiting_world (call "scrape" false)
            ["work"; ".ai"; "scripts"; "scrape.py"] None [] (VBool false)
            VNone (VBool false) demo_proc)
     = Raise (Exn "SystemExit" false false "3").
Proof.
  split.
  - pose proof (started_run_always_answers
                  (demo_world demo_resolver "scrape") (call "scrape" false)
                  ["work"; ".ai"; "scripts"; "scrape.py"] None []
                  (VBool false) VNone (VBool false) VNone demo_proc
                  eq_refl eq_refl) as H.
    destruct (snd (guarded_run (demo_world demo_resolver "scrape")
                     (call "scrape" false)
                     ["work"; ".ai"; "scripts"; "scrape.py"] None []
                     (VBool false) VNone (VBool false) demo_proc))
      as [response|e] eqn:Hrun.
    + exists response. split; [reflexivity|exact H].
    + exfalso. vm_compute in Hrun. discriminate.
  - reflexivity.
Defined.

(** ** The summary of a large result *)

Definition is_container (v : value) : bool :=
  match v with VDict _ | VList _ => true | _ => false end.

(** A value nested at most [n] levels deep in which every dict has at most
    11 entries and every list at most 6 items. *)
Inductive compact : Z -> value -> Prop :=
| compact_scalar n v : is_container v = false -> compact n v
| compact_dict n d :
    0 < n -> len d <= 11 ->
    Forall (fun kv => compact (n - 1) (snd kv)) d ->
    compact n (VDict d)
| compact_list n l :
    0 < n -> len l <= 6 ->
    Forall (compact (n - 1)) l ->
    compact n (VList l).

Section summary.

Variable w : world.
Variable max_depth : Z.

(** What the loops of [_create_result_summary] store for a value. *)
Definition summary_of (current_depth : Z) (v : value) : value :=
  match v with
  | VDict _ | VList _ => _create_result_summary w v max_depth (current_depth + 1)
  | _ => VStr (str_slice_to 100 (fmt w v))
  end.

Definition first_keys (current_depth : Z)
    : dict value -> nat -> dict value -> dict value :=
  fix first_keys (kvs : dict value) (n : nat) (summary : dict value)
      {struct kvs} : dict value :=
    match kvs, n with
    | (key, v) :: rest, S n' =>
        first_keys rest n' (dict_set key (summary_of current_depth v) summary)
    | _, _ => summary
    end.

Definition first_items (current_depth : Z) : list value -> nat -> list value :=
  fix first_items (xs : list value) (n : nat) {struct xs} : list value :=
    match xs, n with
    | item :: rest, S n' => summary_of current_depth item :: first_items rest n'
    | _, _ => []
    end.

Definition depth_reached (data : value) : value :=
  VDict [("_type", VStr (type_name data));
         ("_summary", VStr "Max depth reached")].

Lemma summary_dict_eq (d : dict value) (current_depth : Z) :
  _create_result_summary w (VDict d) max_depth current_depth
  = if current_depth >=? max_depth then depth_reached (VDict d)
    else VDict (if len d >? 10
                then dict_set "_other_keys" (VInt (len d - 10))
                       (first_keys current_depth d 10 [])
                else first_keys current_depth d 10 []).
Proof. reflexivity. Qed.

Lemma summary_list_eq (l : list value) (current_depth : Z) :
  _create_result_summary w (VList l) max_depth current_depth
  = if current_depth >=? max_depth then depth_reached (VList l)
    else match l with
         | [] => VList []
         | _ =>
             VList (if len l >? 5
                    then first_items current_depth l 5
                         ++ [VStr ("_and_" +:+ str_of_Z (len l - 5)
                                   +:+ "_more_items")]
                    else first_items current_depth l 5)
         end.
Proof. destruct l; reflexivity. Qed.

Lemma dict_set_length {A} (k : string) (v : A) (d : dict A) :
  (length (dict_set k v d) <= S (length d))%nat.
Proof.
  induction d as [|[k' v'] d IH]; simpl; [lia|].
  destruct (String.eqb k k'); simpl; lia.
Qed.

Lemma dict_set_Forall {A} (P : A -> Prop) (k : string) (v : A) (d : dict A) :
  P v -> Forall (fun kv => P (snd kv)) d ->
  Forall (fun kv => P (snd kv)) (dict_set k v d).
Proof.
  intros Hv. induction 1 as [|[k' v'] d Hx Hd IH]; simpl.
  - now repeat constructor.
  - destruct (String.eqb k k'); constructor; assumption.
Qed.

Lemma first_keys_spec (P : value -> Prop) (current_depth : Z) :
  forall kvs n summary,
    Forall (fun kv => P (summary_of current_depth (snd kv))) kvs ->
    Forall (fun kv => P (snd kv)) summary ->
    Forall (fun kv => P (snd kv)) (first_keys current_depth kvs n summary)
    /\ (length (first_keys current_depth kvs n summary)
        <= length summary + n)%nat.
Proof.
  induction kvs as [|[k v] kvs IH]; intros n summary Hkvs Hsum.
  - simpl. split; [assumption|lia].
  - destruct n as [|n]; [simpl; split; [assumption|lia]|].
    inversion Hkvs as [|? ? Hv Hrest]; subst. simpl in Hv.
    change (first_keys current_depth ((k, v) :: kvs) (S n) summary)
      with (first_keys current_depth kvs n
              (dict_set k (summary_of current_depth v) summary)).
    destruct (IH n (dict_set k (summary_of current_depth v) summary) Hrest
                (dict_set_Forall P k _ summary Hv Hsum)) as [Hall Hlen].
    split; [exact Hall|].
    pose proof (dict_set_length k (summary_of current_depth v) summary). lia.
Qed.

Lemma first_items_spec (P : value -> Prop) (current_depth : Z) :
  forall xs n,
    Forall (fun x => P (summary_of current_depth x)) xs ->
    Forall P (first_items current_depth xs n)
    /\ (length (first_items current_depth xs n) <= n)%nat.
Proof.
  induction xs as [|x xs IH]; intros n Hxs.
  - simpl. split; [constructor|lia].
  - destruct n as [|n]; [simpl; split; [constructor|lia]|].
    inversion Hxs as [|? ? Hx Hrest]; subst.
    destruct (IH n Hrest) as [Hall Hlen].
    simpl. split; [constructor; assumption|lia].
Qed.

Lemma compact_depth_reached (data : value) (n : Z) :
  0 < n -> compact n (depth_reached data).
Proof.
  intros Hn. apply compact_dict; [assumption|unfold len; simpl; lia|].
  repeat constructor.
Qed.

(** X15: the summary written next to a large result is small whatever the
    result: it is nested at most [max_depth - current_depth + 1] levels
    deep (one level once the depth limit is reached), each of its dicts
    has at most 11 entries - ten keys and the count of the others - and
    each of its lists at most 6 items - five and the note on the
    rest. *)
Theorem result_summary_is_compact (data : value) :
  forall current_depth,
    compact (Z.max 1 (max_depth - current_depth + 1))
            (_create_result_summary w data max_depth current_depth).
Proof.
  induction data as [| | | | |l IH|d IH] using value_rect';
    intros current_depth;
    try (cbn [_create_result_summary];
         destruct (current_depth >=? max_depth);
           [apply compact_depth_reached; lia
           |now apply compact_scalar]).
  - (* list *)
    rewrite summary_list_eq.
    destruct (current_depth >=? max_depth) eqn:Hdepth;
      [apply compact_depth_reached; lia|].
    assert (Hlt : current_depth < max_depth) by lia.
    assert (Hitems : Forall (fun x =>
               compact (Z.max 1 (max_depth - current_depth + 1) - 1)
                       (summary_of current_depth x)) l).
    { eapply Forall_impl; [exact IH|]. intros x Hx. cbv beta in Hx.
      unfold summary_of.
      replace (Z.max 1 (max_depth - current_depth + 1) - 1)
        with (Z.max 1 (max_depth - (current_depth + 1) + 1)) by lia.
      destruct x; try (now apply compact_scalar); apply Hx. }
    destruct (first_items_spec _ current_depth l 5 Hitems) as [Hall Hlen].
    destruct l as [|x l']; [apply compact_list; [lia|unfold len; simpl; lia|constructor]|].
    apply compact_list; [lia| |].
    + destruct (len (x :: l') >? 5); unfold len in *.
      * rewrite length_app. simpl length in *. lia.
      * lia.
    + destruct (len (x :: l') >? 5); [|exact Hall].
      apply Forall_app. split; [exact Hall|].
      constructor; [now apply compact_scalar|constructor].
  - (* dict *)
    rewrite summary_dict_eq.
    destruct (current_depth >=? max_depth) eqn:Hdepth;
      [apply compact_depth_reached; lia|].
    assert (Hlt : current_depth < max_depth) by lia.
    assert (Hitems : Forall (fun kv =>
               compact (Z.max 1 (max_depth - current_depth + 1) - 1)
                       (summary_of current_depth (snd kv))) d).
    { eapply Forall_impl; [exact IH|]. intros [k x] Hx. cbv beta in Hx.
      simpl in Hx |- *. unfold summary_of.
      replace (Z.max 1 (max_depth - current_depth + 1) - 1)
        with (Z.max 1 (max_depth - (current_depth + 1) + 1)) by lia.
      destruct x; try (now apply compact_scalar); apply Hx. }
    destruct (first_keys_spec _ current_depth d 10 [] Hitems
                (List.Forall_nil _)) as [Hall Hlen].
    apply compact_dict; [lia| |].
    + destruct (len d >? 10); unfold len in *.
      * pose proof (dict_set_length "_other_keys"
                      (VInt (Z.of_nat (length d) - 10))
                      (first_keys current_depth d 10 [])).
        simpl length in *. lia.
      * simpl length in *. lia.
    + destruct (len d >? 10); [|exact Hall].
      apply dict_set_Forall; [now apply compact_scalar|exact Hall].
Qed.

End summary.

(** ** From the check to the installation *)

Lemma acceptable_missing_entry (d : dependency) :
  acceptable (missing_entry d) = acceptable (dep_value d).
Proof. destruct d as [n [v|]]; reflexivity. Qed.

Lemma normalize_missing_entry (d : dependency) :
  normalize (missing_entry d) = d.
Proof. destruct d as [n [v|]]; reflexivity. Qed.

(** X16: what [_check_pip_dependencies] reports can be handed to
    [_install_pip_dependencies] as it is, as [execute] does: the
    installation then runs pip exactly once for each dependency the check
    found missing, in their order, and for no other. *)
Theorem only_missing_packages_are_installed (w : world)
    (dependencies missing : list value) (validated : list dependency)
    (st : proc) :
  _validate_dependencies (w_py_str w) (VList dependencies) = Ok validated ->
  _check_pip_dependencies w dependencies = Ok missing ->
  trace (fst (_install_pip_dependencies w missing st))
  = trace st ++ map (pip_run w) (List.filter (is_missing w) validated)
  /\ exists response, snd (_install_pip_dependencies w missing st) = Ok response.
Proof.
  intros Hv Hcheck.
  assert (Hmissing : missing
                     = map missing_entry (List.filter (is_missing w) validated)).
  { unfold _check_pip_dependencies in Hcheck. rewrite Hv in Hcheck.
    now apply check_each_spec in Hcheck. }
  assert (Hgood : Forall (fun d => acceptable (dep_value d) = true)
                         (List.filter (is_missing w) validated)).
  { simpl in Hv.
    apply validate_entries_good in Hv as (ds & -> & _ & Hall).
    cbn [app]. clear -Hall.
    induction Hall as [|d ds [Hd _] _ IH]; cbn [List.filter]; [constructor|].
    destruct (is_missing w d); [constructor|]; assumption. }
  set (wanted := List.filter (is_missing w) validated) in *.
  clearbody wanted. subst missing. clear Hv Hcheck.
  assert (Hre : _validate_dependencies (w_py_str w)
                  (VList (map missing_entry wanted)) = Ok wanted).
  { cbn [_validate_dependencies]. rewrite validate_entries_acceptable.
    - cbn [app]. f_equal. clear Hgood.
      induction wanted as [|d ds IH]; cbn [map]; [reflexivity|].
      now rewrite normalize_missing_entry, IH.
    - clear -Hgood.
      induction Hgood as [|d ds Hd _ IH]; cbn [map forallb]; [reflexivity|].
      now rewrite acceptable_missing_entry, Hd, IH. }
  unfold _install_pip_dependencies.
  destruct wanted as [|d ds].
  { cbn. rewrite app_nil_r. split; [reflexivity|now eexists]. }
  cbn [map]. cbn [map] in Hre. unfold bind, lift. rewrite Hre.
  destruct (install_each_spec w (d :: ds) [] [] st) as (failed & Hr & _ & Ht).
  split; [exact Ht|]. eexists. exact Hr.
Qed.

Lemma only_missing_packages_are_installed_witness :
  trace (fst (_install_pip_dependencies (demo_world demo_resolver "scrape")
                [VDict [("name", VStr "python-dotenv");
                        ("version", VStr ">=1.0");
                        ("module", VStr "dotenv");
                        ("install_cmd",
                         VStr "pip install 'python-dotenv>=1.0'")]]
                demo_proc))
  = trace demo_proc
    ++ map (pip_run (demo_world demo_resolver "scrape"))
         (List.filter (is_missing (demo_world demo_resolver "scrape"))
            [Dep "requests" None; Dep "libsass" None;
             Dep "python-dotenv" (Some ">=1.0")])
  /\ exists response,
       snd (_install_pip_dependencies (demo_world demo_resolver "scrape")
              [VDict [("name", VStr "python-dotenv");
                      ("version", VStr ">=1.0");
                      ("module", VStr "dotenv");
                      ("install_cmd",
                       VStr "pip install 'python-dotenv>=1.0'")]]
              demo_proc) = Ok response.
Proof.
  exact (only_missing_packages_are_installed
           (demo_world demo_resolver "scrape") sample_dependencies
           [VDict [("name", VStr "python-dotenv");
                   ("version", VStr ">=1.0");
                   ("module", VStr "dotenv");
                   ("install_cmd", VStr "pip install 'python-dotenv>=1.0'")]]
           [Dep "requests" None; Dep "libsass" None;
            Dep "python-dotenv" (Some ">=1.0")]
           demo_proc eq_refl eq_refl).
Defined.

(** ** The module search path of a script *)

Section search_path_properties.

Variable fs : FS.node.
Variable script_kiwi_home_env : option FS.path.
Variable home : FS.path.
Variable project_path : option FS.path.
Variable mcp_root : FS.path.
Variable script_path : FS.path.

(** What may be on the path: the script's directory, the package
    directory, and directories that exist. *)
Definition searchable (q : FS.path) : Prop :=
  q = parent script_path \/ q = mcp_root \/ FS.exists_ fs q = true.

Definition tidy (paths : list FS.path) : Prop :=
  NoDup paths /\ Forall searchable paths.

Lemma tidy_nil : tidy [].
Proof. split; constructor. Qed.

Lemma tidy_cons (q : FS.path) (paths : list FS.path) :
  q ∉ paths -> searchable q -> tidy paths -> tidy (q :: paths).
Proof.
  intros Hq Hs [Hnd Hall]. split; [now apply NoDup_cons|now constructor].
Qed.

Lemma tidy_insert_second (q : FS.path) (paths : list FS.path) :
  q ∉ paths -> searchable q -> tidy paths -> tidy (insert_second q paths).
Proof.
  intros Hq Hs [Hnd Hall]. destruct paths as [|first rest]; simpl.
  - split; [apply NoDup_singleton|]. constructor; [assumption|constructor].
  - apply NoDup_cons in Hnd as [Hfirst Hrest].
    apply not_elem_of_cons in Hq as [Hne Hq].
    inversion Hall as [|? ? Hsf Hsr]; subst.
    split.
    + apply NoDup_cons. split.
      * apply not_elem_of_cons. split; [congruence|assumption].
      * now apply NoDup_cons.
    + constructor; [assumption|]. constructor; assumption.
Qed.

Lemma tidy_snoc (q : FS.path) (paths : list FS.path) :
  q ∉ paths -> searchable q -> tidy paths -> tidy (paths ++ [q]).
Proof.
  intros Hq Hs [Hnd Hall]. split.
  - apply NoDup_app. split; [assumption|]. split; [|apply NoDup_singleton].
    intros x Hx Hx'. apply list_elem_of_singleton in Hx'. now subst.
  - apply Forall_app. split; [assumption|].
    constructor; [assumption|constructor].
Qed.

Lemma elem_of_insert_second (q x : FS.path) (paths : list FS.path) :
  x ∈ paths -> x ∈ insert_second q paths.
Proof.
  destruct paths as [|first rest]; simpl; [now intros ?%elem_of_nil|].
  intros [->|Hx]%elem_of_cons; [left|right; now right].
Qed.

(** X17: the search path built for a script never lists a directory
    twice; it always contains the script's own directory and the package
    directory, and everything else on it exists. *)
Theorem search_paths_are_distinct (storage_location : string) :
  NoDup (_build_search_paths fs script_kiwi_home_env home project_path
           mcp_root script_path storage_location)
  /\ parent script_path
     ∈ _build_search_paths fs script_kiwi_home_env home project_path
         mcp_root script_path storage_location
  /\ mcp_root
     ∈ _build_search_paths fs script_kiwi_home_env home project_path
         mcp_root script_path storage_location
  /\ Forall searchable
       (_build_search_paths fs script_kiwi_home_env home project_path
          mcp_root script_path storage_location).
Proof.
  unfold _build_search_paths.
  set (user_scripts := _ ++ ["scripts"]).
  set (paths1 := if FS.exists_ fs user_scripts then [user_scripts] else []).
  assert (H1 : tidy paths1).
  { unfold paths1. destruct (FS.exists_ fs user_scripts) eqn:Hex;
      [|apply tidy_nil].
    apply tidy_cons; [apply not_elem_of_nil| |apply tidy_nil].
    right. now right. }
  set (paths2 := match project_path with Some _ => _ | None => _ end).
  assert (H2 : tidy paths2).
  { unfold paths2. destruct project_path as [project|]; [|exact H1].
    destruct (FS.exists_ fs (project ++ [".ai"; "scripts"])) eqn:Hex;
      [|exact H1].
    case_bool_decide as Hin; [exact H1|].
    apply tidy_cons; [assumption| |assumption]. right. now right. }
  clearbody paths2. clear H1 paths1.
  set (paths3 := if negb (bool_decide (parent script_path ∈ paths2))
                 then _ else _).
  assert (H3 : tidy paths3 /\ parent script_path ∈ paths3).
  { unfold paths3. case_bool_decide as Hin; cbn [negb].
    - now split.
    - split; [|now left]. apply tidy_cons; [assumption| |assumption].
      now left. }
  clearbody paths3. clear H2 paths2. destruct H3 as [H3 Hown].
  set (paths4 := if FS.exists_ fs (parent (parent script_path)) && _
                 then _ else _).
  assert (H4 : tidy paths4 /\ parent script_path ∈ paths4).
  { unfold paths4.
    destruct (FS.exists_ fs (parent (parent script_path))) eqn:Hex;
      [|now split].
    case_bool_decide as Hin; cbn [negb andb]; [now split|].
    split; [|now apply elem_of_insert_second].
    apply tidy_insert_second; [assumption| |assumption]. right. now right. }
  clearbody paths4. clear H3 Hown paths3. destruct H4 as [H4 Hown].
  case_bool_decide as Hin; cbn [negb].
  - destruct H4 as [Hnd Hall]. repeat split; assumption.
  - destruct (tidy_snoc mcp_root paths4 Hin) as [Hnd Hall];
      [right; now left|assumption|].
    repeat split; try assumption.
    + apply elem_of_app. now left.
    + apply elem_of_app. right. now left.
Qed.

End search_path_properties.

(** ** The command line of an argument-parser script *)

(** The parameter is handed to the script: it has a value and its name
    does not mark it as internal. *)
Definition passed_on (kv : string * value) : bool :=
  negb (is_none (snd kv)) && negb (startswith "_" (fst kv)).

Fixpoint has_char (c : ascii) (s : string) : bool :=
  match s with
  | EmptyString => false
  | String c' s' => Ascii.eqb c' c || has_char c s'
  end.

Lemma replace_char_removes (a b : ascii) (s : string) :
  a <> b -> has_char a (replace_char a b s) = false.
Proof.
  intros Hab. induction s as [|c s IH]; [reflexivity|].
  cbn [replace_char has_char]. rewrite IH, orb_false_r.
  destruct (Ascii.eqb c a) eqn:Hc.
  - apply Ascii.eqb_neq. congruence.
  - exact Hc.
Qed.

Lemma prefix_cons (a b : ascii) (s t : string) :
  String.prefix (String a s) (String b t)
  = if Ascii.eqb a b then String.prefix s t else false.
Proof.
  cbn [String.prefix]. destruct (ascii_dec a b) as [->|Hne].
  - now rewrite Ascii.eqb_refl.
  - apply Ascii.eqb_neq in Hne. now rewrite Hne.
Qed.

Lemma prefix_empty (s : string) : String.prefix "" s = true.
Proof. now destruct s. Qed.

Lemma two_dashes_start_with_one (key : string) :
  startswith "--" key = true -> startswith "-" key = true.
Proof.
  unfold startswith. destruct key as [|c key]; [discriminate|].
  rewrite !prefix_cons. destruct (Ascii.eqb "-" c); [|discriminate].
  intros _. apply prefix_empty.
Qed.

Lemma arg_flag_is_a_flag (key : string) : startswith "-" (arg_flag key) = true.
Proof.
  unfold arg_flag.
  destruct (startswith "--" key) eqn:H2.
  - now apply two_dashes_start_with_one.
  - destruct (startswith "-" key) eqn:H1; [exact H1|reflexivity].
Qed.

Section command_line.

Variable w : world.

(** X18: only the parameters that have a value and whose name does not
    start with an underscore reach the command line of an argparse script:
    the arguments are those of the parameters that are passed on.  Every
    parameter name becomes a flag that starts with a dash, and a name that
    did not start with one becomes a flag without underscores. *)
Theorem internal_parameters_stay_off_the_command_line
    (script_params : dict value) :
  argparse_args w script_params
  = argparse_args w (List.filter passed_on script_params)
  /\ (forall key, startswith "-" (arg_flag key) = true)
  /\ (forall key,
        startswith "-" key = false -> has_char "_" (arg_flag key) = false).
Proof.
  split; [|split].
  - induction script_params as [|[key v] rest IH]; [reflexivity|].
    cbn [argparse_args List.filter]. unfold passed_on at 1. cbn [fst snd].
    destruct (is_none v) eqn:Hnone; cbn [negb andb app]; [exact IH|].
    destruct (startswith "_" key) eqn:Hinternal; cbn [negb app]; [exact IH|].
    cbn [argparse_args]. rewrite Hnone, Hinternal. now rewrite IH.
  - apply arg_flag_is_a_flag.
  - intros key Hkey. unfold arg_flag.
    assert (H2 : startswith "--" key = false).
    { destruct (startswith "--" key) eqn:H2; [|reflexivity].
      apply two_dashes_start_with_one in H2. congruence. }
    rewrite H2, Hkey.
    change (has_char "_" ("--" +:+ replace_char "_" "-" key))
      with (has_char "_" (replace_char "_" "-" key)).
    now apply replace_char_removes.
Qed.

End command_line.

Lemma internal_parameters_witness :
  argparse_args (demo_world demo_resolver "scrape")
    [("video_url", VStr "https://example.org/v"); ("_timeout", VInt 60);
     ("limit", VNone); ("dry_run", VBool false)]
  = argparse_args (demo_world demo_resolver "scrape")
      [("video_url", VStr "https://example.org/v"); ("dry_run", VBool false)]
  /\ has_char "_" (arg_flag "video_url") = false.
Proof.
  destruct (internal_parameters_stay_off_the_command_line
              (demo_world demo_resolver "scrape")
              [("video_url", VStr "https://example.org/v");
               ("_timeout", VInt 60); ("limit", VNone);
               ("dry_run", VBool false)]) as (Hargs & _ & Hkebab).
  split; [exact Hargs|exact (Hkebab "video_url" eq_refl)].
Defined.

(** ** The project root *)





(** ** Downloads to user space *)

(** The content of the file at a path, if there is a file. *)
Definition file_at (fs : FS.node) (q : FS.path) : option FS.content :=
  match FS.lookup q fs with Some (FS.File _ c) => Some c | _ => None end.

Lemma file_at_cons (d : string) (q : FS.path) (name : string)
    (children : list FS.node) :
  file_at (FS.Dir name children) (d :: q)
  = match FS.child d children with
    | Some n => file_at n q
    | None => None
    end.
Proof. unfold file_at. simpl. now destruct (FS.child d children). Qed.

Lemma file_at_empty_dir (name : string) (q : FS.path) :
  file_at (FS.Dir name []) q = None.
Proof. now destruct q. Qed.

Lemma file_at_below_file (name : string) (c : FS.content) (d : string)
    (q : FS.path) :
  file_at (FS.File name c) (d :: q) = None.
Proof. reflexivity. Qed.

Lemma child_set_child_eq (name : string) (n : FS.node)
    (children : list FS.node) :
  FS.node_name n = name -> FS.child name (set_child name n children) = Some n.
Proof.
  intros Hn. induction children as [|c cs IH]; simpl.
  - now rewrite Hn, String.eqb_refl.
  - destruct (String.eqb name (FS.node_name c)) eqn:Hc; simpl.
    + now rewrite Hn, String.eqb_refl.
    + now rewrite Hc.
Qed.

Lemma child_set_child_ne (e name : string) (n : FS.node)
    (children : list FS.node) :
  e <> name -> FS.node_name n = name ->
  FS.child e (set_child name n children) = FS.child e children.
Proof.
  intros Hne Hn. apply String.eqb_neq in Hne.
  induction children as [|c cs IH]; simpl.
  - now rewrite Hn, Hne.
  - destruct (String.eqb_spec name (FS.node_name c)) as [Hc|Hc]; simpl.
    + rewrite Hn, Hne. rewrite <- Hc. now rewrite Hne.
    + destruct (String.eqb e (FS.node_name c)); [reflexivity|exact IH].
Qed.

Lemma mkdir_name (p : FS.path) (n n' : FS.node) :
  mkdir p n = Ok n' -> FS.node_name n' = FS.node_name n.
Proof.
  destruct p as [|c p]; destruct n as [name content|name children]; simpl;
    try discriminate.
  - now intros [= <-].
  - destruct (mkdir p _); [|discriminate]. now intros [= <-].
Qed.

Lemma write_file_name (p : FS.path) (c : FS.content) (n n' : FS.node) :
  write_file p c n = Ok n' -> FS.node_name n' = FS.node_name n.
Proof.
  destruct p as [|d p]; destruct n as [name content|name children]; simpl;
    try discriminate.
  destruct p as [|d' p].
  - destruct (FS.child d children) as [[|]|]; try discriminate;
      now intros [= <-].
  - destruct (FS.child d children); [|discriminate].
    destruct (write_file (d' :: p) c n); [|discriminate]. now intros [= <-].
Qed.

(** [mkdir] creates and removes no file. *)
Lemma mkdir_keeps_files (p : FS.path) :
  forall n n', mkdir p n = Ok n' -> forall q, file_at n' q = file_at n q.
Proof.
  induction p as [|c p IH]; intros n n' Hm q.
  - destruct n; [discriminate|]. simpl in Hm. now injection Hm as <-.
  - destruct n as [name content|name children]; [discriminate|].
    simpl in Hm.
    destruct (mkdir p _) as [m'|ex] eqn:Hsub; [|discriminate].
    injection Hm as <-.
    assert (Hname : FS.node_name m' = c).
    { apply mkdir_name in Hsub. rewrite Hsub.
      destruct (FS.child c children) as [m|] eqn:Hc; [|reflexivity].
      now apply child_in in Hc. }
    destruct q as [|e q]; [reflexivity|].
    rewrite !file_at_cons.
    destruct (String.eqb_spec e c) as [->|Hne].
    + rewrite child_set_child_eq by assumption.
      rewrite (IH _ _ Hsub q).
      destruct (FS.child c children); [reflexivity|apply file_at_empty_dir].
    + now rewrite child_set_child_ne.
Qed.

(** [write_file] leaves every other file as it is. *)
Lemma write_file_keeps_others (c : FS.content) (p : FS.path) :
  forall n n',
    write_file p c n = Ok n' ->
    forall q, q <> p -> file_at n' q = file_at n q.
Proof.
  induction p as [|d p IH]; intros n n' Hw q Hq; [discriminate|].
  destruct n as [name content|name children]; [discriminate|].
  cbn [write_file] in Hw.
  destruct p as [|d' p].
  - assert (Hnew : n' = FS.Dir name (set_child d (FS.File d c) children)
                   /\ forall q', q' <> [] ->
                        match FS.child d children with
                        | Some m => file_at m q'
                        | None => None
                        end = None).
    { destruct (FS.child d children) as [[fname fc|dname dcs]|];
        try discriminate; injection Hw as <-; (split; [reflexivity|]);
        intros [|x q'] Hq'; congruence || reflexivity. }
    destruct Hnew as [-> Hold].
    destruct q as [|e q]; [reflexivity|].
    rewrite !file_at_cons.
    destruct (String.eqb_spec e d) as [->|Hne].
    + rewrite child_set_child_eq by reflexivity.
      assert (Hq' : q <> []) by congruence.
      rewrite (Hold q Hq'). destruct q; [congruence|reflexivity].
    + now rewrite child_set_child_ne.
  - destruct (FS.child d children) as [m|] eqn:Hc; [|discriminate].
    destruct (write_file (d' :: p) c m) as [m'|ex] eqn:Hsub; [|discriminate].
    injection Hw as <-.
    assert (Hname : FS.node_name m' = d).
    { apply write_file_name in Hsub. rewrite Hsub. now apply child_in in Hc. }
    destruct q as [|e q]; [reflexivity|].
    rewrite !file_at_cons.
    destruct (String.eqb_spec e d) as [->|Hne].
    + rewrite child_set_child_eq by assumption. rewrite Hc.
      apply (IH _ _ Hsub). congruence.
    + now rewrite child_set_child_ne.
Qed.



Lemma file_at_none (fs : FS.node) (q : FS.path) :
  FS.exists_ fs q = false -> file_at fs q = None.
Proof.
  unfold file_at, FS.exists_. destruct (FS.lookup q fs); congruence.
Qed.

(** Every file is still there, with its content. *)
Definition keeps_files (fs fs' : FS.node) : Prop :=
  forall q c, file_at fs q = Some c -> file_at fs' q = Some c.

Lemma keeps_files_refl (fs : FS.node) : keeps_files fs fs.
Proof. intros q c H. exact H. Qed.

Lemma keeps_files_trans (a b c : FS.node) :
  keeps_files a b -> keeps_files b c -> keeps_files a c.
Proof. intros Hab Hbc q x H. apply Hbc, Hab, H. Qed.

Section download_properties.

Variable json_of : string -> FS.content.
Variable self : ScriptResolver.

(** Where [download_to_user_space] writes. *)
Definition download_path (script_name category : string)
    (subcategory : option string) : FS.path :=
  match subcategory with
  | Some (String _ _ as sub) =>
      user_scripts self ++ [category; sub; py_file script_name]
  | _ => user_scripts self ++ [category; py_file script_name]
  end.

Lemma download_keeps_other_files (script_name category : string)
    (content : value) (subcategory : option string) (fs : FS.node) :
  forall q,
    q <> download_path script_name category subcategory ->
    file_at (fst (download_to_user_space json_of self script_name category
                    content subcategory fs)) q
    = file_at fs q.
Proof.
  intros q Hq. unfold download_to_user_space.
  change (match subcategory with
          | Some (String _ _ as sub) =>
              user_scripts self ++ [category; sub; py_file script_name]
          | _ => user_scripts self ++ [category; py_file script_name]
          end) with (download_path script_name category subcategory).
  set (p := download_path script_name category subcategory) in *.
  destruct (mkdir (parent p) fs) as [fs1|e] eqn:Hm; [|reflexivity].
  pose proof (mkdir_keeps_files _ _ _ Hm q) as H1.
  destruct content as [| | | |text| |];
    match goal with
    | |- context [write_file p ?c fs1] =>
        destruct (write_file p c fs1) as [fs2|ex] eqn:Hw;
        [cbn [fst]; rewrite (write_file_keeps_others _ _ _ _ Hw q Hq)|];
        exact H1
    end.
Qed.


End download_properties.

Definition never_json (text : string) : FS.content := FS.Malformed.


Section library_downloads.

Variable json_of : string -> FS.content.
Variable self : ScriptResolver.
Variable home : FS.path.
Variable registry_get_script : string -> result (option (dict value)).

(** The resolver's user space is the one under the home directory, the
    place [_download_lib_dependencies] looks at. *)
Hypothesis same_user_space :
  user_scripts self = home ++ [".script-kiwi"; "scripts"].

Lemma lib_file_is_download_path (lib_name : string) :
  download_path self lib_name "lib" None = lib_dir home ++ [py_file lib_name].
Proof.
  unfold download_path, lib_dir. rewrite same_user_space.
  now rewrite <- !app_assoc.
Qed.

Lemma download_libs_keeps_files (lib_names : list string) :
  forall fs,
    keeps_files fs
      (fst (download_libs json_of self home registry_get_script lib_names fs)).
Proof.
  induction lib_names as [|lib_name rest IH]; intros fs.
  - apply keeps_files_refl.
  - cbn [download_libs].
    destruct (FS.exists_ fs (lib_dir home ++ [py_file lib_name])) eqn:Hex;
      [apply IH|].
    destruct (registry_get_script lib_name) as [[[|kv d]|]|ex];
      try apply IH; try apply keeps_files_refl.
    destruct (truthy (get "content" (kv :: d))); [|apply IH].
    assert (Hkeep : keeps_files fs
              (fst (download_to_user_space json_of self lib_name "lib"
                      (get "content" (kv :: d)) None fs))).
    { intros q c Hq. rewrite download_keeps_other_files; [exact Hq|].
      intros ->. rewrite lib_file_is_download_path in Hq.
      rewrite (file_at_none _ _ Hex) in Hq. discriminate. }
    destruct (download_to_user_space json_of self lib_name "lib"
                (get "content" (kv :: d)) None fs) as [fs' [p|ex]].
    + eapply keeps_files_trans; [exact Hkeep|apply IH].
    + exact Hkeep.
Qed.

(** X21: when the resolver's user space is the one under the home
    directory, [_download_lib_dependencies] overwrites nothing: every file
    that was there before the call, a library the user has customised in
    particular, is there afterwards with the same content, whether the
    call returns or raises. *)
Theorem library_download_overwrites_nothing (lib_names : list string)
    (fs : FS.node) :
  keeps_files fs
    (fst (_download_lib_dependencies json_of self home registry_get_script
            lib_names fs)).
Proof.
  unfold _download_lib_dependencies.
  destruct (mkdir (lib_dir home) fs) as [fs1|ex] eqn:Hm;
    [|apply keeps_files_refl].
  assert (H1 : keeps_files fs fs1).
  { intros q c Hq. now rewrite (mkdir_keeps_files _ _ _ Hm q). }
  destruct (FS.exists_ fs1 (lib_dir home ++ ["__init__.py"])) eqn:Hinit;
    cbn [negb].
  - eapply keeps_files_trans; [exact H1|apply download_libs_keeps_files].
  - destruct (write_file (lib_dir home ++ ["__init__.py"]) _ fs1)
      as [fs2|ex] eqn:Hw; [|exact H1].
    eapply keeps_files_trans; [exact H1|].
    eapply keeps_files_trans; [|apply download_libs_keeps_files].
    intros q c Hq.
    rewrite (write_file_keeps_others _ _ _ _ Hw); [exact Hq|].
    intros ->. rewrite (file_at_none _ _ Hinit) in Hq. discriminate.
Qed.

End library_downloads.

Lemma library_download_overwrites_nothing_witness :
  user_scripts demo_resolver = ["home"] ++ [".script-kiwi"; "scripts"]
  /\ keeps_files demo_fs
       (fst (_download_lib_dependencies never_json demo_resolver ["home"]
               (fun name => Ok (Some [("content", VStr "import requests")]))
               ["http_session"; "retry"] demo_fs)).
Proof.
  split; [reflexivity|].
  exact (library_download_overwrites_nothing never_json demo_resolver ["home"]
           (fun name => Ok (Some [("content", VStr "import requests")]))
           eq_refl ["http_session"; "retry"] demo_fs).
Defined.

(** ** The lock around the creation of the environment *)

Lemma filter_out_fresh (fd : nat) (l : list nat) :
  ~ In fd l -> List.filter (fun d => negb (Nat.eqb d fd)) l = l.
Proof.
  induction l as [|x l IH]; intros Hfd; [reflexivity|].
  simpl. destruct (Nat.eqb_spec x fd) as [->|Hne].
  - exfalso. apply Hfd. now left.
  - simpl. rewrite IH; [reflexivity|]. intros Hin. apply Hfd. now right.
Qed.

Lemma filter_out_head (fd : nat) (l : list nat) :
  ~ In fd l -> List.filter (fun d => negb (Nat.eqb d fd)) (fd :: l) = l.
Proof.
  intros Hfd. simpl. rewrite Nat.eqb_refl. simpl. now apply filter_out_fresh.
Qed.

Section venv_lock.

Variable o : Venv.os.

Lemma create_touches_commands_only (st : Venv.state) :
  Venv.lock_file (fst (Venv.create o st)) = Venv.lock_file st
  /\ Venv.open_fds (fst (Venv.create o st)) = Venv.open_fds st
  /\ Venv.locked (fst (Venv.create o st)) = Venv.locked st
  /\ exists cmds,
       Venv.commands (fst (Venv.create o st)) = Venv.commands st ++ cmds
       /\ (cmds = [] \/ cmds = [Venv.CreateVenv]
           \/ cmds = [Venv.CreateVenv; Venv.UpgradePip])
       /\ (cmds <> [] -> Venv.ready_second o = false).
Proof.
  unfold Venv.create.
  destruct (Venv.ready_second o).
  { repeat split. exists []. rewrite app_nil_r. split; [reflexivity|].
    split; [now left|congruence]. }
  destruct (Venv.make_venv_parent o) as [[]|ex].
  2:{ repeat split. exists []. rewrite app_nil_r. split; [reflexivity|].
      split; [now left|congruence]. }
  destruct (Venv.create_venv o) as [[returncode output]|ex].
  2:{ repeat split. exists [Venv.CreateVenv]. split; [reflexivity|].
      split; [right; now left|reflexivity]. }
  destruct (returncode =? 0); cbn [negb].
  - destruct (Venv.upgrade_pip o);
      (repeat split; exists [Venv.CreateVenv; Venv.UpgradePip];
       split; [cbn; now rewrite <- app_assoc|];
       split; [right; now right|reflexivity]).
  - repeat split. exists [Venv.CreateVenv]. split; [reflexivity|].
    split; [right; now left|reflexivity].
Qed.

(** X22: [ensure_venv] leaves no lock behind.  When [os.close] does not
    fail, [self._lock_file] is [None] again after the call on every path -
    the environment was there, the lock was taken or busy, the creation
    succeeded, failed or raised; when dropping the lock does not fail
    either, the descriptors that are open and those that hold the lock are
    the ones from before the call.  The environment is created at most
    once, and only when it was missing at both looks. *)
Theorem ensure_venv_leaves_no_lock (st : Venv.state) :
  Venv.lock_file st = None ->
  Venv.close_ok o = true ->
  (forall fd, Venv.os_open o = Some fd ->
              ~ In fd (Venv.open_fds st) /\ ~ In fd (Venv.locked st)) ->
  Venv.lock_file (fst (Venv.ensure_venv o st)) = None
  /\ (Venv.unlock_ok o = true ->
      Venv.open_fds (fst (Venv.ensure_venv o st)) = Venv.open_fds st
      /\ Venv.locked (fst (Venv.ensure_venv o st)) = Venv.locked st)
  /\ exists cmds,
       Venv.commands (fst (Venv.ensure_venv o st)) = Venv.commands st ++ cmds
       /\ (cmds = [] \/ cmds = [Venv.CreateVenv]
           \/ cmds = [Venv.CreateVenv; Venv.UpgradePip])
       /\ (cmds <> [] ->
           Venv.ready_first o = false /\ Venv.ready_second o = false).
Proof.
  intros Hnone Hclose Hfresh.
  assert (Hidle : exists cmds,
            Venv.commands st = Venv.commands st ++ cmds
            /\ (cmds = [] \/ cmds = [Venv.CreateVenv]
                \/ cmds = [Venv.CreateVenv; Venv.UpgradePip])
            /\ (cmds <> [] ->
                Venv.ready_first o = false /\ Venv.ready_second o = false)).
  { exists []. rewrite app_nil_r. split; [reflexivity|].
    split; [now left|congruence]. }
  unfold Venv.ensure_venv.
  destruct (Venv.ready_first o) eqn:Hfirst.
  { split; [exact Hnone|]. split; [now split|exact Hidle]. }
  unfold Venv._acquire_lock.
  destruct (Venv.make_lock_dir o) as [[]|ex].
  2:{ split; [exact Hnone|]. split; [now split|exact Hidle]. }
  destruct (Venv.os_open o) as [fd|] eqn:Hopen.
  - destruct (Hfresh fd eq_refl) as [Hfd_open Hfd_locked].
    destruct (Venv.flock_ok o).
    + (* the lock is taken, then dropped in the finally clause *)
      match goal with
      | |- context [Venv.create o ?s] =>
          destruct (create_touches_commands_only s)
            as (Hl & Ho & Hk & cmds & Hc & Hshape & Hwhy);
          destruct (Venv.create o s) as [st2 outcome]
      end.
      cbn [fst snd Venv.lock_file Venv.open_fds Venv.locked Venv.commands] in *.
      unfold Venv._release_lock. rewrite Hl.
      unfold Venv.close. rewrite Hclose.
      destruct (Venv.unlock_ok o);
        cbn [fst snd Venv.lock_file Venv.open_fds Venv.locked Venv.commands].
      * split; [reflexivity|]. split.
        -- intros _. rewrite Ho, Hk.
           rewrite filter_out_head by assumption.
           rewrite filter_out_head by assumption.
           rewrite filter_out_fresh by assumption. now split.
        -- exists cmds. split; [exact Hc|]. split; [exact Hshape|].
           intros Hcmds. split; [reflexivity|now apply Hwhy].
      * split; [reflexivity|]. split; [discriminate|].
        exists cmds. split; [exact Hc|]. split; [exact Hshape|].
        intros Hcmds. split; [reflexivity|now apply Hwhy].
    + (* the lock is busy: the descriptor is closed at once *)
      cbn [Venv.lock_file]. unfold Venv.close. rewrite Hclose.
      cbn [fst snd Venv.lock_file Venv.open_fds Venv.locked Venv.commands].
      match goal with
      | |- context [Venv.create o ?s] =>
          destruct (create_touches_commands_only s)
            as (Hl & Ho & Hk & cmds & Hc & Hshape & Hwhy);
          destruct (Venv.create o s) as [st2 outcome]
      end.
      cbn [fst snd Venv.lock_file Venv.open_fds Venv.locked Venv.commands] in *.
      split; [exact Hl|]. split.
      * intros _. rewrite Ho, Hk.
        rewrite filter_out_head by assumption.
        rewrite filter_out_fresh by assumption. now split.
      * exists cmds. split; [exact Hc|]. split; [exact Hshape|].
        intros Hcmds. split; [reflexivity|now apply Hwhy].
  - (* the lock file cannot be opened *)
    rewrite Hnone.
    destruct (create_touches_commands_only st)
      as (Hl & Ho & Hk & cmds & Hc & Hshape & Hwhy).
    destruct (Venv.create o st) as [st2 outcome].
    cbn [fst snd] in *.
    split; [now rewrite Hl|]. split; [now split|].
    exists cmds. split; [exact Hc|]. split; [exact Hshape|].
    intros Hcmds. split; [reflexivity|now apply Hwhy].
Qed.

End venv_lock.

Definition busy_os : Venv.os :=
  {| Venv.ready_first := false;
     Venv.ready_second := false;
     Venv.make_lock_dir := Ok tt;
     Venv.os_open := Some 7%nat;
     Venv.flock_ok := true;
     Venv.unlock_ok := true;
     Venv.close_ok := true;
     Venv.make_venv_parent := Ok tt;
     Venv.create_venv := Ok (1, "Error: ensurepip is not available");
     Venv.upgrade_pip := Ok 0 |}.

Definition idle : Venv.state :=
  Venv.State None [0%nat; 1%nat; 2%nat] [] [].

Lemma ensure_venv_leaves_no_lock_witness :
  Venv.lock_file (fst (Venv.ensure_venv busy_os idle)) = None
  /\ (Venv.unlock_ok busy_os = true ->
      Venv.open_fds (fst (Venv.ensure_venv busy_os idle)) = Venv.open_fds idle
      /\ Venv.locked (fst (Venv.ensure_venv busy_os idle)) = Venv.locked idle)
  /\ exists cmds,
       Venv.commands (fst (Venv.ensure_venv busy_os idle))
       = Venv.commands idle ++ cmds
       /\ (cmds = [] \/ cmds = [Venv.CreateVenv]
           \/ cmds = [Venv.CreateVenv; Venv.UpgradePip])
       /\ (cmds <> [] ->
           Venv.ready_first busy_os = false
           /\ Venv.ready_second busy_os = false).
Proof.
  apply (ensure_venv_leaves_no_lock busy_os idle); [reflexivity|reflexivity|].
  intros fd [= <-]. split; simpl; intuition discriminate.
Defined.

(** ** Preflight as the run tool calls it *)

Section preflight_properties.

Variable getenv : string -> option string.
Variable py_str : value -> string.
Variable validation_errors : dict value -> list value -> list string.
Variable eval_cost : string -> dict value -> result value.
Variable eval_seconds : string -> dict value -> result Z.
Variable gt : value -> value -> bool.

(** X23: called without validation rules and without cost thresholds, as
    [execute] calls it, [run_preflight] passes exactly when every required
    credential is set to a non-empty value: the cost and time estimates,
    whatever they evaluate to and even when their evaluation fails, never
    block and never warn, and the only blocker there can be names the
    credentials that are missing, in the order they are required. *)
Theorem preflight_blocks_on_credentials_only (inputs : dict value)
    (required_credentials : list string)
    (cost_formula time_formula : option string) :
  let validation :=
    run_preflight getenv py_str validation_errors eval_cost eval_seconds gt
      inputs required_credentials [] cost_formula VNone VNone time_formula in
  get "pass" validation = VBool (forallb (is_set getenv) required_credentials)
  /\ get "warnings" validation = VList []
  /\ get "blockers" validation
     = VList (if forallb (is_set getenv) required_credentials then []
              else [VStr ("Missing credentials: "
                          +:+ py_str
                                (VList (map VStr
                                   (List.filter
                                      (fun k => negb (is_set getenv k))
                                      required_credentials))))]).
Proof.
  cbv zeta. unfold run_preflight.
  set (missing := List.filter (fun k => negb (is_set getenv k))
                              required_credentials).
  assert (Hall : forallb (is_set getenv) required_credentials
                 = match missing with [] => true | _ => false end).
  { unfold missing. clear.
    induction required_credentials as [|k ks IH]; [reflexivity|].
    cbn [forallb List.filter]. destruct (is_set getenv k); cbn [negb andb].
    - exact IH.
    - reflexivity. }
  rewrite Hall.
  assert (Hcreds : required_credentials = [] -> missing = [])
    by (intros ->; reflexivity).
  unfold check_credentials. fold missing.
  destruct required_credentials as [|k ks].
  - rewrite (Hcreds eq_refl).
    destruct cost_formula as [[|a f]|]; destruct time_formula as [[|b g]|];
      cbn [truthy andb];
      repeat match goal with
             | |- context [dict_mem ?k ?d] => destruct (dict_mem k d)
             end;
      repeat split; reflexivity.
  - clear Hcreds Hall. clearbody missing.
    destruct missing as [|m ms];
      destruct cost_formula as [[|a f]|]; destruct time_formula as [[|b g]|];
      cbn [truthy andb];
      repeat match goal with
             | |- context [dict_mem ?k ?d] => destruct (dict_mem k d)
             end;
      repeat split; reflexivity.
Qed.

End preflight_properties.

(** ** The automatic download *)






Section automatic_download.

Variable json_of : string -> FS.content.
Variable py_str : value -> string.
Variable self : ScriptResolver.
Variable home : FS.path.
Variable registry_get_script : string -> result (option (dict value)).





End automatic_download.




(** ** What is made of the output of an argparse script *)

Section argparse_output_properties.

Variable json_loads : string -> option value.
Variable json_error : string -> string.
Variable no_module_named : string -> option string.

(** A response with status "success" and no truncation warnings. *)
Definition plain (d : dict value) : Prop :=
  dict_get "status" d = Some (VStr "success")
  /\ dict_get "truncation_warnings" d = None.

Lemma plain_set (k : string) (v : value) (d : dict value) :
  String.eqb "status" k = false ->
  String.eqb "truncation_warnings" k = false ->
  plain d -> plain (dict_set k v d).
Proof.
  intros Hs Ht [Hstatus Hnone]. split; now rewrite dict_get_set_other.
Qed.

Lemma plain_with_logs (stderr_output : string) (json_source : option string)
    (d : dict value) :
  plain d -> plain (with_logs stderr_output json_source d).
Proof.
  intros Hd. unfold with_logs.
  destruct (negb (String.eqb stderr_output "") && _); [|exact Hd].
  destruct (len (split_lines stderr_output) >? MAX_LOG_LINES);
    repeat (apply plain_set; [reflexivity|reflexivity|]); exact Hd.
Qed.

Lemma plain_with_stderr (stderr_output : string) (d d' : dict value) :
  with_stderr stderr_output d = Ok d' -> plain d -> plain d'.
Proof.
  unfold with_stderr. destruct (String.eqb stderr_output "").
  { now intros [= <-]. }
  intros Hw Hd.
  set (d1 := if negb (dict_mem "logs" d) then _ else d) in Hw.
  assert (H1 : plain d1).
  { unfold d1. destruct (negb (dict_mem "logs" d)); [|exact Hd].
    now apply plain_set. }
  clearbody d1.
  set (d2 := if negb (truthy (get "data" d1)) then _ else d1) in Hw.
  assert (H2 : plain d2).
  { unfold d2. destruct (negb (truthy (get "data" d1))); [|exact H1].
    now apply plain_set. }
  clearbody d2.
  destruct (get "data" d2); try discriminate.
  injection Hw as <-. now apply plain_set.
Qed.

Lemma plain_with_top_level_data (output : string) (d : dict value) :
  plain d -> plain (with_top_level_data json_loads output d).
Proof.
  intros Hd. unfold with_top_level_data.
  destruct (_ && _ && _); [|exact Hd].
  destruct (json_loads output) as [[| | | | | |parsed]|]; try exact Hd.
  set (d1 := match first_field _ parsed with Some _ => _ | None => d end).
  assert (H1 : plain d1).
  { unfold d1. destruct (first_field _ parsed); [|exact Hd].
    now apply plain_set. }
  clearbody d1.
  destruct (_ && _); [now apply plain_set|exact H1].
Qed.

Lemma plain_with_stdout (output : string) (d : dict value) :
  plain d -> plain (with_stdout json_loads output d).
Proof.
  intros Hd. unfold with_stdout.
  destruct (_ && _); [now apply plain_set|exact Hd].
Qed.

(** JSON found on stdout is used unless it is falsy. *)
Lemma find_json_keeps_stdout (output stderr_output : string) (v : value) :
  String.eqb output "" = false ->
  json_loads output = Some v ->
  truthy v = true ->
  find_json json_loads output stderr_output = (Some v, Some "stdout").
Proof.
  intros Hout Hv Ht. unfold find_json. rewrite Hout, Hv.
  cbn [negb fst found]. now rewrite Ht.
Qed.

Lemma unused_stdout_is_falsy (output stderr_output : string) (v : value) :
  String.eqb output "" = false ->
  json_loads output = Some v ->
  found (fst (find_json json_loads output stderr_output)) = false ->
  truthy v = false.
Proof.
  intros Hout Hv Hfound.
  destruct (truthy v) eqn:Ht; [|reflexivity].
  rewrite (find_json_keeps_stdout _ _ _ Hout Hv Ht) in Hfound.
  cbn [fst found] in Hfound. congruence.
Qed.

Lemma plain_with_parsed (output stderr_output : string) (d d' : dict value) :
  with_parsed json_loads json_error output stderr_output
    (fst (find_json json_loads output stderr_output)) d = Ok d' ->
  plain d -> plain d'.
Proof.
  unfold with_parsed.
  destruct (found (fst (find_json json_loads output stderr_output)))
    eqn:Hfound.
  { now intros [= <-]. }
  destruct (String.eqb output "") eqn:Hout; cbn [negb].
  { now intros [= <-]. }
  destruct (json_loads output) as [v|] eqn:Hv.
  - pose proof (unused_stdout_is_falsy _ _ _ Hout Hv Hfound) as Hfalsy.
    destruct v as [| | | | | |parsed];
      try (intros [= <-] Hd; now apply plain_set).
    destruct parsed as [|kv parsed]; [|discriminate Hfalsy].
    cbn [dict_mem dict_get]. intros [= <-] Hd. now apply plain_set.
  - intros [= <-] Hd. now apply plain_set.
Qed.

(** X25: whatever an argparse script prints and however it ends, the
    response of [_run_argparse_script] has the status "success" or
    "error" - a status of its own that the script reports, other than
    "error", is not passed on - and it carries no truncation warnings:
    the branch that copies the script's status and truncates its data
    needs JSON on stdout that is a dict with a [status] key and yet falsy,
    which does not exist. *)
Theorem argparse_status_is_success_or_error (r : subprocess_result) :
  exists d,
    argparse_response json_loads json_error no_module_named r = VDict d
    /\ (dict_get "status" d = Some (VStr "success")
        \/ dict_get "status" d = Some (VStr "error"))
    /\ dict_mem "truncation_warnings" d = false.
Proof.
  assert (Hfailed : forall error,
            exists d, failed_run error = VDict d
                      /\ (dict_get "status" d = Some (VStr "success")
                          \/ dict_get "status" d = Some (VStr "error"))
                      /\ dict_mem "truncation_warnings" d = false).
  { intros error. eexists. split; [reflexivity|]. split; [now right|reflexivity]. }
  destruct r as [returncode output stderr_output| |e]; cbn [argparse_response].
  2:{ eexists. split; [reflexivity|]. split; [now right|reflexivity]. }
  2:{ apply Hfailed. }
  pose proof (plain_with_parsed output stderr_output) as Hparsed.
  destruct (find_json json_loads output stderr_output)
    as [json_output json_source].
  cbn [fst] in Hparsed.
  destruct (if found json_output then _ else None) as [response|] eqn:Herr.
  { destruct (found json_output); [|discriminate].
    destruct json_output as [[| | | | | |d]|]; try discriminate.
    destruct (is_str "error" (get "status" d)); [|discriminate].
    injection Herr as <-.
    eexists. split; [reflexivity|]. split; [now right|reflexivity]. }
  clear Herr.
  destruct (negb (returncode =? 0) && negb (found json_output)).
  { destruct (_ || _ || _); [|apply Hfailed].
    eexists. split; [reflexivity|]. split; [now right|reflexivity]. }
  set (d0 := [("status", VStr "success"); ("data", VDict []);
              ("metadata", no_metadata)]).
  assert (H0 : plain d0) by (split; reflexivity).
  apply (plain_with_logs stderr_output json_source) in H0.
  destruct (with_parsed json_loads json_error output stderr_output json_output
              (with_logs stderr_output json_source d0))
    as [d1|ex] eqn:H1; [|apply Hfailed].
  apply (Hparsed _ _ H1) in H0.
  destruct (with_stderr stderr_output d1) as [d2|ex] eqn:H2; [|apply Hfailed].
  apply (plain_with_stderr _ _ _ H2) in H0.
  apply (plain_with_top_level_data output) in H0.
  apply (plain_with_stdout output) in H0.
  destruct H0 as [Hstatus Hnone].
  eexists. split; [reflexivity|]. split; [now left|].
  unfold dict_mem. now rewrite Hnone.
Qed.

Lemma get_set_other (k k' : string) (v : value) (d : dict value) :
  String.eqb k k' = false -> get k (dict_set k' v d) = get k d.
Proof.
  intros Hne. unfold get, get_default. now rewrite dict_get_set_other.
Qed.

Lemma get_set_same (k : string) (v : value) (d : dict value) :
  get k (dict_set k v d) = v.
Proof. unfold get, get_default. now rewrite dict_get_set_same. Qed.

Lemma get_data_with_logs (stderr_output : string) (json_source : option string)
    (d : dict value) :
  get "data" (with_logs stderr_output json_source d) = get "data" d.
Proof.
  unfold with_logs.
  destruct (negb (String.eqb stderr_output "") && _); [|reflexivity].
  destruct (len (split_lines stderr_output) >? MAX_LOG_LINES);
    now rewrite !get_set_other.
Qed.

(** Stdout holds a JSON value that is used and is not an error report. *)
Definition reports_result (output : string) (v : value) : Prop :=
  String.eqb output "" = false
  /\ json_loads output = Some v
  /\ truthy v = true
  /\ forall d, v = VDict d -> is_str "error" (get "status" d) = false.

Lemma reported_result_is_not_an_error (returncode : Z)
    (output stderr_output : string) (v : value) :
  reports_result output v ->
  argparse_response json_loads json_error no_module_named
    (Exited returncode output stderr_output)
  = match with_stderr stderr_output
            (with_logs stderr_output (Some "stdout")
               [("status", VStr "success"); ("data", VDict []);
                ("metadata", no_metadata)]) with
    | Raise e => failed_run (exn_msg e)
    | Ok response =>
        VDict (with_stdout json_loads output
                 (with_top_level_data json_loads output response))
    end.
Proof.
  intros (Hout & Hv & Ht & Hok). cbn [argparse_response].
  rewrite (find_json_keeps_stdout _ stderr_output _ Hout Hv Ht).
  cbn [found]. rewrite Ht.
  assert (Hnot : match v with
                 | VDict d =>
                     if is_str "error" (get "status" d)
                     then Some (structured_error d) else None
                 | _ => None
                 end = None).
  { destruct v as [| | | | | |d]; try reflexivity.
    now rewrite (Hok d eq_refl). }
  rewrite Hnot. cbn [negb]. rewrite andb_false_r.
  unfold with_parsed. cbn [found]. rewrite Ht. reflexivity.
Qed.

(** X26: when an argparse script writes anything to stderr, the result it
    prints on stdout does not reach the response: with JSON on stdout that
    is used and is not an error report, and a stderr that is not empty,
    the response has status "success" and its data is only the first 500
    characters of stderr. *)
Theorem stderr_shadows_the_result (returncode : Z)
    (output stderr_output : string) (v : value) :
  reports_result output v ->
  String.eqb stderr_output "" = false ->
  exists d,
    argparse_response json_loads json_error no_module_named
      (Exited returncode output stderr_output) = VDict d
    /\ get "status" d = VStr "success"
    /\ get "data" d
       = VDict [("_stderr", VStr (str_slice_to 500 stderr_output))].
Proof.
  intros Hres Herr.
  rewrite (reported_result_is_not_an_error returncode output stderr_output v
             Hres).
  set (d0 := [("status", VStr "success"); ("data", VDict []);
              ("metadata", no_metadata)]).
  set (d1 := with_logs stderr_output (Some "stdout") d0).
  assert (Hplain : plain d1) by (apply plain_with_logs; split; reflexivity).
  assert (Hdata : get "data" d1 = VDict [])
    by (unfold d1; now rewrite get_data_with_logs).
  clearbody d1.
  unfold with_stderr. rewrite Herr.
  set (d2 := if negb (dict_mem "logs" d1) then _ else d1).
  assert (Hplain2 : plain d2 /\ get "data" d2 = VDict []).
  { unfold d2. destruct (negb (dict_mem "logs" d1)); [|now split].
    split; [now apply plain_set|]. now rewrite get_set_other. }
  clearbody d2. destruct Hplain2 as [Hplain2 Hdata2].
  rewrite Hdata2. cbn [truthy negb]. rewrite get_set_same.
  set (d3 := dict_set "data" (VDict (dict_set "_stderr" _ [])) _).
  assert (H3 : plain d3 /\ get "data" d3
               = VDict [("_stderr", VStr (str_slice_to 500 stderr_output))]).
  { unfold d3. split.
    - apply plain_set; [reflexivity|reflexivity|].
      now apply plain_set.
    - now rewrite get_set_same. }
  clearbody d3. destruct H3 as [Hplain3 Hdata3].
  eexists. split; [reflexivity|].
  assert (Htop : with_top_level_data json_loads output d3 = d3).
  { unfold with_top_level_data. rewrite Hdata3. cbn [truthy negb].
    now rewrite andb_false_r. }
  rewrite Htop.
  assert (Hstdout : with_stdout json_loads output d3 = d3).
  { unfold with_stdout. rewrite Hdata3. reflexivity. }
  rewrite Hstdout.
  split; [|exact Hdata3].
  destruct Hplain3 as [Hstatus _]. unfold get, get_default. now rewrite Hstatus.
Qed.

(** The data taken from a dict that the script printed. *)
Definition top_level_data (parsed : dict value) : value :=
  match first_field ["businesses"; "items"; "results"; "data"] parsed with
  | Some field => VDict [(field, get field parsed)]
  | None => VDict parsed
  end.

(** X27: when an argparse script prints a JSON object (not empty, not an
    error report) on stdout and nothing on stderr, the response has status
    "success", whatever status the object gives, and its data is the
    first of the fields businesses, items, results and data that the
    object has with a truthy value, alone, or the whole object when it has
    none of them. *)
Theorem quiet_script_returns_its_data (returncode : Z) (output : string)
    (parsed : dict value) :
  reports_result output (VDict parsed) ->
  exists d,
    argparse_response json_loads json_error no_module_named
      (Exited returncode output "") = VDict d
    /\ get "status" d = VStr "success"
    /\ get "data" d = top_level_data parsed.
Proof.
  intros Hres.
  rewrite (reported_result_is_not_an_error returncode output "" _ Hres).
  destruct Hres as (Hout & Hv & Ht & _).
  cbn [with_logs with_stderr String.eqb negb andb].
  unfold with_top_level_data. cbn [get get_default dict_get String.eqb
                                   Ascii.eqb Bool.eqb is_str truthy negb andb].
  rewrite Hout, Hv. cbn [negb].
  unfold top_level_data.
  destruct parsed as [|kv parsed]; [discriminate Ht|].
  destruct (first_field _ (kv :: parsed)) as [field|].
  - eexists. split; [reflexivity|]. split; reflexivity.
  - eexists. split; [reflexivity|]. split; reflexivity.
Qed.

End argparse_output_properties.

(** A parser that knows one text, the JSON object
    [{status: partial, items: [1, 2], note: ...}]. *)
Definition partial_result : dict value :=
  [("status", VStr "partial");
   ("items", VList [VInt 1; VInt 2]);
   ("note", VStr "2 of 5 pages")].

Definition demo_json_loads (text : string) : option value :=
  if String.eqb text "<the object, serialized>" then Some (VDict partial_result)
  else None.

Lemma demo_reports_result :
  reports_result demo_json_loads "<the object, serialized>"
                 (VDict partial_result).
Proof.
  split; [reflexivity|]. split; [reflexivity|]. split; [reflexivity|].
  intros d [= <-]. reflexivity.
Defined.

Lemma stderr_shadows_the_result_witness :
  exists d,
    argparse_response demo_json_loads (fun _ => "Expecting value")
      (fun _ => None)
      (Exited 0 "<the object, serialized>" "INFO fetching page 1") = VDict d
    /\ get "status" d = VStr "success"
    /\ get "data" d
       = VDict [("_stderr", VStr (str_slice_to 500 "INFO fetching page 1"))].
Proof.
  exact (stderr_shadows_the_result demo_json_loads (fun _ => "Expecting value")
           (fun _ => None) 0 "<the object, serialized>" "INFO fetching page 1"
           (VDict partial_result) demo_reports_result eq_refl).
Defined.

Lemma quiet_script_returns_its_data_witness :
  exists d,
    argparse_response demo_json_loads (fun _ => "Expecting value")
      (fun _ => None) (Exited 0 "<the object, serialized>" "") = VDict d
    /\ get "status" d = VStr "success"
    /\ get "data" d = top_level_data partial_result.
Proof.
  exact (quiet_script_returns_its_data demo_json_loads
           (fun _ => "Expecting value") (fun _ => None) 0
           "<the object, serialized>" partial_result demo_reports_result).
Defined.

(** ** The log lines of an argparse script *)

Section argparse_logs.

Variable json_loads : string -> option value.
Variable json_error : string -> string.
Variable no_module_named : string -> option string.

(** The step leaves the [logs] entry as it is. *)
Definition keeps_logs (d d' : dict value) : Prop :=
  dict_get "logs" d' = dict_get "logs" d.

Lemma keeps_logs_set (k : string) (v : value) (d : dict value) :
  String.eqb "logs" k = false -> keeps_logs d (dict_set k v d).
Proof. intros Hk. unfold keeps_logs. now rewrite dict_get_set_other. Qed.

Lemma keeps_logs_trans (a b c : dict value) :
  keeps_logs a b -> keeps_logs b c -> keeps_logs a c.
Proof. unfold keeps_logs. congruence. Qed.

Lemma keeps_logs_update_metadata (source d : dict value) :
  keeps_logs d (update_metadata source d).
Proof.
  unfold update_metadata.
  destruct (dict_get "metadata" d) as [[| | | | | |m]|]; try reflexivity.
  now apply keeps_logs_set.
Qed.

Lemma with_parsed_keeps_logs (output stderr_output : string)
    (json_output : option value) (d d' : dict value) :
  with_parsed json_loads json_error output stderr_output json_output d = Ok d' ->
  keeps_logs d d'.
Proof.
  unfold with_parsed.
  destruct (found json_output); [now intros [= <-]|].
  destruct (negb (String.eqb output "")); [|now intros [= <-]].
  destruct (json_loads output) as [v|].
  2:{ intros [= <-]. now apply keeps_logs_set. }
  destruct v as [| | | | | |parsed];
    try (intros [= <-]; now apply keeps_logs_set).
  destruct (dict_mem "status" parsed);
    [|intros [= <-]; now apply keeps_logs_set].
  destruct (truncate_large_response _ _ _ _) as [truncated_data info].
  set (d1 := match info with [] => _ | _ => _ end).
  assert (H1 : keeps_logs d d1).
  { unfold d1.
    assert (Hdata : keeps_logs d
              (dict_set "data" truncated_data
                 (dict_set "status"
                    (get_default "status" (VStr "success") parsed) d))).
    { eapply keeps_logs_trans; now apply keeps_logs_set. }
    destruct info; [exact Hdata|].
    eapply keeps_logs_trans; [exact Hdata|now apply keeps_logs_set]. }
  clearbody d1.
  destruct (counted "businesses" _); [|discriminate].
  destruct (counted "items" _); [|discriminate].
  destruct (truthy (get_default "metadata" (VDict []) parsed)).
  - destruct (get_default "metadata" (VDict []) parsed); try discriminate.
    intros [= <-].
    eapply keeps_logs_trans; [exact H1|apply keeps_logs_update_metadata].
  - destruct (_ || _); intros [= <-]; [|exact H1].
    eapply keeps_logs_trans; [exact H1|apply keeps_logs_update_metadata].
Qed.

Lemma with_top_level_data_keeps_logs (output : string) (d : dict value) :
  keeps_logs d (with_top_level_data json_loads output d).
Proof.
  unfold with_top_level_data.
  destruct (_ && _ && _); [|reflexivity].
  destruct (json_loads output) as [[| | | | | |parsed]|]; try reflexivity.
  set (d1 := match first_field _ parsed with Some _ => _ | None => d end).
  assert (H1 : keeps_logs d d1).
  { unfold d1. destruct (first_field _ parsed); [|reflexivity].
    now apply keeps_logs_set. }
  clearbody d1.
  destruct (_ && _); [|exact H1].
  eapply keeps_logs_trans; [exact H1|now apply keeps_logs_set].
Qed.

Lemma with_stdout_keeps_logs (output : string) (d : dict value) :
  keeps_logs d (with_stdout json_loads output d).
Proof.
  unfold with_stdout. destruct (_ && _); [|reflexivity].
  now apply keeps_logs_set.
Qed.

(** The [logs] entry, if there is one, is a list within the cap. *)
Definition capped (d : dict value) : Prop :=
  forall v, dict_get "logs" d = Some v ->
            exists lines, v = VList lines /\ len lines <= MAX_LOG_LINES.

Lemma capped_by (d d' : dict value) : keeps_logs d d' -> capped d -> capped d'.
Proof. intros Hk Hd v Hv. apply Hd. now rewrite <- Hk. Qed.

Lemma with_logs_capped (stderr_output : string) (json_source : option string)
    (d : dict value) :
  dict_get "logs" d = None ->
  capped (with_logs stderr_output json_source d)
  /\ (String.eqb stderr_output "" = false ->
      json_source <> Some "stderr" ->
      dict_mem "logs" (with_logs stderr_output json_source d) = true).
Proof.
  intros Hnone. unfold with_logs.
  assert (Hd : capped d) by (intros v Hv; congruence).
  destruct (String.eqb stderr_output "") eqn:Herr; cbn [negb andb].
  { split; [exact Hd|discriminate]. }
  assert (Hsource : json_source <> Some "stderr" ->
                    match json_source with
                    | Some source => String.eqb source "stderr"
                    | None => false
                    end = false).
  { destruct json_source as [source|]; [|reflexivity].
    intros Hne. apply String.eqb_neq. congruence. }
  destruct (match json_source with
            | Some source => String.eqb source "stderr"
            | None => false
            end) eqn:Hs; cbn [negb].
  { split; [exact Hd|]. intros _ Hne. apply Hsource in Hne. congruence. }
  destruct (len (split_lines stderr_output) >? MAX_LOG_LINES) eqn:Hlen.
  - split.
    + apply (capped_by (dict_set "logs"
                          (VList (map VStr (slice_to MAX_LOG_LINES
                                              (split_lines stderr_output)))) d)).
      { now apply keeps_logs_set. }
      intros v Hv. rewrite dict_get_set_same in Hv. injection Hv as <-.
      eexists. split; [reflexivity|].
      unfold len, slice_to. rewrite length_map. cbn [Z.ltb MAX_LOG_LINES].
      unfold MAX_LOG_LINES.
      pose proof (firstn_le_length (Z.to_nat 500)
                    (split_lines stderr_output)) as Hle.
      pose proof (length_firstn (Z.to_nat 500) (split_lines stderr_output))
        as Hfirst.
      change (500 <? 0) with false. cbn iota. lia.
    + intros _ _. apply dict_mem_set. apply dict_mem_set_same.
  - split.
    + intros v Hv. rewrite dict_get_set_same in Hv. injection Hv as <-.
      eexists. split; [reflexivity|].
      unfold len in *. rewrite length_map. lia.
    + intros _ _. apply dict_mem_set_same.
Qed.

Lemma with_stderr_capped (stderr_output : string) (d d' : dict value) :
  with_stderr stderr_output d = Ok d' ->
  (String.eqb stderr_output "" = false -> dict_mem "logs" d = true) ->
  capped d -> capped d'.
Proof.
  unfold with_stderr. destruct (String.eqb stderr_output "").
  { now intros [= <-]. }
  intros Hw Hlogs Hd. rewrite (Hlogs eq_refl) in Hw. cbn [negb] in Hw.
  set (d2 := if negb (truthy (get "data" d)) then _ else d) in Hw.
  assert (H2 : keeps_logs d d2).
  { unfold d2. destruct (negb (truthy (get "data" d))); [|reflexivity].
    now apply keeps_logs_set. }
  clearbody d2.
  destruct (get "data" d2); try discriminate.
  injection Hw as <-.
  eapply capped_by; [|exact Hd].
  eapply keeps_logs_trans; [exact H2|now apply keeps_logs_set].
Qed.

(** X28: unless the JSON was read from stderr, the log lines in the
    response of [_run_argparse_script] are within the cap: a [logs] entry,
    when there is one, is a list of at most [MAX_LOG_LINES] lines. *)
Theorem argparse_logs_are_capped (returncode : Z)
    (output stderr_output : string) (d : dict value) :
  snd (find_json json_loads output stderr_output) <> Some "stderr" ->
  argparse_response json_loads json_error no_module_named
    (Exited returncode output stderr_output) = VDict d ->
  capped d.
Proof.
  intros Hsource. cbn [argparse_response].
  assert (Hfailed : forall error, failed_run error = VDict d -> capped d).
  { intros error [= <-] v Hv. discriminate Hv. }
  destruct (find_json json_loads output stderr_output)
    as [json_output json_source].
  cbn [snd] in Hsource.
  destruct (if found json_output then _ else None) as [response|] eqn:Herr.
  { destruct (found json_output); [|discriminate].
    destruct json_output as [[| | | | | |e]|]; try discriminate.
    destruct (is_str "error" (get "status" e)); [|discriminate].
    injection Herr as <-. intros [= <-] v Hv. discriminate Hv. }
  clear Herr.
  destruct (negb (returncode =? 0) && negb (found json_output)).
  { destruct (_ || _ || _); [|apply Hfailed].
    intros [= <-] v Hv. discriminate Hv. }
  set (d0 := [("status", VStr "success"); ("data", VDict []);
              ("metadata", no_metadata)]).
  destruct (with_logs_capped stderr_output json_source d0 eq_refl)
    as [Hcap Hthere].
  destruct (with_parsed json_loads json_error output stderr_output json_output
              (with_logs stderr_output json_source d0))
    as [d1|ex] eqn:H1; [|apply Hfailed].
  apply with_parsed_keeps_logs in H1.
  destruct (with_stderr stderr_output d1) as [d2|ex] eqn:H2; [|apply Hfailed].
  intros [= <-].
  eapply capped_by; [apply with_stdout_keeps_logs|].
  eapply capped_by; [apply with_top_level_data_keeps_logs|].
  apply (with_stderr_capped _ _ _ H2).
  - intros Herr. unfold dict_mem. rewrite H1.
    exact (Hthere Herr Hsource).
  - eapply capped_by; [exact H1|exact Hcap].
Qed.

End argparse_logs.

Lemma argparse_logs_are_capped_witness :
  snd (find_json demo_json_loads "<the object, serialized>"
         "INFO fetching page 1") <> Some "stderr"
  /\ capped
       (dict_set "data"
          (VDict [("_stderr", VStr (str_slice_to 500 "INFO fetching page 1"))])
          [("status", VStr "success"); ("data", VDict []);
           ("metadata", no_metadata);
           ("logs", VList [VStr "INFO fetching page 1"])]).
Proof.
  assert (Hsource : snd (find_json demo_json_loads "<the object, serialized>"
                           "INFO fetching page 1") <> Some "stderr")
    by discriminate.
  split; [exact Hsource|].
  exact (argparse_logs_are_capped demo_json_loads (fun _ => "Expecting value")
           (fun _ => None) 0 "<the object, serialized>" "INFO fetching page 1"
           _ Hsource eq_refl).
Defined.

(** ** The environment handed to a subprocess *)

Lemma keys_dict_set {A} (k : string) (v : A) (d : dict A) :
  keys (dict_set k v d) = keys d
  \/ ((k ∉ keys d) /\ keys (dict_set k v d) = keys d ++ [k]).
Proof.
  induction d as [|[k' v'] d IH]; simpl.
  - right. split; [apply not_elem_of_nil|reflexivity].
  - destruct (String.eqb_spec k k') as [->|Hne]; simpl.
    + now left.
    + destruct IH as [->|[Hk ->]].
      * now left.
      * right. split; [|reflexivity].
        apply not_elem_of_cons. now split.
Qed.

Lemma wf_dict_set {A} (k : string) (v : A) (d : dict A) :
  wf_dict d -> wf_dict (dict_set k v d).
Proof.
  unfold wf_dict. intros Hd.
  destruct (keys_dict_set k v d) as [->|[Hk ->]]; [exact Hd|].
  apply NoDup_app. split; [exact Hd|]. split; [|apply NoDup_singleton].
  intros x Hx Hx'. apply list_elem_of_singleton in Hx'. now subst.
Qed.

Lemma dict_get_absent {A} (k : string) (d : dict A) :
  k ∉ keys d -> dict_get k d = None.
Proof.
  induction d as [|[k' v'] d IH]; simpl; [reflexivity|].
  intros Hk. apply not_elem_of_cons in Hk as [Hne Hk].
  destruct (String.eqb_spec k k'); [contradiction|now apply IH].
Qed.

Lemma dict_get_remove_same {A} (k : string) (d : dict A) :
  wf_dict d -> dict_get k (dict_remove k d) = None.
Proof.
  unfold wf_dict. induction d as [|[k' v'] d IH]; simpl; [reflexivity|].
  intros Hd. apply NoDup_cons in Hd as [Hk' Hd].
  destruct (String.eqb_spec k k') as [->|Hne]; simpl.
  - now apply dict_get_absent.
  - destruct (String.eqb_spec k k'); [contradiction|now apply IH].
Qed.

Lemma dict_get_remove_other {A} (k k' : string) (d : dict A) :
  String.eqb k k' = false -> dict_get k (dict_remove k' d) = dict_get k d.
Proof.
  intros Hne. induction d as [|[k0 v0] d IH]; simpl; [reflexivity|].
  destruct (String.eqb_spec k' k0) as [->|Hk0]; simpl.
  - now rewrite Hne.
  - now rewrite IH.
Qed.

Section subprocess_env_properties.

Variable fs : FS.node.
Variable pathsep : string.
Variable nt : bool.

(** X29: the environment [build_subprocess_env] returns activates the
    virtual environment and nothing else: it never has [PYTHONHOME];
    [VIRTUAL_ENV] is the environment's directory and [PATH] begins with
    its [bin] (or [Scripts]) directory followed by the inherited [PATH];
    [PYTHONPATH] lists the search paths that exist, in order, before the
    inherited one; every other variable is inherited unchanged. *)
Theorem subprocess_env_activates_the_venv (environ env' : dict string)
    (search_paths : list FS.path) (venv : result FS.path) :
  wf_dict environ ->
  build_subprocess_env fs pathsep nt environ search_paths venv = Ok env' ->
  exists venv_dir,
    venv = Ok venv_dir
    /\ dict_get "PYTHONHOME" env' = None
    /\ dict_get "VIRTUAL_ENV" env' = Some (path_str venv_dir)
    /\ dict_get "PATH" env'
       = Some (path_str (venv_dir ++ [if nt then "Scripts" else "bin"])
               +:+ pathsep +:+ get_default "PATH" "" environ)
    /\ dict_get "PYTHONPATH" env'
       = Some (String.concat pathsep
                 (map path_str (List.filter (FS.exists_ fs) search_paths)
                  ++ match dict_get "PYTHONPATH" environ with
                     | Some (String _ _ as inherited) => [inherited]
                     | _ => []
                     end))
    /\ forall k,
         k <> "PYTHONHOME" -> k <> "VIRTUAL_ENV" -> k <> "PATH" ->
         k <> "PYTHONPATH" ->
         dict_get k env' = dict_get k environ.
Proof.
  intros Hwf. unfold build_subprocess_env.
  destruct venv as [venv_dir|ex]; [|discriminate].
  intros [= <-]. exists venv_dir. split; [reflexivity|].
  set (pythonpath := String.concat pathsep _).
  assert (Hpythonpath :
            pythonpath
            = String.concat pathsep
                (map path_str (List.filter (FS.exists_ fs) search_paths)
                 ++ match dict_get "PYTHONPATH" environ with
                    | Some (String _ _ as inherited) => [inherited]
                    | _ => []
                    end)).
  { unfold pythonpath.
    destruct (dict_get "PYTHONPATH" environ) as [[|c s]|];
      now rewrite ?app_nil_r. }
  clearbody pythonpath.
  assert (Hpath : get_default "PATH" ""
                    (dict_set "PYTHONPATH" pythonpath environ)
                  = get_default "PATH" "" environ).
  { unfold get_default. now rewrite dict_get_set_other. }
  rewrite Hpath.
  split.
  { apply dict_get_remove_same. now repeat apply wf_dict_set. }
  split.
  { rewrite dict_get_remove_other by reflexivity. apply dict_get_set_same. }
  split.
  { rewrite dict_get_remove_other by reflexivity.
    rewrite dict_get_set_other by reflexivity. apply dict_get_set_same. }
  split.
  { rewrite dict_get_remove_other by reflexivity.
    rewrite !dict_get_set_other by reflexivity.
    rewrite dict_get_set_same. now rewrite Hpythonpath. }
  intros k Hhome Hvenv Hp Hpp.
  apply String.eqb_neq in Hhome, Hvenv, Hp, Hpp.
  rewrite dict_get_remove_other by assumption.
  now rewrite !dict_get_set_other by assumption.
Qed.

End subprocess_env_properties.

Lemma subprocess_env_witness :
  wf_dict [("PATH", "/usr/bin"); ("PYTHONHOME", "/opt/python");
           ("HOME", "/home")]
  /\ exists venv_dir,
       Ok ["home"; ".script-kiwi"; ".venv"] = Ok venv_dir
       /\ dict_get "PYTHONHOME"
            [("PATH", "/home/.script-kiwi/.venv/bin:/usr/bin");
             ("HOME", "/home");
             ("PYTHONPATH", "/work/.ai/scripts");
             ("VIRTUAL_ENV", "/home/.script-kiwi/.venv")] = None
       /\ dict_get "VIRTUAL_ENV"
            [("PATH", "/home/.script-kiwi/.venv/bin:/usr/bin");
             ("HOME", "/home");
             ("PYTHONPATH", "/work/.ai/scripts");
             ("VIRTUAL_ENV", "/home/.script-kiwi/.venv")]
          = Some (path_str venv_dir)
       /\ dict_get "PATH"
            [("PATH", "/home/.script-kiwi/.venv/bin:/usr/bin");
             ("HOME", "/home");
             ("PYTHONPATH", "/work/.ai/scripts");
             ("VIRTUAL_ENV", "/home/.script-kiwi/.venv")]
          = Some (path_str (venv_dir ++ ["bin"]) +:+ ":"
                  +:+ get_default "PATH" ""
                        [("PATH", "/usr/bin"); ("PYTHONHOME", "/opt/python");
                         ("HOME", "/home")])
       /\ dict_get "PYTHONPATH"
            [("PATH", "/home/.script-kiwi/.venv/bin:/usr/bin");
             ("HOME", "/home");
             ("PYTHONPATH", "/work/.ai/scripts");
             ("VIRTUAL_ENV", "/home/.script-kiwi/.venv")]
          = Some (String.concat ":"
                    (map path_str
                       (List.filter (FS.exists_ demo_fs)
                          [["work"; ".ai"; "scripts"]; ["nowhere"]])
                     ++ []))
       /\ forall k,
            k <> "PYTHONHOME" -> k <> "VIRTUAL_ENV" -> k <> "PATH" ->
            k <> "PYTHONPATH" ->
            dict_get k
              [("PATH", "/home/.script-kiwi/.venv/bin:/usr/bin");
               ("HOME", "/home");
               ("PYTHONPATH", "/work/.ai/scripts");
               ("VIRTUAL_ENV", "/home/.script-kiwi/.venv")]
            = dict_get k
                [("PATH", "/usr/bin"); ("PYTHONHOME", "/opt/python");
                 ("HOME", "/home")].
Proof.
  assert (Hwf : wf_dict [("PATH", "/usr/bin"); ("PYTHONHOME", "/opt/python");
                         ("HOME", "/home")]).
  { unfold wf_dict. apply (bool_decide_unpack _). vm_compute. exact I. }
  split; [exact Hwf|].
  exact (subprocess_env_activates_the_venv demo_fs ":" false
           [("PATH", "/usr/bin"); ("PYTHONHOME", "/opt/python");
            ("HOME", "/home")]
           [("PATH", "/home/.script-kiwi/.venv/bin:/usr/bin");
            ("HOME", "/home");
            ("PYTHONPATH", "/work/.ai/scripts");
            ("VIRTUAL_ENV", "/home/.script-kiwi/.venv")]
           [["work"; ".ai"; "scripts"]; ["nowhere"]]
           (Ok ["home"; ".script-kiwi"; ".venv"]) Hwf eq_refl).
Defined.
